(** * A shallow embedding of the execution engine of skill_eval
      (src/evals/src/skill_eval/runner.py).

    Python values produced by [json.loads] are modelled by [json]; an
    exception is modelled by its description [str(e)], and a computation
    that may raise by the error monad [res] (inl = raised). *)

From Stdlib Require Import String Ascii List ZArith QArith Bool Lia Permutation.
Import ListNotations.
Open Scope list_scope.
Open Scope string_scope.
Set Warnings "-register-all".

(* ------------------------------------------------------------------ *)
(** ** Exceptions *)

Definition exn := string.
Definition res (A : Type) : Type := (exn + A)%type.

Definition ret {A} (x : A) : res A := inr x.
Definition raise {A} (e : exn) : res A := inl e.
Definition bind {A B} (c : res A) (k : A -> res B) : res B :=
  match c with inl e => inl e | inr x => k x end.

Notation "x <- c ;; k" := (bind c (fun x => k))
  (at level 61, c at next level, right associativity).

(* ------------------------------------------------------------------ *)
(** ** Python string operations on [string] *)

Definition dq : string := String "034"%char EmptyString.   (* the double-quote character *)
Definition nl : string := String "010"%char EmptyString.   (* "\n" *)

(** [str.isspace] on one character (ASCII range; a multi-byte Unicode
    space such as U+00A0 is not treated as whitespace here). *)
Definition is_space (c : ascii) : bool :=
  let n := nat_of_ascii c in
  ((9 <=? n) && (n <=? 13))%nat || ((28 <=? n) && (n <=? 32))%nat.

Fixpoint lstrip (s : string) : string :=
  match s with
  | String c t => if is_space c then lstrip t else s
  | EmptyString => EmptyString
  end.

Fixpoint rstrip (s : string) : string :=
  match s with
  | EmptyString => EmptyString
  | String c t =>
      let t' := rstrip t in
      if String.eqb t' EmptyString && is_space c then EmptyString else String c t'
  end.

(** [s.strip()] *)
Definition strip (s : string) : string := rstrip (lstrip s).

(** [s.rstrip(ch)] for a single character [ch] *)
Fixpoint rstrip_char (ch : ascii) (s : string) : string :=
  match s with
  | EmptyString => EmptyString
  | String c t =>
      let t' := rstrip_char ch t in
      if String.eqb t' EmptyString && Ascii.eqb c ch then EmptyString else String c t'
  end.

(** [s.split(sep)] for a one-character separator *)
Fixpoint split_on (sep : ascii) (s : string) : list string :=
  match s with
  | EmptyString => [EmptyString]
  | String c t =>
      if Ascii.eqb c sep then EmptyString :: split_on sep t
      else match split_on sep t with
           | h :: r => String c h :: r
           | [] => [String c EmptyString]
           end
  end.

(** [sep.join(l)] *)
Fixpoint join (sep : string) (l : list string) : string :=
  match l with
  | [] => EmptyString
  | [x] => x
  | x :: r => x ++ sep ++ join sep r
  end.

(** [s.replace(a, b)] for one-character [a] and [b] *)
Fixpoint replace_char (a b : ascii) (s : string) : string :=
  match s with
  | EmptyString => EmptyString
  | String c t => String (if Ascii.eqb c a then b else c) (replace_char a b t)
  end.

(** [ch in s] *)
Fixpoint has_char (ch : ascii) (s : string) : bool :=
  match s with
  | EmptyString => false
  | String c t => Ascii.eqb c ch || has_char ch t
  end.

(** Decimal rendering of an integer, as [str(n)] / an f-string does. *)
Fixpoint digits_of_pos (fuel : nat) (n : Z) (acc : string) : string :=
  match fuel with
  | O => acc
  | S f =>
      let d := Z.modulo n 10 in
      let acc' := String (ascii_of_nat (48 + Z.to_nat d)) acc in
      if (n <? 10)%Z then acc' else digits_of_pos f (Z.div n 10) acc'
  end.

Definition z_to_string (n : Z) : string :=
  if (n <? 0)%Z then "-" ++ digits_of_pos 64 (Z.opp n) EmptyString
  else digits_of_pos 64 n EmptyString.

(* ------------------------------------------------------------------ *)
(** ** JSON values as [json.loads] returns them *)

(** Numbers are integers here: the decoder only compares numbers,
    tests their truth value and adds them. *)
Inductive json : Type :=
| JNull
| JBool (b : bool)
| JNum (z : Z)
| JStr (s : string)
| JArr (l : list json)
| JObj (kvs : list (string * json)).

(** [type(v).__name__] *)
Definition type_name (v : json) : string :=
  match v with
  | JNull => "NoneType" | JBool _ => "bool" | JNum _ => "int"
  | JStr _ => "str" | JArr _ => "list" | JObj _ => "dict"
  end.

Definition attr_error (v : json) (attr : string) : exn :=
  "'" ++ type_name v ++ "' object has no attribute '" ++ attr ++ "'".

(** [bool(v)] *)
Definition truthy (v : json) : bool :=
  match v with
  | JNull => false
  | JBool b => b
  | JNum z => negb (Z.eqb z 0)
  | JStr s => negb (String.eqb s EmptyString)
  | JArr l => match l with [] => false | _ => true end
  | JObj l => match l with [] => false | _ => true end
  end.

(** [v == "lit"] for a string literal *)
Definition is_str (v : json) (lit : string) : bool :=
  match v with JStr s => String.eqb s lit | _ => false end.

(** Lookup in a dict decoded by [json.loads]: the last binding of a
    duplicated key wins. *)
Fixpoint assoc_last (k : string) (kvs : list (string * json)) : option json :=
  match kvs with
  | [] => None
  | (k', v) :: t =>
      match assoc_last k t with
      | Some w => Some w
      | None => if String.eqb k k' then Some v else None
      end
  end.

(** [d.get(k, default)] where [d] is known to be a dict *)
Definition dict_get (kvs : list (string * json)) (k : string) (default : json) : json :=
  match assoc_last k kvs with Some v => v | None => default end.

(** [v.get(k, default)]: raises AttributeError unless [v] is a dict *)
Definition py_get (v : json) (k : string) (default : json) : res json :=
  match v with
  | JObj kvs => ret (dict_get kvs k default)
  | _ => raise (attr_error v "get")
  end.

(** [list(d.keys())]: first-occurrence order, duplicates merged *)
Fixpoint dict_keys_aux (seen : list string) (kvs : list (string * json)) : list string :=
  match kvs with
  | [] => []
  | (k, _) :: t =>
      if existsb (String.eqb k) seen then dict_keys_aux seen t
      else k :: dict_keys_aux (k :: seen) t
  end.
Definition dict_keys (kvs : list (string * json)) : list string := dict_keys_aux [] kvs.

(** [for x in v]: the items the loop visits, or TypeError *)
Fixpoint string_chars (s : string) : list json :=
  match s with
  | EmptyString => []
  | String c t => JStr (String c EmptyString) :: string_chars t
  end.

Definition py_iter (v : json) : res (list json) :=
  match v with
  | JArr l => ret l
  | JStr s => ret (string_chars s)
  | JObj kvs => ret (map JStr (dict_keys kvs))
  | _ => raise ("'" ++ type_name v ++ "' object is not iterable")
  end.

(** [a + b] on decoded values *)
Definition py_add (a b : json) : res json :=
  let as_int v := match v with JNum z => Some z | JBool b => Some (if b then 1 else 0)%Z | _ => None end in
  match as_int a, as_int b with
  | Some x, Some y => ret (JNum (x + y))
  | _, _ =>
      match a, b with
      | JStr x, JStr y => ret (JStr (x ++ y))
      | JArr x, JArr y => ret (JArr (x ++ y)%list)
      | JStr _, _ => raise ("can only concatenate str (not " ++ dq ++ type_name b ++ dq ++ ") to str")
      | JArr _, _ => raise ("can only concatenate list (not " ++ dq ++ type_name b ++ dq ++ ") to list")
      | _, _ => raise ("unsupported operand type(s) for +: '" ++ type_name a ++ "' and '" ++ type_name b ++ "'")
      end
  end.

(** Equality of hashable values as a Python set sees it ([True == 1]) *)
Definition py_eq (a b : json) : bool :=
  let as_int v := match v with JNum z => Some z | JBool b => Some (if b then 1 else 0)%Z | _ => None end in
  match as_int a, as_int b with
  | Some x, Some y => Z.eqb x y
  | _, _ =>
      match a, b with
      | JNull, JNull => true
      | JStr x, JStr y => String.eqb x y
      | _, _ => false
      end
  end.

(** [s.add(v)] on a set kept in insertion order *)
Definition set_add (s : list json) (v : json) : res (list json) :=
  match v with
  | JArr _ | JObj _ => raise ("unhashable type: '" ++ type_name v ++ "'")
  | _ => ret (if existsb (py_eq v) s then s else (s ++ [v])%list)
  end.

(* ------------------------------------------------------------------ *)
(** ** [json.loads] on one line

    A small JSON reader used to run the model on concrete lines.  It
    accepts objects, arrays, strings with the one-character escapes,
    integers, [true], [false] and [null]; a [\u] escape or a number with
    a fraction or exponent is not read (it returns [None]).  The theorems
    about the decoder below hold for every [json_loads] function. *)

Definition json_ws (c : ascii) : bool :=
  let n := nat_of_ascii c in
  (n =? 32)%nat || (n =? 9)%nat || (n =? 10)%nat || (n =? 13)%nat.

Fixpoint skip_ws (s : string) : string :=
  match s with
  | String c t => if json_ws c then skip_ws t else s
  | EmptyString => EmptyString
  end.

Definition json_escape (e : ascii) : option ascii :=
  match nat_of_ascii e with
  | 34 => Some e | 92 => Some e | 47 => Some e
  | 98 => Some "008"%char | 102 => Some "012"%char | 110 => Some "010"%char
  | 114 => Some "013"%char | 116 => Some "009"%char
  | _ => None
  end%nat.

(** the body of a string literal, after its opening quote *)
Fixpoint json_string_body (s : string) : option (string * string) :=
  match s with
  | EmptyString => None
  | String c t =>
      if (nat_of_ascii c =? 34)%nat then Some (EmptyString, t)
      else if (nat_of_ascii c =? 92)%nat then
        match t with
        | String e t' =>
            match json_escape e, json_string_body t' with
            | Some ch, Some (body, rest) => Some (String ch body, rest)
            | _, _ => None
            end
        | EmptyString => None
        end
      else if (nat_of_ascii c <? 32)%nat then None
      else match json_string_body t with
           | Some (body, rest) => Some (String c body, rest)
           | None => None
           end
  end.

Definition is_digit (c : ascii) : bool :=
  let n := nat_of_ascii c in ((48 <=? n) && (n <=? 57))%nat.

Fixpoint json_digits (s : string) (acc : Z) : Z * string :=
  match s with
  | String c t =>
      if is_digit c then json_digits t (acc * 10 + Z.of_nat (nat_of_ascii c - 48))%Z
      else (acc, s)
  | EmptyString => (acc, s)
  end.

Definition json_number (s : string) : option (json * string) :=
  let '(neg, s1) := match s with
                    | String c t => if (nat_of_ascii c =? 45)%nat then (true, t) else (false, s)
                    | EmptyString => (false, s)
                    end in
  match s1 with
  | String c t =>
      if negb (is_digit c) then None else
      let '(n, rest) := if (nat_of_ascii c =? 48)%nat then (0%Z, t) else json_digits s1 0 in
      let frac := match rest with
                  | String d _ => (nat_of_ascii d =? 46)%nat || (nat_of_ascii d =? 101)%nat
                                  || (nat_of_ascii d =? 69)%nat
                  | EmptyString => false
                  end in
      if frac then None else Some (JNum (if neg then Z.opp n else n), rest)
  | EmptyString => None
  end.

Definition starts_with (p s : string) : option string :=
  if String.prefix p s then Some (substring (String.length p) (String.length s) s) else None.

Fixpoint json_value (fuel : nat) (s : string) {struct fuel} : option (json * string) :=
  match fuel with
  | O => None
  | S f =>
      let s := skip_ws s in
      match s with
      | EmptyString => None
      | String c t =>
          let n := nat_of_ascii c in
          if (n =? 123)%nat then                                   (* { *)
            match skip_ws t with
            | String d r => if (nat_of_ascii d =? 125)%nat then Some (JObj [], r)
                            else json_members f (skip_ws t) []
            | EmptyString => None
            end
          else if (n =? 91)%nat then                               (* [ *)
            match skip_ws t with
            | String d r => if (nat_of_ascii d =? 93)%nat then Some (JArr [], r)
                            else json_elements f (skip_ws t) []
            | EmptyString => None
            end
          else if (n =? 34)%nat then
            match json_string_body t with
            | Some (body, r) => Some (JStr body, r)
            | None => None
            end
          else match starts_with "null" s, starts_with "true" s, starts_with "false" s with
               | Some r, _, _ => Some (JNull, r)
               | _, Some r, _ => Some (JBool true, r)
               | _, _, Some r => Some (JBool false, r)
               | _, _, _ => json_number s
               end
      end
  end
with json_elements (fuel : nat) (s : string) (acc : list json) {struct fuel} : option (json * string) :=
  match fuel with
  | O => None
  | S f =>
      match json_value f s with
      | Some (v, r) =>
          match skip_ws r with
          | String d r' =>
              if (nat_of_ascii d =? 44)%nat then json_elements f r' (acc ++ [v])%list
              else if (nat_of_ascii d =? 93)%nat then Some (JArr (acc ++ [v])%list, r')
              else None
          | EmptyString => None
          end
      | None => None
      end
  end
with json_members (fuel : nat) (s : string) (acc : list (string * json)) {struct fuel}
  : option (json * string) :=
  match fuel with
  | O => None
  | S f =>
      match skip_ws s with
      | String q t =>
          if negb (nat_of_ascii q =? 34)%nat then None else
          match json_string_body t with
          | Some (k, r) =>
              match skip_ws r with
              | String colon r' =>
                  if negb (nat_of_ascii colon =? 58)%nat then None else
                  match json_value f r' with
                  | Some (v, r'') =>
                      match skip_ws r'' with
                      | String d x =>
                          if (nat_of_ascii d =? 44)%nat then json_members f x (acc ++ [(k, v)])%list
                          else if (nat_of_ascii d =? 125)%nat then Some (JObj (acc ++ [(k, v)])%list, x)
                          else None
                      | EmptyString => None
                      end
                  | None => None
                  end
              | EmptyString => None
              end
          | None => None
          end
      | EmptyString => None
      end
  end.

(** [json.loads(line)]: [None] is a JSONDecodeError *)
Definition py_json_loads (s : string) : option json :=
  match json_value (3 * String.length s + 3) s with
  | Some (v, rest) => if String.eqb (skip_ws rest) EmptyString then Some v else None
  | None => None
  end.

(** a JSON string literal, for writing concrete stream lines *)
Definition jq (s : string) : string := dq ++ s ++ dq.

(** [for x in xs: st = f(st, x)] where the body may raise *)
Fixpoint fold_res {A B : Type} (f : A -> B -> res A) (st : A) (xs : list B) : res A :=
  match xs with
  | [] => ret st
  | x :: r => st' <- f st x ;; fold_res f st' r
  end.

(* ------------------------------------------------------------------ *)
(** ** Stream decoder: [Runner._parse_json_output] *)

(** The dict returned by [_parse_json_output]; [None] is [JNull]. *)
Record parse_result : Type := mk_result {
  output_text : string;
  skills_invoked : list json;
  tools_used : list json;        (* [list(tools_used)] of a set *)
  model : json;
  skills_available : json;
  mcp_servers : json;
  duration_ms : json;
  num_turns : json;
  total_cost_usd : json;
  input_tokens : json;
  output_tokens : json
}.

Definition initial_result : parse_result :=
  mk_result "" [] [] JNull (JArr []) (JArr []) JNull JNull JNull JNull JNull.

(** Local variables of the loop: [result], [text_parts], [skills_invoked], [tools_used]. *)
Record dstate : Type := mk_dstate {
  d_result : parse_result;
  text_parts : list string;
  d_skills : list json;
  d_tools : list json
}.

Definition initial_dstate : dstate := mk_dstate initial_result [] [] [].

Definition set_text_parts (st : dstate) (l : list string) : dstate :=
  mk_dstate (d_result st) l (d_skills st) (d_tools st).
Definition set_skills (st : dstate) (l : list json) : dstate :=
  mk_dstate (d_result st) (text_parts st) l (d_tools st).
Definition set_tools (st : dstate) (l : list json) : dstate :=
  mk_dstate (d_result st) (text_parts st) (d_skills st) l.
Definition set_result (st : dstate) (r : parse_result) : dstate :=
  mk_dstate r (text_parts st) (d_skills st) (d_tools st).

(** One item of [msg["message"]["content"]] (lines 365-379). *)
Definition decode_segment (st : dstate) (content : json) : res dstate :=
  match content with
  | JObj kvs =>
      let ty := dict_get kvs "type" JNull in
      if is_str ty "text" then
        match dict_get kvs "text" (JStr "") with
        | JStr t =>
            let text := strip t in
            ret (if String.eqb text "" then st
                 else set_text_parts st (text_parts st ++ [text])%list)
        | v => raise (attr_error v "strip")
        end
      else if is_str ty "tool_use" then
        let tool_name := dict_get kvs "name" (JStr "") in
        tools <- (if truthy tool_name then set_add (d_tools st) tool_name else ret (d_tools st)) ;;
        let st1 := set_tools st tools in
        if is_str tool_name "Skill" then
          let skill_input := dict_get kvs "input" (JObj []) in
          skill_name <- py_get skill_input "skill" (JStr "") ;;
          ret (if truthy skill_name then set_skills st1 (d_skills st1 ++ [skill_name])%list else st1)
        else ret st1
      else ret st
  | _ => ret st
  end.

(** One decoded object line (lines 357-388). *)
Definition decode_msg (st : dstate) (kvs : list (string * json)) : res dstate :=
  let ty := dict_get kvs "type" JNull in
  let r := d_result st in
  (* init message *)
  let st1 :=
    if is_str ty "system" && is_str (dict_get kvs "subtype" JNull) "init" then
      let ms := match dict_get kvs "mcp_servers" JNull with
                | JObj m => JArr (map JStr (dict_keys m))
                | _ => dict_get kvs "mcp_servers" (JArr [])
                end in
      set_result st (mk_result (output_text r) (skills_invoked r) (tools_used r)
                       (dict_get kvs "model" JNull) (dict_get kvs "skills" (JArr [])) ms
                       (duration_ms r) (num_turns r) (total_cost_usd r) (input_tokens r)
                       (output_tokens r))
    else st in
  (* assistant message *)
  st2 <- (if is_str ty "assistant" then
            message <- ret (dict_get kvs "message" (JObj [])) ;;
            contents <- py_get message "content" (JArr []) ;;
            items <- py_iter contents ;;
            fold_res decode_segment st1 items
          else ret st1) ;;
  (* result message *)
  if is_str ty "result" then
    let usage := dict_get kvs "usage" (JObj []) in
    a <- py_get usage "input_tokens" (JNum 0) ;;
    b <- py_get usage "cache_read_input_tokens" (JNum 0) ;;
    ab <- py_add a b ;;
    c <- py_get usage "cache_creation_input_tokens" (JNum 0) ;;
    abc <- py_add ab c ;;
    ot <- py_get usage "output_tokens" JNull ;;
    let r2 := d_result st2 in
    ret (set_result st2 (mk_result (output_text r2) (skills_invoked r2) (tools_used r2)
                          (model r2) (skills_available r2) (mcp_servers r2)
                          (dict_get kvs "duration_ms" JNull) (dict_get kvs "num_turns" JNull)
                          (dict_get kvs "total_cost_usd" JNull) abc ot))
  else ret st2.

Section StreamDecoder.

Variable json_loads : string -> option json.

(** One line of the stream (lines 346-354). *)
Definition decode_line (st : dstate) (line : string) : res dstate :=
  if String.eqb (strip line) "" then ret st
  else match json_loads line with
       | None => ret st                         (* JSONDecodeError *)
       | Some (JObj kvs) => decode_msg st kvs
       | Some _ => ret st                       (* not a dict *)
       end.

Definition finish_result (st : dstate) : parse_result :=
  let r := d_result st in
  mk_result (join (nl ++ nl) (text_parts st)) (d_skills st) (d_tools st)
    (model r) (skills_available r) (mcp_servers r) (duration_ms r) (num_turns r)
    (total_cost_usd r) (input_tokens r) (output_tokens r).

Definition decode_lines (lines : list string) : res dstate :=
  fold_res decode_line initial_dstate lines.

Definition _parse_json_output (json_str : string) : res parse_result :=
  st <- decode_lines (split_on "010"%char (strip json_str)) ;;
  ret (finish_result st).

End StreamDecoder.

(* ------------------------------------------------------------------ *)
(** ** [urllib.parse.urlparse] *)

Record url_parts : Type := mk_url {
  scheme : string; netloc : string; url_path : string;
  params : string; query : string; fragment : string
}.

(** position of the first [c] in [s] ([str.find]) *)
Fixpoint find_char (c : ascii) (s : string) : option nat :=
  match s with
  | EmptyString => None
  | String d t => if Ascii.eqb d c then Some O
                  else match find_char c t with Some i => Some (S i) | None => None end
  end.

(** [s.split(c, 1)] when [c in s]; [None] when it is not *)
Definition split_once (c : ascii) (s : string) : option (string * string) :=
  match find_char c s with
  | Some i => Some (substring 0 i s, substring (S i) (String.length s) s)
  | None => None
  end.

Definition is_alpha (c : ascii) : bool :=
  let n := nat_of_ascii c in ((65 <=? n) && (n <=? 90))%nat || ((97 <=? n) && (n <=? 122))%nat.

(** [scheme_chars]: letters, digits, [+ - .] *)
Definition scheme_char (c : ascii) : bool :=
  is_alpha c || is_digit c || has_char c "+-.".

Fixpoint all_chars (p : ascii -> bool) (s : string) : bool :=
  match s with EmptyString => true | String c t => p c && all_chars p t end.

Fixpoint lower (s : string) : string :=
  match s with
  | EmptyString => EmptyString
  | String c t =>
      let n := nat_of_ascii c in
      String (if ((65 <=? n) && (n <=? 90))%nat then ascii_of_nat (n + 32) else c) (lower t)
  end.

(** [url.lstrip(_WHATWG_C0_CONTROL_OR_SPACE)] *)
Fixpoint lstrip_c0 (s : string) : string :=
  match s with
  | String c t => if (nat_of_ascii c <=? 32)%nat then lstrip_c0 t else s
  | EmptyString => EmptyString
  end.

(** removal of [_UNSAFE_URL_BYTES_TO_REMOVE] (tab, CR, LF) *)
Fixpoint remove_unsafe (s : string) : string :=
  match s with
  | EmptyString => EmptyString
  | String c t =>
      let n := nat_of_ascii c in
      if (n =? 9)%nat || (n =? 10)%nat || (n =? 13)%nat then remove_unsafe t
      else String c (remove_unsafe t)
  end.

(** [_splitnetloc(url, 2)]: the netloc runs up to the first of [/?#] *)
Fixpoint split_netloc (s : string) : string * string :=
  match s with
  | EmptyString => (EmptyString, EmptyString)
  | String c t =>
      if has_char c "/?#" then (EmptyString, s)
      else let '(a, b) := split_netloc t in (String c a, b)
  end.

(** [str.rfind('/')] *)
Fixpoint rfind_char (c : ascii) (s : string) : option nat :=
  match s with
  | EmptyString => None
  | String d t =>
      match rfind_char c t with
      | Some i => Some (S i)
      | None => if Ascii.eqb d c then Some O else None
      end
  end.

(** [_splitparams(url)]: a [;] in the last path segment starts the params *)
Definition split_params (u : string) : string * string :=
  let start := match rfind_char "/"%char u with Some i => i | None => O end in
  match find_char ";"%char (substring start (String.length u) u) with
  | Some j => (substring 0 (start + j) u, substring (start + j + 1) (String.length u) u)
  | None => (u, EmptyString)
  end.

Definition uses_params : list string :=
  [""; "ftp"; "hdl"; "prospero"; "http"; "imap"; "https"; "shttp"; "rtsp"; "rtsps";
   "rtspu"; "sip"; "sips"; "mms"; "sftp"; "tel"].

(** [urlparse(url)].  The IPv6 check raises on an unbalanced bracket; the
    further validation of a bracketed host is not modelled. *)
Definition urlparse (url0 : string) : res url_parts :=
  let url1 := remove_unsafe (lstrip_c0 url0) in
  let '(sch, url2) :=
    match find_char ":"%char url1, url1 with
    | Some (S _ as i), String c0 _ =>
        if is_alpha c0 && all_chars scheme_char (substring 0 i url1)
        then (lower (substring 0 i url1), substring (S i) (String.length url1) url1)
        else (EmptyString, url1)
    | _, _ => (EmptyString, url1)
    end in
  let '(net, url3) :=
    if String.prefix "//" url2 then split_netloc (substring 2 (String.length url2) url2)
    else (EmptyString, url2) in
  if xorb (has_char "["%char net) (has_char "]"%char net) then raise "Invalid IPv6 URL" else
  let '(url4, frag) := match split_once "#"%char url3 with Some p => p | None => (url3, EmptyString) end in
  let '(url5, qry) := match split_once "?"%char url4 with Some p => p | None => (url4, EmptyString) end in
  let '(pth, prm) :=
    if existsb (String.eqb sch) uses_params && has_char ";"%char url5 then split_params url5
    else (url5, EmptyString) in
  ret (mk_url sch net pth prm qry frag).

(* ------------------------------------------------------------------ *)
(** ** Remote skill URLs *)

(** [Runner._is_url] *)
Definition _is_url (p : string) : bool :=
  match urlparse p with
  | inr u => String.eqb (scheme u) "http" || String.eqb (scheme u) "https"
  | inl _ => false
  end.

(** [Runner._normalize_github_url] *)
Definition _normalize_github_url (url : string) : res string :=
  parsed <- urlparse url ;;
  if negb (String.eqb (netloc parsed) "github.com") then ret url else
  let path_parts := split_on "/"%char (url_path parsed) in
  if (5 <=? length path_parts)%nat && String.eqb (nth 3 path_parts "") "blob" then
    let new_path := join "/" (firstn 3 path_parts ++ skipn 4 path_parts)%list in
    ret ("https://raw.githubusercontent.com" ++ new_path)
  else ret url.

(** [xs[-2]] for a list of length at least 2 *)
Definition second_last (xs : list string) : string := nth (length xs - 2) xs "".

(** The folder name computed by [Runner._download_skill] (lines 160-181),
    together with the URL it fetches. *)
Definition download_target (url : string) : res (string * string) :=
  download_url <- _normalize_github_url url ;;
  parsed <- urlparse download_url ;;
  let p := rstrip_char "/"%char (url_path parsed) in
  let all_parts := filter (fun s => negb (String.eqb s "")) (split_on "/"%char p) in
  let folder_name :=
    if String.eqb (netloc parsed) "raw.githubusercontent.com" then
      if (length all_parts <=? 4)%nat then
        (if (2 <=? length all_parts)%nat then nth 1 all_parts "" else "downloaded-skill")
      else second_last all_parts
    else if (2 <=? length all_parts)%nat then second_last all_parts
    else replace_char "."%char "-"%char (netloc parsed) in
  ret (download_url, folder_name).

(* ------------------------------------------------------------------ *)
(** ** Directory trees *)

(** A file holds its text and its modification time; a directory its
    entries, one per name as [os.listdir] lists them. *)
Inductive node : Type :=
| NFile (content : string) (mtime : Z)
| NDir (entries : list (string * node)).

Definition dir : Type := list (string * node).
Definition path : Type := list string.

Fixpoint lookup_entry (n : string) (d : dir) : option node :=
  match d with
  | [] => None
  | (k, c) :: t => if String.eqb k n then Some c else lookup_entry n t
  end.

Fixpoint node_at (p : path) (n : node) : option node :=
  match p with
  | [] => Some n
  | x :: r =>
      match n with
      | NDir es => match lookup_entry x es with Some c => node_at r c | None => None end
      | NFile _ _ => None
      end
  end.

(** replace the entry named [n], or add it at the end *)
Fixpoint set_entry (n : string) (c : node) (d : dir) : dir :=
  match d with
  | [] => [(n, c)]
  | (k, c') :: t => if String.eqb k n then (k, c) :: t else (k, c') :: set_entry n c t
  end.

Definition render_path (p : path) : string := join "/" p.

(** [Path(p).mkdir(parents=True, exist_ok=True)] *)
Fixpoint mkdir_p (p : path) (d : dir) : res dir :=
  match p with
  | [] => ret d
  | x :: r =>
      match lookup_entry x d with
      | None => sub <- mkdir_p r [] ;; ret (set_entry x (NDir sub) d)
      | Some (NDir sub) => sub' <- mkdir_p r sub ;; ret (set_entry x (NDir sub') d)
      | Some (NFile _ _) => raise ("[Errno 17] File exists: '" ++ x ++ "'")
      end
  end.

(** writing a file whose parent directory exists ([write_text], [shutil.copy]) *)
Fixpoint write_file (p : path) (content : string) (mtime : Z) (d : dir) : res dir :=
  match p with
  | [] => raise "[Errno 21] Is a directory"
  | [x] =>
      match lookup_entry x d with
      | Some (NDir _) => raise ("[Errno 21] Is a directory: '" ++ x ++ "'")
      | _ => ret (set_entry x (NFile content mtime) d)
      end
  | x :: r =>
      match lookup_entry x d with
      | Some (NDir sub) => sub' <- write_file r content mtime sub ;; ret (set_entry x (NDir sub') d)
      | Some (NFile _ _) => raise ("[Errno 20] Not a directory: '" ++ x ++ "'")
      | None => raise ("[Errno 2] No such file or directory: '" ++ render_path p ++ "'")
      end
  end.

(** placing a whole tree at a path that must not exist yet
    ([shutil.copytree(src, dst)] without [dirs_exist_ok]) *)
Fixpoint put_tree (p : path) (t : dir) (d : dir) : res dir :=
  match p with
  | [] => raise "[Errno 17] File exists"
  | [x] =>
      match lookup_entry x d with
      | Some _ => raise ("[Errno 17] File exists: '" ++ x ++ "'")
      | None => ret (set_entry x (NDir t) d)
      end
  | x :: r =>
      match lookup_entry x d with
      | Some (NDir sub) => sub' <- put_tree r t sub ;; ret (set_entry x (NDir sub') d)
      | Some (NFile _ _) => raise ("[Errno 20] Not a directory: '" ++ x ++ "'")
      | None => sub' <- put_tree r t [] ;; ret (set_entry x (NDir sub') d)
      end
  end.

(* ------------------------------------------------------------------ *)
(** ** Change-set detector: [_find_changed_files] *)

Definition excluded (exclude_names : list string) (n : string) : bool :=
  existsb (String.eqb n) exclude_names.

(** the entries [filecmp.dircmp(..., ignore=exclude_names)] lists *)
Definition visible (exclude_names : list string) (d : dir) : dir :=
  filter (fun e => negb (excluded exclude_names (fst e))) d.

(** [filecmp.cmp(f1, f2, shallow=True)]: equal stat signatures (size and
    modification time) count as equal, otherwise the contents decide. *)
Definition cmp_file (c1 : string) (m1 : Z) (c2 : string) (m2 : Z) : bool :=
  if (String.length c1 =? String.length c2)%nat && Z.eqb m1 m2 then true
  else if negb (String.length c1 =? String.length c2)%nat then false
  else String.eqb c1 c2.

(** the files [d.rglob("*")] yields below a directory, relative to it *)
Fixpoint rglob_files (n : node) : list path :=
  match n with
  | NFile _ _ => []
  | NDir es =>
      (fix go (es : list (string * node)) : list path :=
         match es with
         | [] => []
         | (k, c) :: t =>
             (match c with
              | NFile _ _ => [[k]]
              | NDir _ => map (cons k) (rglob_files c)
              end ++ go t)%list
         end) es
  end.

(** [for f in item.rglob("*"): if f.is_file() and f.name not in exclude_names]:
    the files below [n], as paths prefixed with [prefix] *)
Definition new_files_under (exclude_names : list string) (prefix : path) (n : node) : list path :=
  map (fun p => (prefix ++ p)%list)
      (filter (fun p => negb (excluded exclude_names (last p ""))) (rglob_files n)).

(** [_compare_dirs] on [dircmp(left, right)] at relative path [rel].  The
    paths come in the order: differing files, new entries, subdirectories
    (within each group the order of the listings). *)
Fixpoint compare_dirs (exclude_names : list string) (rel : path) (ln rn : node) {struct rn}
  : list path :=
  match ln, rn with
  | NDir le, NDir re =>
      let lv := visible exclude_names le in
      let rv := visible exclude_names re in
      let diff_files :=
        flat_map (fun e =>
          match snd e, lookup_entry (fst e) rv with
          | NFile c1 m1, Some (NFile c2 m2) => if cmp_file c1 m1 c2 m2 then [] else [fst e]
          | _, _ => []
          end) lv in
      let right_only := filter (fun e => negb (existsb (String.eqb (fst e)) (map fst lv))) rv in
      (map (fun n => rel ++ [n])
           (filter (fun n => negb (excluded exclude_names n)) diff_files)
       ++ flat_map (fun e =>
            if excluded exclude_names (fst e) then []
            else match snd e with
                 | NFile _ _ => [rel ++ [fst e]]
                 | NDir _ => new_files_under exclude_names (rel ++ [fst e]) (snd e)
                 end) right_only
       ++ (fix subdirs (es : list (string * node)) : list path :=
             match es with
             | [] => []
             | (n, c) :: t =>
                 (if excluded exclude_names n then []
                  else match c, lookup_entry n lv with
                       | NDir _, Some (NDir _ as l) => compare_dirs exclude_names (rel ++ [n]) l c
                       | _, _ => []
                       end) ++ subdirs t
             end) re)%list
  | _, _ => []
  end.

(** [_find_changed_files(original_dir, modified_dir, exclude_names)];
    [None] stands for an original directory that is [None] or does not exist. *)
Definition _find_changed_files (original_dir : option dir) (modified_dir : dir)
    (exclude_names : list string) : list path :=
  match original_dir with
  | None => new_files_under exclude_names [] (NDir modified_dir)
  | Some o => compare_dirs exclude_names [] (NDir o) (NDir modified_dir)
  end.

(* ------------------------------------------------------------------ *)
(** ** Process supervisor: [Runner.run_claude] *)

(** [a > b] on the float seconds of [time.time()] *)
Definition Qgt (a b : Q) : bool := negb (Qle_bool a b).

(** One turn of the loop [while proc.poll() is None]: whether the
    process had exited, the two clock readings of lines 517-518, what
    [_read_output_line] returned, and the clock reading of line 540. *)
Record tick : Type := mk_tick {
  poll_exited : bool;
  now_elapsed : Q;
  now_stall : Q;
  line_read : option string;
  now_after_read : Q
}.

(** What the launched process does: [Popen] raised, or the process ran
    with the given loop observations, exit code, output left in the pipes
    after the loop, and standard error. *)
Inductive process_run : Type :=
| PopenFailed (e : exn)
| Ran (start_time : Q) (ticks : list tick) (returncode : Z)
      (remaining_stdout : string) (stderr : string).

Definition timeout_message (timeout : Z) : string :=
  "Timeout after " ++ z_to_string (Z.div timeout 60) ++ " minutes".

Definition stall_message (stall_timeout : Z) : string :=
  "Stalled for " ++ z_to_string stall_timeout ++ "s (possibly waiting for approval)".

(** The command line (lines 478-497). *)
Definition claude_cmd (prompt : string) (mcp_config_path : option string)
    (allowed_tools : option (list string)) : list string :=
  (["claude"; "--print"; "--verbose"; "--output-format"; "stream-json"]
   ++ match allowed_tools with
      | Some (_ :: _ as tools) => ["--allowedTools"; join "," tools; "--permission-mode"; "dontAsk"]
      | _ => ["--dangerously-skip-permissions"]
      end
   ++ match mcp_config_path with Some p => ["--mcp-config"; p] | None => [] end
   ++ ["-p"; prompt])%list.

(** The result tuple [(parsed_output, success, error, raw_json)].  An
    empty dict [{}] is [initial_result]: every later read of [parsed] is a
    [.get] whose default is the value [initial_result] holds. *)
Record claude_result : Type := mk_claude_result {
  cr_parsed : parse_result;
  cr_success : bool;
  cr_error : option string;
  cr_raw : string
}.

Definition with_output_text (r : parse_result) (t : string) : parse_result :=
  mk_result t (skills_invoked r) (tools_used r) (model r) (skills_available r)
    (mcp_servers r) (duration_ms r) (num_turns r) (total_cost_usd r) (input_tokens r)
    (output_tokens r).

Section Supervisor.

Variable json_loads : string -> option json.

(** [Runner._log_progress] (logging itself has no effect here) *)
Definition _log_progress (line : string) : res unit :=
  match json_loads line with
  | None => ret tt
  | Some msg =>
      ty <- py_get msg "type" JNull ;;
      if negb (is_str ty "assistant") then ret tt else
      message <- py_get msg "message" (JObj []) ;;
      contents <- py_get message "content" (JArr []) ;;
      items <- py_iter contents ;;
      fold_res (fun _ content =>
        match content with
        | JObj kvs =>
            if is_str (dict_get kvs "type" JNull) "tool_use"
               && is_str (dict_get kvs "name" (JStr "unknown")) "Skill"
            then _ <- py_get (dict_get kvs "input" (JObj [])) "skill" (JStr "unknown") ;; ret tt
            else ret tt
        | _ => ret tt
        end) tt items
  end.

(** The supervision loop (lines 516-541): the lines read, and the
    [error_msg] it leaves. *)
Fixpoint supervise (timeout stall_timeout : Z) (start_time last_output_time : Q)
    (ticks : list tick) (stdout_lines : list string) : res (list string * option string) :=
  match ticks with
  | [] => ret (stdout_lines, None)
  | tk :: rest =>
      if poll_exited tk then ret (stdout_lines, None) else
      let elapsed := (now_elapsed tk - start_time)%Q in
      let stall_duration := (now_stall tk - last_output_time)%Q in
      if Qgt elapsed (inject_Z timeout) then ret (stdout_lines, Some (timeout_message timeout))
      else if Qgt stall_duration (inject_Z stall_timeout) then
        ret (stdout_lines, Some (stall_message stall_timeout))
      else match line_read tk with
           | None => supervise timeout stall_timeout start_time last_output_time rest stdout_lines
           | Some line =>
               if String.eqb line "" then
                 supervise timeout stall_timeout start_time last_output_time rest stdout_lines
               else
                 _ <- _log_progress line ;;
                 supervise timeout stall_timeout start_time (now_after_read tk) rest
                   (stdout_lines ++ [line])%list
           end
  end.

(** The body of the [try] (lines 509-556). *)
Definition run_claude_body (timeout stall_timeout : Z) (start_time : Q) (ticks : list tick)
    (returncode : Z) (remaining : string) (stderr : string) : res claude_result :=
  loop <- supervise timeout stall_timeout start_time start_time ticks [] ;;
  let '(lines, error_msg) := loop in
  let stdout_lines := if String.eqb remaining "" then lines else (lines ++ [remaining])%list in
  let raw_json := String.concat "" stdout_lines in
  parsed <- (if String.eqb raw_json "" then ret initial_result
             else _parse_json_output json_loads raw_json) ;;
  let parsed := if String.eqb stderr "" then parsed
                else with_output_text parsed (output_text parsed ++ nl ++ nl ++ "[stderr]" ++ nl ++ stderr) in
  match error_msg with
  | Some e => ret (mk_claude_result parsed false (Some e) raw_json)
  | None => ret (mk_claude_result parsed (Z.eqb returncode 0) None raw_json)
  end.

(** [Runner.run_claude]: the [except Exception] of line 558 turns any
    exception into a failed result. *)
Definition run_claude (timeout stall_timeout : Z) (p : process_run) : claude_result :=
  match p with
  | PopenFailed e => mk_claude_result initial_result false (Some e) ""
  | Ran start ticks rc remaining stderr =>
      match run_claude_body timeout stall_timeout start ticks rc remaining stderr with
      | inr r => r
      | inl e => mk_claude_result initial_result false (Some e) ""
      end
  end.

End Supervisor.

(* ------------------------------------------------------------------ *)
(** ** Data model (models.py, runner.py) *)

Record Scenario : Type := mk_scenario {
  sc_name : string;
  sc_path : path;
  sc_prompt : string
}.

(** [Scenario.context_dir] *)
Definition context_dir (s : Scenario) : path := (sc_path s ++ ["context"])%list.

Record SkillSet : Type := mk_skill_set {
  ss_name : string;
  ss_skills : list string;
  ss_mcp_servers : json;
  ss_allowed_tools : list string;
  ss_extra_prompt : string
}.

Record RunResult : Type := mk_run_result {
  scenario_name : string;
  skill_set_name : string;
  output : string;
  success : bool;
  error : option string;
  rr_skills_invoked : list json;
  rr_tools_used : list json
}.

Record RunTask : Type := mk_task {
  task_scenario : Scenario;
  task_skill_set : SkillSet;
  task_run_dir : path
}.

(* ------------------------------------------------------------------ *)
(** ** Task scheduler: [Runner.run_parallel] *)

Section Scheduler.

(** The state the tasks act on, and one task's pipeline ([_run_task]):
    its result, or the exception it raised, and the state it leaves. *)
Variable State : Type.
Variable run_task : RunTask -> State -> res RunResult * State.

(** [progress_callback(task, result)]: returns normally or raises *)
Definition call_back (cb : option (RunTask -> RunResult -> res unit)) (t : RunTask)
    (r : RunResult) : res unit :=
  match cb with Some f => f t r | None => ret tt end.

(** the result built in the [except] branch (lines 678-684) *)
Definition failure_result (t : RunTask) (e : exn) : RunResult :=
  mk_run_result (sc_name (task_scenario t)) (ss_name (task_skill_set t)) "" false
    (Some ("Unexpected error: " ++ e)) [] [].

(** tasks still running when an exception leaves the [with] block: the
    executor's shutdown waits for them *)
Fixpoint drain_tasks (ts : list RunTask) (s : State) : State :=
  match ts with
  | [] => s
  | t :: r => drain_tasks r (snd (run_task t s))
  end.

(** The loop [for future in as_completed(...)] (lines 669-687), over the
    tasks in the order their futures complete.  Each task's pipeline is
    taken to run as one step at its completion. *)
Fixpoint collect (cb : option (RunTask -> RunResult -> res unit)) (completed : list RunTask)
    (results : list RunResult) (s : State) : res (list RunResult) * State :=
  match completed with
  | [] => (ret results, s)
  | t :: rest =>
      let '(outcome, s1) := run_task t s in
      let on_error e results' :=
        let fr := failure_result t e in
        match call_back cb t fr with
        | inr _ => collect cb rest (results' ++ [fr])%list s1
        | inl e2 => (raise e2, drain_tasks rest s1)
        end in
      match outcome with
      | inr result =>
          match call_back cb t result with
          | inr _ => collect cb rest (results ++ [result])%list s1
          | inl e => on_error e (results ++ [result])%list
          end
      | inl e => on_error e results
      end
  end.

(** [Runner.run_parallel(tasks, max_workers, progress_callback)], given the
    order [completed] in which [as_completed] yields the tasks' futures. *)
Definition run_parallel (completed : list RunTask)
    (cb : option (RunTask -> RunResult -> res unit)) (s : State) : res (list RunResult) * State :=
  collect cb completed [] s.

End Scheduler.

(* ------------------------------------------------------------------ *)
(** ** Environment builder and [Runner.run_scenario] *)

(** What [urllib.request.urlopen(url).read().decode()] gives. *)
Inductive fetch_result : Type :=
| Fetched (content : string)
| URLErr (description : string)        (* a [URLError] *)
| OtherErr (description : string).     (* any other exception *)

(** The parts of the machine the runner talks to.  [yaml.dump],
    [json.dumps] and [json.loads] are the libraries' functions; the agent
    process is given by what it does for a command line and an environment
    directory (the observations of the supervising loop, and the
    environment it leaves behind). *)
Record World : Type := mk_world {
  w_repo_dir : path;                                   (* evals_dir.parent *)
  w_tmp_dir : string;                                  (* what tempfile.mkdtemp returns *)
  w_credentials : option string;                       (* _get_claude_credentials() *)
  w_fetch : string -> fetch_result;
  w_claude : list string -> dir -> process_run * dir;
  w_json_loads : string -> option json;
  w_json_dumps : json -> string;
  w_yaml_dump : list (string * json) -> string
}.

(** [base / comp] for one component; [Path] drops empty and [.] parts *)
Definition pjoin (base : path) (comp : string) : path :=
  if String.eqb comp "" || String.eqb comp "." then base else (base ++ [comp])%list.

(** the parts of [Path(s)] *)
Definition path_parts (s : string) : path :=
  filter (fun c => negb (String.eqb c "" || String.eqb c ".")) (split_on "/"%char s).

(** [repo_dir / skill_path]: an absolute [skill_path] replaces [repo_dir] *)
Definition repo_join (repo_dir : path) (skill_path : string) : path :=
  match skill_path with
  | String c _ => if Ascii.eqb c "/"%char then path_parts skill_path
                  else (repo_dir ++ path_parts skill_path)%list
  | EmptyString => repo_dir
  end.

(** how the operating system resolves [..] when the path is used *)
Fixpoint resolve_dots (acc : list string) (p : path) : path :=
  match p with
  | [] => rev acc
  | x :: r => if String.eqb x ".." then resolve_dots (tl acc) r else resolve_dots (x :: acc) r
  end.

Definition fs_lookup (fs : dir) (p : path) : option node := node_at (resolve_dots [] p) (NDir fs).

Definition skills_dir : path := [".claude"; "skills"].

(** [Runner._download_skill(url, skills_dir)] on the environment tree *)
Definition _download_skill (w : World) (url : string) (env : dir) : res dir :=
  target <- download_target url ;;
  let '(download_url, folder_name) := target in
  let dest_parent := pjoin skills_dir folder_name in
  env1 <- mkdir_p dest_parent env ;;
  match w_fetch w download_url with
  | Fetched content => write_file (dest_parent ++ ["SKILL.md"])%list content 0 env1
  | URLErr e => raise ("Failed to download skill from " ++ download_url ++ ": " ++ e)
  | OtherErr e => raise e
  end.

(** [Runner._copy_local_skill(skill_path, skills_dir)] *)
Definition _copy_local_skill (w : World) (fs : dir) (skill_path : string) (env : dir) : res dir :=
  let src := repo_join (w_repo_dir w) skill_path in
  match fs_lookup fs src with
  | None => ret env                                  (* if not src.exists(): return *)
  | Some (NDir t) => put_tree (pjoin skills_dir (last src "")) t env
  | Some (NFile content _) =>
      let parent_name := last (removelast src) "" in
      let dest_parent := pjoin skills_dir parent_name in
      env1 <- mkdir_p dest_parent env ;;
      write_file (dest_parent ++ ["SKILL.md"])%list content 0 env1
  end.

Definition load_skill (w : World) (fs : dir) (env : dir) (skill_path : string) : res dir :=
  if _is_url skill_path then _download_skill w skill_path env
  else _copy_local_skill w fs skill_path env.

(** [Runner.prepare_environment]: the new environment tree and the
    path of the MCP manifest, if one was written *)
Definition prepare_environment (w : World) (fs : dir) (scenario_dir context : path)
    (skills : list string) (mcp_servers : option json) : res (dir * option string) :=
  env0 <- match fs_lookup fs context with
          | None => ret []
          | Some (NDir d) => ret d
          | Some (NFile _ _) => raise ("[Errno 20] Not a directory: '" ++ render_path context ++ "'")
          end ;;
  env1 <- mkdir_p [".claude"] env0 ;;
  env2 <- match w_credentials w with
          | Some c => if String.eqb c "" then ret env1
                      else write_file [".claude"; ".credentials.json"] c 0 env1
          | None => ret env1
          end ;;
  env3 <- (match skills with
           | [] => ret env2
           | _ => e <- mkdir_p skills_dir env2 ;; fold_res (load_skill w fs) e skills
           end) ;;
  match mcp_servers with
  | Some m =>
      if negb (truthy m) then ret (env3, None) else
      env4 <- write_file [".claude"; "mcp-servers.json"]
                (w_json_dumps w (JObj [("mcpServers", m)])) 0 env3 ;;
      env5 <- match fs_lookup fs (scenario_dir ++ [".env"])%list with
              | Some (NFile c _) => write_file [".env"] c 0 env4
              | Some (NDir _) => raise "[Errno 21] Is a directory: '.env'"
              | None => ret env4
              end ;;
      ret (env5, Some (w_tmp_dir w ++ "/.claude/mcp-servers.json"))
  | None => ret (env3, None)
  end.

(** Steps on the machine's file system that may raise: the writes made
    before an exception stay. *)
Definition fsm (A : Type) : Type := dir -> res A * dir.

Definition fs_ret {A} (x : A) : fsm A := fun fs => (ret x, fs).
Definition fs_bind {A B} (c : fsm A) (k : A -> fsm B) : fsm B :=
  fun fs => match c fs with
            | (inr x, fs1) => k x fs1
            | (inl e, fs1) => (inl e, fs1)
            end.
Definition fs_lift {A} (r : res A) : fsm A := fun fs => (r, fs).
Definition fs_update (f : dir -> res dir) : fsm unit :=
  fun fs => match f fs with inr fs' => (ret tt, fs') | inl e => (inl e, fs) end.
Definition fs_read : fsm dir := fun fs => (ret fs, fs).

Notation "x <-- c ;;; k" := (fs_bind c (fun x => k))
  (at level 61, c at next level, right associativity).

Fixpoint fs_iter {A} (f : A -> fsm unit) (xs : list A) : fsm unit :=
  match xs with
  | [] => fs_ret tt
  | x :: r => _ <-- f x ;;; fs_iter f r
  end.

Definition exclude_names : list string := [".claude"; ".cache"; "Caches"; ".env"].

(** the mapping passed to [yaml.dump] (lines 598-612) *)
Definition run_metadata (parsed : parse_result) (succ : bool) (err : option string)
  : list (string * json) :=
  ([("success", JBool succ);
    ("skills_invoked", JArr (skills_invoked parsed));
    ("skills_available", skills_available parsed);
    ("tools_used", JArr (tools_used parsed));
    ("mcp_servers", mcp_servers parsed);
    ("model", model parsed);
    ("duration_ms", duration_ms parsed);
    ("num_turns", num_turns parsed);
    ("total_cost_usd", total_cost_usd parsed);
    ("input_tokens", input_tokens parsed);
    ("output_tokens", output_tokens parsed)]
   ++ match err with
      | Some e => if String.eqb e "" then [] else [("error", JStr e)]
      | None => []
      end)%list.

(** [shutil.copy2(env_dir / rel, changes / rel)] after making its parent *)
Definition copy_change (env : dir) (changes : path) (rel : path) : fsm unit :=
  match node_at rel (NDir env) with
  | Some (NFile c m) =>
      let dest := (changes ++ rel)%list in
      _ <-- fs_update (mkdir_p (removelast dest)) ;;;
      fs_update (write_file dest c m)
  | _ => fs_lift (raise ("[Errno 2] No such file or directory: '" ++ render_path rel ++ "'"))
  end.

(** The part of [Runner.run_scenario] after the environment is built
    (lines 579-642): launch and supervise the agent, then record the run.
    The HTML transcript ([_generate_transcript], an external renderer whose
    errors are caught) and the removal of the environment leave no trace
    here. *)
Definition launch_and_record (w : World) (scenario : Scenario) (skill_set : SkillSet)
    (run_dir : path) (env_dir : dir) (mcp_config_path : option string) : fsm RunResult :=
  let prompt := if String.eqb (ss_extra_prompt skill_set) "" then sc_prompt scenario
                else sc_prompt scenario ++ nl ++ nl ++ ss_extra_prompt skill_set in
  let cmd := claude_cmd prompt mcp_config_path
               (match ss_allowed_tools skill_set with [] => None | l => Some l end) in
  let '(proc, env_after) := w_claude w cmd env_dir in
  let out := run_claude (w_json_loads w) 600 60 proc in
  let parsed := cr_parsed out in
  let output_dir := pjoin (pjoin run_dir (sc_name scenario)) (ss_name skill_set) in
  _ <-- fs_update (mkdir_p output_dir) ;;;
  _ <-- fs_update (write_file (output_dir ++ ["output.md"])%list (output_text parsed) 0) ;;;
  _ <-- fs_update (write_file (output_dir ++ ["raw.jsonl"])%list (cr_raw out) 0) ;;;
  _ <-- fs_update (write_file (output_dir ++ ["metadata.yaml"])%list
                    (w_yaml_dump w (run_metadata parsed (cr_success out) (cr_error out))) 0) ;;;
  fs1 <-- fs_read ;;;
  original <-- fs_lift (match fs_lookup fs1 (context_dir scenario) with
                        | None => ret None
                        | Some (NDir d) => ret (Some d)
                        | Some (NFile _ _) => raise "[Errno 20] Not a directory"
                        end) ;;;
  let changed_files := _find_changed_files original env_after exclude_names in
  _ <-- fs_iter (copy_change env_after (output_dir ++ ["changes"])%list) changed_files ;;;
  fs_ret (mk_run_result (sc_name scenario) (ss_name skill_set) (output_text parsed)
            (cr_success out) (cr_error out) (skills_invoked parsed) (tools_used parsed)).

(** [Runner.run_scenario(scenario, skill_set, run_dir)] *)
Definition run_scenario (w : World) (scenario : Scenario) (skill_set : SkillSet) (run_dir : path)
  : fsm RunResult :=
  fs0 <-- fs_read ;;;
  prep <-- fs_lift (prepare_environment w fs0 (sc_path scenario) (context_dir scenario)
                      (ss_skills skill_set)
                      (if truthy (ss_mcp_servers skill_set) then Some (ss_mcp_servers skill_set) else None)) ;;;
  launch_and_record w scenario skill_set run_dir (fst prep) (snd prep).

(** [Runner._run_task] *)
Definition _run_task (w : World) (t : RunTask) : fsm RunResult :=
  run_scenario w (task_scenario t) (task_skill_set t) (task_run_dir t).

(* ------------------------------------------------------------------ *)
(** ** Concrete inputs *)

(** One stream line holding a JSON object given as its members. *)
Definition obj_line (members : list (string * string)) : string :=
  "{" ++ join "," (map (fun kv => jq (fst kv) ++ ":" ++ snd kv) members) ++ "}".

(** A machine where every fetch fails with a [URLError] and the agent
    exits at once with code 0 and no output. *)
Definition offline_world : World :=
  mk_world ["repo"] "/tmp/skill-eval-1" None
    (fun _ => URLErr "[Errno -2] Name or service not known")
    (fun _ env => (Ran (inject_Z 0) [] 0%Z "" "", env))
    py_json_loads (fun _ => "{}") (fun _ => "yaml").

Definition demo_scenario : Scenario := mk_scenario "s1" ["scenarios"; "s1"] "do it".

Definition remote_skill_set : SkillSet :=
  mk_skill_set "remote" ["https://example.com/skills/x/SKILL.md"] (JObj []) [] "".

Definition demo_task (ss : SkillSet) : RunTask := mk_task demo_scenario ss ["runs"].

Definition assistant_line (content : string) : string :=
  obj_line [("type", jq "assistant"); ("message", obj_line [("content", content)])].

Definition text_segment (t : string) : string :=
  obj_line [("type", jq "text"); ("text", jq t)].

(** one turn of the supervising loop in which the process is still running,
    no time has passed, and [line] is read *)
Definition quiet_tick (line : option string) : tick :=
  mk_tick false (inject_Z 0) (inject_Z 0) line (inject_Z 0).

Definition exit_tick : tick := mk_tick true (inject_Z 0) (inject_Z 0) None (inject_Z 0).

(* ------------------------------------------------------------------ *)
(** ** The stream as the specification describes it

    These definitions follow the specification's description of the
    event stream, to be compared with [_parse_json_output]. *)

(** the lines of the input, as the decoder splits them *)
Definition stream_lines (json_str : string) : list string :=
  split_on "010"%char (strip json_str).

(** the events of the stream: the non-blank lines that are JSON objects *)
Definition stream_events (json_loads : string -> option json) (lines : list string)
  : list (list (string * json)) :=
  flat_map (fun line =>
    if String.eqb (strip line) "" then []
    else match json_loads line with Some (JObj kvs) => [kvs] | _ => [] end) lines.

(** the content segments of an assistant-turn event *)
Definition assistant_segments (kvs : list (string * json)) : list json :=
  if is_str (dict_get kvs "type" JNull) "assistant" then
    match dict_get kvs "message" (JObj []) with
    | JObj m => match dict_get m "content" (JArr []) with JArr l => l | _ => [] end
    | _ => []
    end
  else [].

(** a text segment's text, without surrounding whitespace, if any is left *)
Definition segment_text (seg : json) : list string :=
  match seg with
  | JObj kvs =>
      if is_str (dict_get kvs "type" JNull) "text" then
        match dict_get kvs "text" (JStr "") with
        | JStr t => if String.eqb (strip t) "" then [] else [strip t]
        | _ => []
        end
      else []
  | _ => []
  end.

(** a capability-invocation segment's (non-empty) capability name *)
Definition segment_tool (seg : json) : list json :=
  match seg with
  | JObj kvs =>
      if is_str (dict_get kvs "type" JNull) "tool_use" then
        let name := dict_get kvs "name" (JStr "") in
        if truthy name then [name] else []
      else []
  | _ => []
  end.

(** the (non-empty) document named by an invocation of the [Skill] capability *)
Definition segment_skill (seg : json) : list json :=
  match seg with
  | JObj kvs =>
      if is_str (dict_get kvs "type" JNull) "tool_use"
         && is_str (dict_get kvs "name" (JStr "")) "Skill" then
        match dict_get kvs "input" (JObj []) with
        | JObj i => let s := dict_get i "skill" (JStr "") in if truthy s then [s] else []
        | _ => []
        end
      else []
  | _ => []
  end.

Definition spec_segments (json_loads : string -> option json) (json_str : string) : list json :=
  flat_map assistant_segments (stream_events json_loads (stream_lines json_str)).

Definition spec_texts json_loads json_str : list string :=
  flat_map segment_text (spec_segments json_loads json_str).
Definition spec_tools json_loads json_str : list json :=
  flat_map segment_tool (spec_segments json_loads json_str).
Definition spec_skills json_loads json_str : list json :=
  flat_map segment_skill (spec_segments json_loads json_str).

(** The shape of an event the decoder reads without raising: a dict
    [message] whose [content] can be iterated, text segments whose [text]
    is a string, hashable capability names, a dict [input] for [Skill]
    invocations, and a dict [usage] of integer token counts. *)
Definition segment_shaped (seg : json) : bool :=
  match seg with
  | JObj kvs =>
      let ty := dict_get kvs "type" JNull in
      if is_str ty "text" then
        match dict_get kvs "text" (JStr "") with JStr _ => true | _ => false end
      else if is_str ty "tool_use" then
        match dict_get kvs "name" (JStr "") with
        | JArr _ | JObj _ => false
        | name =>
            if is_str name "Skill" then
              match dict_get kvs "input" (JObj []) with JObj _ => true | _ => false end
            else true
        end
      else true
  | _ => true
  end.

Definition token_count_shaped (v : json) : bool :=
  match v with JNum _ | JBool _ => true | _ => false end.

Definition event_shaped (kvs : list (string * json)) : bool :=
  let ty := dict_get kvs "type" JNull in
  (negb (is_str ty "assistant") ||
   match dict_get kvs "message" (JObj []) with
   | JObj m =>
       match dict_get m "content" (JArr []) with
       | JArr l => forallb segment_shaped l
       | JStr _ | JObj _ => true
       | _ => false
       end
   | _ => false
   end) &&
  (negb (is_str ty "result") ||
   match dict_get kvs "usage" (JObj []) with
   | JObj u =>
       token_count_shaped (dict_get u "input_tokens" (JNum 0))
       && token_count_shaped (dict_get u "cache_read_input_tokens" (JNum 0))
       && token_count_shaped (dict_get u "cache_creation_input_tokens" (JNum 0))
   | _ => false
   end).

(* ------------------------------------------------------------------ *)
(** ** Directory trees as the file system has them *)

Fixpoint names_distinct (l : list string) : bool :=
  match l with
  | [] => true
  | x :: r => negb (existsb (String.eqb x) r) && names_distinct r
  end.

(** no directory lists a name twice *)
Fixpoint wf_node (n : node) : bool :=
  match n with
  | NFile _ _ => true
  | NDir es =>
      names_distinct (map fst es) &&
      (fix go (es : list (string * node)) : bool :=
         match es with
         | [] => true
         | (_, c) :: t => wf_node c && go t
         end) es
  end.

Definition wf_dir (d : dir) : bool := wf_node (NDir d).

(** every file of [b] is, at the same path, a file of [a] with the same
    contents (modification times may differ), and every directory of [b] is
    a directory of [a] *)
Fixpoint included (a b : node) {struct b} : bool :=
  match a, b with
  | NFile c1 _, NFile c2 _ => String.eqb c1 c2
  | NDir da, NDir db =>
      (fix go (db : list (string * node)) : bool :=
         match db with
         | [] => true
         | (k, n) :: t =>
             match lookup_entry k da with Some x => included x n | None => false end && go t
         end) db
  | _, _ => false
  end.

(** structurally identical trees: the same files with the same contents at
    the same paths, whatever the order of the listings *)
Definition tree_equiv (a b : node) : bool := included a b && included b a.

(** [shutil.copy2] to [p] after creating its parent directory succeeds in
    [d]: no proper prefix of [p] is a file and [p] is not a directory *)
Fixpoint writable (p : path) (d : dir) : bool :=
  match p with
  | [] => false
  | [x] => match lookup_entry x d with Some (NDir _) => false | _ => true end
  | x :: r =>
      match lookup_entry x d with
      | Some (NDir sub) => writable r sub
      | Some (NFile _ _) => false
      | None => writable r []
      end
  end.

(** [shutil.copy2(modified / p, original / p)] after creating the parent
    directory: the new content of a reported file copied into the original
    tree (which is created when it did not exist) *)
Definition copy_back (original : option dir) (modified : dir) (p : path) : res dir :=
  let o := match original with Some d => d | None => [] end in
  match node_at p (NDir modified) with
  | Some (NFile c m) => o1 <- mkdir_p (removelast p) o ;; write_file p c m o1
  | _ => raise ("[Errno 2] No such file or directory: '" ++ render_path p ++ "'")
  end.

(* ------------------------------------------------------------------ *)
(** ** URL components *)

(** a character that stays in place through [urlparse] inside a path
    segment: printable, and none of [/ ? # ;] *)
Definition segment_char (c : ascii) : bool :=
  (32 <? nat_of_ascii c)%nat && negb (has_char c "/?#;").

Definition segment_ok (s : string) : bool :=
  negb (String.eqb s "") && all_chars segment_char s.

(** a host name: letters, digits, [-] and [.] *)
Definition hostname_char (c : ascii) : bool :=
  let n := nat_of_ascii c in
  ((48 <=? n) && (n <=? 57))%nat || is_alpha c || Ascii.eqb c "-"%char || Ascii.eqb c "."%char.

Definition hostname_ok (h : string) : bool := negb (String.eqb h "") && all_chars hostname_char h.

(** [https://host/seg1/.../segn] *)
Definition https_url (host : string) (segments : list string) : string :=
  "https://" ++ host ++ "/" ++ join "/" segments.

(* ------------------------------------------------------------------ *)
(** ** One result per task *)

(** The results the scheduler is meant to return, in completion order:
    each task's own result, or a failed result for the exception its
    pipeline raised. *)
Fixpoint expected_results (State : Type) (run_task : RunTask -> State -> res RunResult * State)
    (completed : list RunTask) (s : State) : list RunResult :=
  match completed with
  | [] => []
  | t :: rest =>
      let '(outcome, s1) := run_task t s in
      match outcome with inr r => r | inl e => failure_result t e end
      :: expected_results State run_task rest s1
  end.

(** A progress callback that raises on every successful result. *)
Definition callback_raising_on_success : option (RunTask -> RunResult -> res unit) :=
  Some (fun _ r => if success r then raise "progress display failed" else ret tt).

Definition ok_result (t : RunTask) : RunResult :=
  mk_run_result (sc_name (task_scenario t)) (ss_name (task_skill_set t)) "done" true None [] [].

(** a pipeline that succeeds for every task and leaves the state alone *)
Definition always_ok (t : RunTask) (s : unit) : res RunResult * unit := (ret (ok_result t), s).

(** a pipeline that raises for the skill set named [remote] *)
Definition fails_for_remote (t : RunTask) (n : nat) : res RunResult * nat :=
  if String.eqb (ss_name (task_skill_set t)) "remote" then (raise "boom", S n)
  else (ret (ok_result t), S n).

Definition local_skill_set : SkillSet := mk_skill_set "local" [] (JObj []) [] "".

(** What decoding the segments [segs] from state [st] to [st'] records:
    their texts and documents appended in order, and the set of tool names
    grown by their capability names (as Python set membership sees it). *)
Definition tracks (st : dstate) (segs : list json) (st' : dstate) : Prop :=
  text_parts st' = (text_parts st ++ flat_map segment_text segs)%list
  /\ d_skills st' = (d_skills st ++ flat_map segment_skill segs)%list
  /\ (forall y, In y (d_tools st') -> In y (d_tools st) \/ In y (flat_map segment_tool segs))
  /\ (forall x, existsb (py_eq x) (d_tools st) = true \/ In x (flat_map segment_tool segs) ->
                existsb (py_eq x) (d_tools st') = true).

(** closing the goals of [tracks] *)
Ltac close_tracks :=
  simpl; rewrite ?app_nil_r; repeat split; try reflexivity; intros; tauto.

Ltac close_tool U V W :=
  simpl; rewrite ?app_nil_r; repeat split; try reflexivity;
  [ intros y Hy; destruct (U y Hy) as [Hy'|Hy']; [left; exact Hy'|right; left; symmetry; exact Hy']
  | intros x [Hx|[Hx|[]]]; [apply V, Hx|subst x; exact W] ].

(** the stream the supervisor collected decodes without raising *)
Definition decodes (json_loads : string -> option json) (lines : list string) (remaining : string)
  : Prop :=
  let raw := String.concat "" (if String.eqb remaining "" then lines else (lines ++ [remaining])%list) in
  raw = "" \/ exists r, _parse_json_output json_loads raw = inr r.

Definition missing_skill_set : SkillSet := mk_skill_set "local" ["skills/missing"] (JObj []) [] "".

(** characters of a URL path made of clean segments *)
Definition path_char (c : ascii) : bool := segment_char c || Ascii.eqb c "/"%char.

(** the path [/org/repo/blob/ref/...] of a GitHub blob URL, as
    [_normalize_github_url] recognises it ([len(path_parts) >= 5 and
    path_parts[3] == "blob"], with [path_parts = [""] + segments]) *)
Definition blob_form (segs : list string) : bool :=
  match segs with
  | _ :: _ :: b :: _ :: _ => String.eqb b "blob"
  | _ => false
  end.

(** the original tree [copy_back] writes into *)
Definition orig_dir (original : option dir) : dir :=
  match original with Some o => o | None => [] end.

(** an induction principle for trees that goes into directory entries *)
Definition node_rect_deep (P : node -> Prop)
    (Hf : forall c m, P (NFile c m))
    (Hd : forall es, Forall (fun e => P (snd e)) es -> P (NDir es)) : forall n, P n :=
  fix rec (n : node) : P n :=
    match n with
    | NFile c m => Hf c m
    | NDir es =>
        Hd es ((fix go (es : list (string * node)) : Forall (fun e => P (snd e)) es :=
                  match es with
                  | [] => Forall_nil _
                  | (k, c) :: t => @Forall_cons _ (fun e => P (snd e)) (k, c) t (rec c) (go t)
                  end) es)
    end.

(** [q] lies at or below [a] *)
Fixpoint path_prefix (a q : path) : bool :=
  match a, q with
  | [], _ => true
  | x :: a', y :: q' => String.eqb x y && path_prefix a' q'
  | _ :: _, [] => false
  end.

(** the files outside [od] are the same in both trees *)
Definition same_files_outside (od : path) (fs fs' : dir) : Prop :=
  forall q c m, path_prefix od q = false ->
  (node_at q (NDir fs) = Some (NFile c m) <-> node_at q (NDir fs') = Some (NFile c m)).

(** a step that, whether it returns or raises, leaves the files outside [od] as they were *)
Definition frames {A : Type} (od : path) (c : fsm A) : Prop :=
  forall fs, same_files_outside od fs (snd (c fs)).

(** How [subprocess.run(["security", "find-generic-password", ...])] ends:
    it raises, or the command exits with a code and prints its output. *)
Inductive keychain_lookup : Type :=
| SecurityRaised (e : exn)
| SecurityExited (returncode : Z) (stdout : string).

(** [Runner._get_claude_credentials] *)
Definition _get_claude_credentials (k : keychain_lookup) : option string :=
  match k with
  | SecurityExited returncode stdout => if Z.eqb returncode 0 then Some (strip stdout) else None
  | SecurityRaised _ => None
  end.

(** a list that holds each value once, as a Python set sees values, and
    only values a set can hold *)
Definition set_like (l : list json) : Prop :=
  ForallOrdPairs (fun a b => py_eq a b = false) l
  /\ Forall (fun v => match v with JArr _ | JObj _ => False | _ => True end) l.

(** the run metrics a result event sets *)
Definition run_metrics (r : parse_result) : list json :=
  [duration_ms r; num_turns r; total_cost_usd r; input_tokens r; output_tokens r].


(* ------------------------------------------------------------------ *)
(** ** Run directories: [Runner.create_run_dir] *)

(** the fields of [datetime.now()] the timestamp uses *)
Record datetime : Type := mk_datetime {
  dt_year : Z; dt_month : Z; dt_day : Z; dt_hour : Z; dt_minute : Z; dt_second : Z
}.

(** [%m], [%d], [%H], [%M], [%S]: the field in decimal, zero-padded to two digits *)
Definition pad2 (n : Z) : string :=
  if (n <? 10)%Z then "0" ++ z_to_string n else z_to_string n.

(** [now.strftime('%Y-%m-%d-%H%M%S')] *)
Definition strftime_run_id (t : datetime) : string :=
  z_to_string (dt_year t) ++ "-" ++ pad2 (dt_month t) ++ "-" ++ pad2 (dt_day t) ++ "-"
  ++ pad2 (dt_hour t) ++ pad2 (dt_minute t) ++ pad2 (dt_second t).

(** [Runner.create_run_dir]: [runs_dir / timestamp], created with
    [mkdir(parents=True, exist_ok=True)] *)
Definition create_run_dir (runs_dir : path) (now : datetime) : fsm path :=
  let run_dir := pjoin runs_dir (strftime_run_id now) in
  _ <-- fs_update (mkdir_p run_dir) ;;;
  fs_ret run_dir.

(** the character [digits_of_pos] writes for a digit *)
Definition digit (d : Z) : ascii := ascii_of_nat (48 + Z.to_nat d).

(** chronological order of two points in time: field by field, from the year down *)
Definition lex (c k : comparison) : comparison := match c with Eq => k | _ => c end.

Definition dt_compare (t1 t2 : datetime) : comparison :=
  lex (Z.compare (dt_year t1) (dt_year t2))
  (lex (Z.compare (dt_month t1) (dt_month t2))
  (lex (Z.compare (dt_day t1) (dt_day t2))
  (lex (Z.compare (dt_hour t1) (dt_hour t2))
  (lex (Z.compare (dt_minute t1) (dt_minute t2))
       (Z.compare (dt_second t1) (dt_second t2)))))).

(** a four-digit year, and the other fields below 100 *)
Definition dt_in_range (t : datetime) : Prop :=
  (1000 <= dt_year t <= 9999 /\ 0 <= dt_month t < 100 /\ 0 <= dt_day t < 100
   /\ 0 <= dt_hour t < 100 /\ 0 <= dt_minute t < 100 /\ 0 <= dt_second t < 100)%Z.

(* ================================================================== *)
(** * Properties *)

(* ------------------------------------------------------------------ *)
(** ** Behaviour on concrete inputs *)


(** A GitHub URL in the [raw] form (not [blob]) whose document sits at the
    repository root gives the folder of its ref, not the repository. *)
Lemma download_target_github_raw_form_root :
  download_target "https://github.com/org/repo/raw/main/SKILL.md"
  = inr ("https://github.com/org/repo/raw/main/SKILL.md", "main").
Proof. vm_compute. reflexivity. Qed.




(** When the scenario has no [context/] directory, the files below the
    excluded directory [.claude] are reported. *)
Lemma find_changed_files_no_original_reports_excluded_dir :
  _find_changed_files None
    [(".claude", NDir [("settings.json", NFile "{}" 0)]); ("a.txt", NFile "a" 0)]
    exclude_names
  = [[".claude"; "settings.json"]; ["a.txt"]].
Proof. vm_compute. reflexivity. Qed.



(* ------------------------------------------------------------------ *)
(** ** The task scheduler *)

Lemma collect_no_raise (State : Type) (run_task : RunTask -> State -> res RunResult * State)
    (cb : option (RunTask -> RunResult -> res unit))
    (Hcb : forall t r, call_back cb t r = inr tt) :
  forall completed acc s,
    fst (collect State run_task cb completed acc s)
    = inr (acc ++ expected_results State run_task completed s)%list.
Proof.
  induction completed as [|t rest IH]; intros acc s; simpl.
  - rewrite app_nil_r. reflexivity.
  - destruct (run_task t s) as [[e|r] s1].
    + rewrite Hcb, IH, <- app_assoc. reflexivity.
    + rewrite Hcb, IH, <- app_assoc. reflexivity.
Qed.

Lemma expected_results_length (State : Type) (run_task : RunTask -> State -> res RunResult * State) :
  forall completed s, length (expected_results State run_task completed s) = length completed.
Proof.
  induction completed as [|t rest IH]; intros s; simpl; [reflexivity|].
  destruct (run_task t s) as [o s1]. simpl. rewrite IH. reflexivity.
Qed.



(* ------------------------------------------------------------------ *)
(** ** The stream decoder *)

Lemma fold_res_app {A B : Type} (f : A -> B -> res A) (st : A) (xs ys : list B) :
  fold_res f st (xs ++ ys) = (st' <- fold_res f st xs ;; fold_res f st' ys).
Proof.
  revert st. induction xs as [|x r IH]; intros st; simpl; [reflexivity|].
  destruct (f st x) as [e|st']; simpl; [reflexivity|]. apply IH.
Qed.

Lemma decode_segment_not_obj (st : dstate) (seg : json) :
  (forall kvs, seg <> JObj kvs) -> decode_segment st seg = inr st.
Proof.
  intros H. destruct seg; try reflexivity. exfalso. eapply H. reflexivity.
Qed.

Lemma fold_decode_segment_strs (st : dstate) (l : list string) :
  fold_res decode_segment st (map JStr l) = inr st.
Proof. induction l as [|x r IH]; simpl; [reflexivity|exact IH]. Qed.

Lemma string_chars_strs (s : string) : exists l, string_chars s = map JStr l.
Proof.
  induction s as [|c s [l IH]]; simpl.
  - exists []. reflexivity.
  - exists (String c EmptyString :: l). rewrite IH. reflexivity.
Qed.

Lemma decode_segment_shaped (st : dstate) (seg : json) :
  segment_shaped seg = true -> exists st', decode_segment st seg = inr st'.
Proof.
  intros H. destruct seg as [| | | | |kvs]; try (exists st; reflexivity).
  unfold segment_shaped in H. unfold decode_segment.
  destruct (is_str (dict_get kvs "type" JNull) "text").
  - destruct (dict_get kvs "text" (JStr "")); try discriminate. eexists. reflexivity.
  - destruct (is_str (dict_get kvs "type" JNull) "tool_use"); [|eexists; reflexivity].
    assert (Hs : exists tools,
               (if truthy (dict_get kvs "name" (JStr ""))
                then set_add (d_tools st) (dict_get kvs "name" (JStr ""))
                else ret (d_tools st)) = inr tools).
    { destruct (truthy (dict_get kvs "name" (JStr ""))); [|eexists; reflexivity].
      destruct (dict_get kvs "name" (JStr "")); try discriminate; eexists; reflexivity. }
    destruct Hs as [tools Hs]. rewrite Hs. simpl.
    assert (Hsk : is_str (dict_get kvs "name" (JStr "")) "Skill" = true ->
                  exists i, dict_get kvs "input" (JObj []) = JObj i).
    { intros Hk. destruct (dict_get kvs "name" (JStr "")); try discriminate.
      simpl in Hk, H. rewrite Hk in H.
      destruct (dict_get kvs "input" (JObj [])); try discriminate. eexists. reflexivity. }
    destruct (is_str (dict_get kvs "name" (JStr "")) "Skill"); [|eexists; reflexivity].
    destruct (Hsk eq_refl) as [i ->]. simpl. eexists. reflexivity.
Qed.

Lemma fold_decode_segment_shaped (l : list json) :
  forallb segment_shaped l = true ->
  forall st, exists st', fold_res decode_segment st l = inr st'.
Proof.
  induction l as [|seg r IH]; intros H st; simpl in *; [eexists; reflexivity|].
  apply andb_prop in H as [H1 H2].
  destruct (decode_segment_shaped st seg H1) as [st1 ->]. simpl. apply IH, H2.
Qed.

Lemma py_add_counts (a b : json) :
  token_count_shaped a = true -> token_count_shaped b = true ->
  exists z, py_add a b = inr (JNum z).
Proof.
  destruct a; try discriminate; destruct b; try discriminate; intros _ _;
    eexists; reflexivity.
Qed.

Lemma decode_msg_shaped (st : dstate) (kvs : list (string * json)) :
  event_shaped kvs = true -> exists st', decode_msg st kvs = inr st'.
Proof.
  intros H. unfold event_shaped in H. apply andb_prop in H as [Ha Hr].
  unfold decode_msg.
  match goal with
  | |- exists _, bind (if ?c then ?a else ret ?s1) ?k = _ =>
      assert (H2 : exists st2, (if c then a else ret s1) = inr st2)
  end.
  { destruct (is_str (dict_get kvs "type" JNull) "assistant"); simpl in Ha; [|eexists; reflexivity].
    destruct (dict_get kvs "message" (JObj [])) as [| | | | |m]; try discriminate. simpl.
    destruct (dict_get m "content" (JArr [])) as [| | |s|l|o]; try discriminate; simpl.
    - destruct (string_chars_strs s) as [l ->]. rewrite fold_decode_segment_strs. eexists. reflexivity.
    - apply fold_decode_segment_shaped. exact Ha.
    - rewrite fold_decode_segment_strs. eexists. reflexivity. }
  destruct H2 as [st2 H2]. rewrite H2. simpl.
  destruct (is_str (dict_get kvs "type" JNull) "result"); simpl in Hr; [|eexists; reflexivity].
  destruct (dict_get kvs "usage" (JObj [])) as [| | | | |u]; try discriminate. simpl.
  apply andb_prop in Hr as [Hr Hc]. apply andb_prop in Hr as [Hi Hcr].
  destruct (py_add_counts _ _ Hi Hcr) as [z1 ->]. simpl.
  destruct (py_add_counts (JNum z1) _ eq_refl Hc) as [z2 ->]. simpl.
  eexists. reflexivity.
Qed.

Lemma decode_line_skip (json_loads : string -> option json) (st : dstate) (line : string) :
  String.eqb (strip line) "" = true \/ json_loads line = None
  \/ (exists v, json_loads line = Some v /\ forall kvs, v <> JObj kvs) ->
  decode_line json_loads st line = inr st.
Proof.
  intros H. unfold decode_line.
  destruct (String.eqb (strip line) "") eqn:E; [reflexivity|].
  destruct H as [H|[H|[v [H Hv]]]]; [discriminate| rewrite H; reflexivity |].
  rewrite H. destruct v; try reflexivity. exfalso. eapply Hv. reflexivity.
Qed.

Lemma decode_lines_shaped (json_loads : string -> option json) (lines : list string) :
  (forall kvs, In kvs (stream_events json_loads lines) -> event_shaped kvs = true) ->
  forall st, exists st', fold_res (decode_line json_loads) st lines = inr st'.
Proof.
  induction lines as [|line r IH]; intros H st; simpl; [eexists; reflexivity|].
  assert (Hr : forall kvs, In kvs (stream_events json_loads r) -> event_shaped kvs = true).
  { intros kvs Hin. apply H. simpl. apply in_or_app. right. exact Hin. }
  unfold decode_line at 1.
  destruct (String.eqb (strip line) "") eqn:E; simpl; [apply IH, Hr|].
  destruct (json_loads line) as [v|] eqn:Ej; [|apply IH, Hr].
  destruct v as [| | | | |kvs]; try (apply IH, Hr).
  assert (Hk : event_shaped kvs = true).
  { apply H. simpl. rewrite E, Ej. left. reflexivity. }
  destruct (decode_msg_shaped st kvs Hk) as [st1 ->]. apply IH, Hr.
Qed.



Lemma tracks_nil (st : dstate) : tracks st [] st.
Proof.
  unfold tracks. simpl. rewrite !app_nil_r. repeat split; [tauto|].
  intros x [H|[]]. exact H.
Qed.

Lemma tracks_trans (a b c : dstate) (x y : list json) :
  tracks a x b -> tracks b y c -> tracks a (x ++ y) c.
Proof.
  unfold tracks. rewrite !flat_map_app.
  intros [T1 [S1 [U1 V1]]] [T2 [S2 [U2 V2]]]. repeat split.
  - rewrite T2, T1, app_assoc. reflexivity.
  - rewrite S2, S1, app_assoc. reflexivity.
  - intros z Hz. destruct (U2 z Hz) as [H|H].
    + destruct (U1 z H) as [H'|H']; [left; exact H'|right; apply in_or_app; left; exact H'].
    + right. apply in_or_app. right. exact H.
  - intros z [H|H]; apply V2.
    + left. apply V1. left. exact H.
    + apply in_app_or in H as [H|H]; [left; apply V1; right; exact H|right; exact H].
Qed.

(** the state's result record plays no part in [tracks] *)
Lemma tracks_set_result_l (st st' : dstate) (r : parse_result) (segs : list json) :
  tracks st segs st' -> tracks (set_result st r) segs st'.
Proof. intros H. exact H. Qed.

Lemma tracks_set_result_r (st st' : dstate) (r : parse_result) (segs : list json) :
  tracks st segs st' -> tracks st segs (set_result st' r).
Proof. intros H. exact H. Qed.

Lemma py_eq_refl_hashable (v : json) :
  (forall l, v <> JArr l) -> (forall o, v <> JObj o) -> py_eq v v = true.
Proof.
  intros Ha Ho. destruct v as [|b|z|s|l|o]; simpl.
  - reflexivity.
  - destruct b; reflexivity.
  - apply Z.eqb_refl.
  - apply String.eqb_refl.
  - exfalso. eapply Ha. reflexivity.
  - exfalso. eapply Ho. reflexivity.
Qed.

Lemma existsb_app_l {A : Type} (f : A -> bool) (l1 l2 : list A) :
  existsb f l1 = true -> existsb f (l1 ++ l2) = true.
Proof. intros H. rewrite existsb_app, H. reflexivity. Qed.

Lemma set_add_spec (s s' : list json) (v : json) :
  set_add s v = inr s' ->
  (forall y, In y s' -> In y s \/ y = v)
  /\ (forall x, existsb (py_eq x) s = true -> existsb (py_eq x) s' = true)
  /\ existsb (py_eq v) s' = true.
Proof.
  intros H.
  assert (Hh : (forall l, v <> JArr l) /\ (forall o, v <> JObj o)
               /\ s' = if existsb (py_eq v) s then s else (s ++ [v])%list).
  { destruct v; simpl in H; try discriminate; injection H as <-;
      repeat split; intros ? ?; discriminate. }
  destruct Hh as [Ha [Ho ->]].
  destruct (existsb (py_eq v) s) eqn:E.
  - repeat split; auto.
  - repeat split.
    + intros y Hy. apply in_app_or in Hy as [Hy|[Hy|[]]]; [left; exact Hy|right; symmetry; exact Hy].
    + intros x Hx. apply existsb_app_l. exact Hx.
    + rewrite existsb_app. simpl. rewrite (py_eq_refl_hashable v Ha Ho).
      rewrite orb_true_r. reflexivity.
Qed.

Lemma decode_segment_tracks (st st' : dstate) (seg : json) :
  decode_segment st seg = inr st' -> tracks st [seg] st'.
Proof.
  intros H. destruct seg as [| | | | |kvs];
    try (simpl in H; injection H as <-; apply tracks_nil).
  unfold decode_segment in H. unfold tracks. simpl. rewrite !app_nil_r.
  unfold segment_text, segment_skill, segment_tool.
  destruct (dict_get kvs "type" JNull) as [| | |ty| |] eqn:Ety;
    try (simpl in H; injection H as <-; apply tracks_nil).
  destruct (String.eqb ty "text") eqn:E1.
  - apply String.eqb_eq in E1. subst ty. simpl in H |- *.
    destruct (dict_get kvs "text" (JStr "")) as [| | |t| |]; try discriminate.
    injection H as <-. destruct (String.eqb (strip t) "").
    + close_tracks.
    + close_tracks.
  - destruct (String.eqb ty "tool_use") eqn:E2.
    2: { simpl in H |- *. rewrite E1, E2 in *. injection H as <-. close_tracks. }
    apply String.eqb_eq in E2. subst ty. simpl in H |- *. rewrite app_nil_r.
    set (name := dict_get kvs "name" (JStr "")) in *.
    destruct (truthy name) eqn:Et.
    + destruct (set_add (d_tools st) name) as [e|tools] eqn:Es; [discriminate|].
      simpl in H. destruct (set_add_spec _ _ _ Es) as [U [V W]].
      destruct (is_str name "Skill").
      * destruct (dict_get kvs "input" (JObj [])) as [| | | | |inp]; try discriminate.
        simpl in H. destruct (truthy (dict_get inp "skill" (JStr ""))); injection H as <-;
          close_tool U V W.
      * injection H as <-. close_tool U V W.
    + simpl in H. destruct (is_str name "Skill").
      * destruct (dict_get kvs "input" (JObj [])) as [| | | | |inp]; try discriminate.
        simpl in H. destruct (truthy (dict_get inp "skill" (JStr ""))); injection H as <-;
          close_tracks.
      * injection H as <-. close_tracks.
Qed.

Lemma fold_segments_tracks (l : list json) :
  forall st st', fold_res decode_segment st l = inr st' -> tracks st l st'.
Proof.
  induction l as [|seg r IH]; intros st st' H; simpl in H.
  - injection H as <-. apply tracks_nil.
  - destruct (decode_segment st seg) as [e|st1] eqn:E; [discriminate|].
    simpl in H. apply (tracks_trans st st1 st' [seg] r).
    + apply decode_segment_tracks, E.
    + apply IH, H.
Qed.

Lemma decode_msg_tracks (st st' : dstate) (kvs : list (string * json)) :
  decode_msg st kvs = inr st' -> tracks st (assistant_segments kvs) st'.
Proof.
  unfold decode_msg.
  match goal with
  | |- bind (if ?c then ?a else ret ?s1) ?k = _ -> _ =>
      assert (A : forall st2, (if c then a else ret s1) = inr st2 ->
                              tracks s1 (assistant_segments kvs) st2);
      [|assert (B : tracks st [] s1);
        [|destruct (if c then a else ret s1) as [e|st2] eqn:E2; [discriminate|]]]
  end.
  - intros st2 H. unfold assistant_segments.
    destruct (is_str (dict_get kvs "type" JNull) "assistant");
      [|injection H as <-; apply tracks_nil].
    simpl in H. destruct (dict_get kvs "message" (JObj [])) as [| | | | |m];
      try discriminate.
    simpl in H. destruct (dict_get m "content" (JArr [])) as [| | |s|l|o]; try discriminate.
    + simpl in H. destruct (string_chars_strs s) as [l Hl]. rewrite Hl in H.
      rewrite fold_decode_segment_strs in H. injection H as <-. apply tracks_nil.
    + apply fold_segments_tracks, H.
    + simpl in H. rewrite fold_decode_segment_strs in H. injection H as <-. apply tracks_nil.
  - destruct (_ && _); [apply tracks_set_result_r|]; apply tracks_nil.
  - simpl. intros H.
    assert (C : tracks st (assistant_segments kvs) st2).
    { exact (tracks_trans _ _ _ [] _ B (A st2 eq_refl)). }
    destruct (is_str (dict_get kvs "type" JNull) "result").
    + destruct (py_get _ "input_tokens" _); [discriminate|]. simpl in H.
      destruct (py_get _ "cache_read_input_tokens" _); [discriminate|]. simpl in H.
      destruct (py_add _ _); [discriminate|]. simpl in H.
      destruct (py_get _ "cache_creation_input_tokens" _); [discriminate|]. simpl in H.
      destruct (py_add _ _); [discriminate|]. simpl in H.
      destruct (py_get _ "output_tokens" _); [discriminate|]. simpl in H.
      injection H as <-. apply tracks_set_result_r, C.
    + injection H as <-. exact C.
Qed.

Lemma decode_lines_tracks (json_loads : string -> option json) (lines : list string) :
  forall st st', fold_res (decode_line json_loads) st lines = inr st' ->
  tracks st (flat_map assistant_segments (stream_events json_loads lines)) st'.
Proof.
  induction lines as [|line r IH]; intros st st' H; simpl in H |- *.
  - injection H as <-. apply tracks_nil.
  - destruct (decode_line json_loads st line) as [e|st1] eqn:E; [discriminate|].
    simpl in H. rewrite flat_map_app.
    apply (tracks_trans st st1 st'); [|apply IH, H].
    unfold decode_line in E.
    destruct (String.eqb (strip line) ""); [injection E as <-; apply tracks_nil|].
    destruct (json_loads line) as [[| | | | |kvs]|]; try (injection E as <-; apply tracks_nil).
    simpl. rewrite app_nil_r. apply decode_msg_tracks, E.
Qed.



(* ------------------------------------------------------------------ *)
(** ** The process supervisor *)

Lemma supervise_error_msg (json_loads : string -> option json) (timeout stall_timeout : Z)
    (start : Q) (ticks : list tick) :
  forall last lines lines' e,
    supervise json_loads timeout stall_timeout start last ticks lines = inr (lines', Some e) ->
    e = timeout_message timeout \/ e = stall_message stall_timeout.
Proof.
  induction ticks as [|tk rest IH]; intros last lines lines' e H; simpl in H.
  - discriminate.
  - destruct (poll_exited tk); [discriminate|].
    destruct (Qgt _ _); [injection H as _ <-; left; reflexivity|].
    destruct (Qgt _ _); [injection H as _ <-; right; reflexivity|].
    destruct (line_read tk) as [line|]; [|eapply IH; exact H].
    destruct (String.eqb line ""); [eapply IH; exact H|].
    destruct (_log_progress json_loads line); [discriminate|].
    simpl in H. eapply IH. exact H.
Qed.

Lemma stall_message_not_timeout_message (t s : Z) : stall_message s <> timeout_message t.
Proof. unfold stall_message, timeout_message. simpl. discriminate. Qed.



(* ------------------------------------------------------------------ *)
(** ** Building the environment *)

Lemma load_skill_missing_local (w : World) (fs env : dir) (skill_path : string) :
  _is_url skill_path = false -> fs_lookup fs (repo_join (w_repo_dir w) skill_path) = None ->
  load_skill w fs env skill_path = inr env.
Proof.
  intros Hu Hm. unfold load_skill. rewrite Hu. unfold _copy_local_skill. rewrite Hm. reflexivity.
Qed.

Lemma load_skill_fetch_fails (w : World) (fs env : dir) (url : string) :
  _is_url url = true ->
  (forall download_url folder, download_target url = inr (download_url, folder) ->
     exists d, w_fetch w download_url = URLErr d) ->
  exists e, load_skill w fs env url = inl e.
Proof.
  intros Hu Hf. unfold load_skill. rewrite Hu. unfold _download_skill.
  destruct (download_target url) as [e|[dl folder]] eqn:Ed; [eexists; reflexivity|].
  simpl. destruct (mkdir_p (pjoin skills_dir folder) env) as [e|env1]; [eexists; reflexivity|].
  simpl. destruct (Hf dl folder eq_refl) as [d ->]. eexists. reflexivity.
Qed.



(* ------------------------------------------------------------------ *)
(** ** Writes on directory trees *)

Lemma lookup_set_entry (n k : string) (c : node) (d : dir) :
  lookup_entry k (set_entry n c d) = if String.eqb n k then Some c else lookup_entry k d.
Proof.
  induction d as [|[k' c'] t IH]; simpl.
  - destruct (String.eqb n k); reflexivity.
  - destruct (String.eqb k' n) eqn:E1.
    + apply String.eqb_eq in E1. subst k'. simpl.
      destruct (String.eqb n k); reflexivity.
    + simpl. destruct (String.eqb k' k) eqn:E2.
      * apply String.eqb_eq in E2. subst k'.
        destruct (String.eqb n k) eqn:E3; [|reflexivity].
        apply String.eqb_eq in E3. subst n. rewrite String.eqb_refl in E1. discriminate.
      * exact IH.
Qed.

(** [mkdir -p] keeps every file in place *)
Lemma mkdir_p_keeps_files (p : path) :
  forall d d', mkdir_p p d = inr d' ->
  forall q c m, node_at q (NDir d) = Some (NFile c m) -> node_at q (NDir d') = Some (NFile c m).
Proof.
  induction p as [|x r IH]; intros d d' H q c m Hq; simpl in H.
  - injection H as <-. exact Hq.
  - destruct q as [|y q']; [discriminate|]. simpl in Hq |- *.
    destruct (lookup_entry x d) as [[c0 m0|sub]|] eqn:Ex.
    + discriminate.
    + destruct (mkdir_p r sub) as [e|sub'] eqn:Es; [discriminate|]. injection H as <-.
      rewrite lookup_set_entry. destruct (String.eqb x y) eqn:Exy.
      * apply String.eqb_eq in Exy. subst y. rewrite Ex in Hq. eapply IH; eassumption.
      * exact Hq.
    + destruct (mkdir_p r []) as [e|sub] eqn:Es; [discriminate|]. injection H as <-.
      rewrite lookup_set_entry. destruct (String.eqb x y) eqn:Exy.
      * apply String.eqb_eq in Exy. subst y. rewrite Ex in Hq. discriminate.
      * exact Hq.
Qed.

(** a write puts the file at its path and keeps every other file *)
Lemma write_file_spec (p : path) (content : string) (mtime : Z) :
  forall d d', write_file p content mtime d = inr d' ->
  node_at p (NDir d') = Some (NFile content mtime)
  /\ (forall q c m, q <> p -> node_at q (NDir d) = Some (NFile c m) ->
                    node_at q (NDir d') = Some (NFile c m)).
Proof.
  induction p as [|x r IH]; intros d d' H; simpl in H; [discriminate|].
  destruct r as [|z r'].
  - destruct (lookup_entry x d) as [[c0 m0|sub]|] eqn:Ex; try discriminate;
      injection H as <-; simpl; rewrite lookup_set_entry, String.eqb_refl;
      (split; [reflexivity|]);
      intros [|y q'] c m Hne Hq; try discriminate; simpl in Hq |- *;
      rewrite lookup_set_entry; destruct (String.eqb x y) eqn:Exy; try exact Hq;
      apply String.eqb_eq in Exy; subst y; rewrite Ex in Hq; try discriminate.
    destruct q'; [exfalso; apply Hne; reflexivity|discriminate].
  - destruct (lookup_entry x d) as [[c0 m0|sub]|] eqn:Ex; try discriminate.
    destruct (write_file (z :: r') content mtime sub) as [e|sub'] eqn:Ew; [discriminate|].
    injection H as <-. destruct (IH sub sub' Ew) as [H1 H2].
    split.
    + change (node_at (x :: z :: r') (NDir (set_entry x (NDir sub') d)))
        with (match lookup_entry x (set_entry x (NDir sub') d) with
              | Some c => node_at (z :: r') c | None => None end).
      rewrite lookup_set_entry, String.eqb_refl. exact H1.
    + intros [|y q'] c m Hne Hq; [discriminate|]. simpl in Hq |- *.
      rewrite lookup_set_entry. destruct (String.eqb x y) eqn:Exy; [|exact Hq].
      apply String.eqb_eq in Exy. subst y. rewrite Ex in Hq.
      apply H2; [|exact Hq]. intros Heq. apply Hne. rewrite Heq. reflexivity.
Qed.

Lemma copy_change_spec (env : dir) (chg rel : path) (fs fs' : dir) :
  copy_change env chg rel fs = (inr tt, fs') ->
  (exists c m, node_at rel (NDir env) = Some (NFile c m)
               /\ node_at (chg ++ rel)%list (NDir fs') = Some (NFile c m))
  /\ (forall q c m, q <> (chg ++ rel)%list -> node_at q (NDir fs) = Some (NFile c m) ->
                    node_at q (NDir fs') = Some (NFile c m)).
Proof.
  unfold copy_change. intros H.
  destruct (node_at rel (NDir env)) as [[c m|]|] eqn:Er; simpl in H; try discriminate.
  unfold fs_bind, fs_update in H.
  destruct (mkdir_p (removelast (chg ++ rel)%list) fs) as [e|fs1] eqn:Em; [discriminate|].
  simpl in H.
  destruct (write_file (chg ++ rel)%list c m fs1) as [e|fs2] eqn:Ew; [discriminate|].
  injection H as <-.
  destruct (write_file_spec _ _ _ _ _ Ew) as [W1 W2].
  split.
  - exists c, m. split; [reflexivity|exact W1].
  - intros q c' m' Hne Hq. apply W2; [exact Hne|].
    eapply mkdir_p_keeps_files; eassumption.
Qed.

Lemma copy_changes_spec (env : dir) (chg : path) (rels : list path) :
  forall fs fs', fs_iter (copy_change env chg) rels fs = (inr tt, fs') ->
  (forall rel, In rel rels -> exists c m, node_at rel (NDir env) = Some (NFile c m)
                                          /\ node_at (chg ++ rel)%list (NDir fs') = Some (NFile c m))
  /\ (forall q c m, node_at q (NDir fs) = Some (NFile c m) ->
        node_at q (NDir fs') = Some (NFile c m) \/ exists rel, In rel rels /\ q = (chg ++ rel)%list).
Proof.
  induction rels as [|rel rest IH]; intros fs fs' H; simpl in H.
  - injection H as <-. split; [intros rel []|]. intros q c m Hq. left. exact Hq.
  - unfold fs_bind in H at 1.
    destruct (copy_change env chg rel fs) as [[e|[]] fs1] eqn:Ec; [discriminate|].
    destruct (copy_change_spec env chg rel fs fs1 Ec) as [[c [m [Hc1 Hc2]]] Hk].
    destruct (IH fs1 fs' H) as [I1 I2].
    split.
    + intros rel' [<-|Hin]; [|apply I1, Hin].
      exists c, m. split; [exact Hc1|].
      destruct (I2 _ _ _ Hc2) as [Hp|[rel'' [Hin Heq]]]; [exact Hp|].
      apply app_inv_head in Heq. subst rel''.
      destruct (I1 rel Hin) as [c' [m' [H1 H2]]]. rewrite Hc1 in H1.
      injection H1 as <- <-. exact H2.
    + intros q c' m' Hq.
      destruct (list_eq_dec String.string_dec q (chg ++ rel)%list) as [->|Hne].
      * right. exists rel. split; [left; reflexivity|reflexivity].
      * destruct (I2 q c' m' (Hk q c' m' Hne Hq)) as [Hp|[rel'' [Hin Heq]]];
          [left; exact Hp|right; exists rel''; split; [right; exact Hin|exact Heq]].
Qed.

Lemma snoc_neq (od : path) (a b : string) : a <> b -> (od ++ [a])%list <> (od ++ [b])%list.
Proof. intros Hab H. apply app_inv_head in H. injection H as H. exact (Hab H). Qed.

Lemma snoc_not_below (od rel : path) (a b : string) :
  a <> b -> (od ++ [a])%list <> ((od ++ [b]) ++ rel)%list.
Proof.
  intros Hab H. rewrite <- app_assoc in H. apply app_inv_head in H. simpl in H.
  injection H as H _. exact (Hab H).
Qed.

Lemma run_scenario_after_build (w : World) (sc : Scenario) (ss : SkillSet) (run_dir : path)
    (fs : dir) :
  run_scenario w sc ss run_dir fs
  = match prepare_environment w fs (sc_path sc) (context_dir sc) (ss_skills ss)
            (if truthy (ss_mcp_servers ss) then Some (ss_mcp_servers ss) else None) with
    | inl e => (inl e, fs)
    | inr prep => launch_and_record w sc ss run_dir (fst prep) (snd prep) fs
    end.
Proof.
  unfold run_scenario, fs_bind, fs_read, fs_lift, ret. cbv beta iota.
  destruct (prepare_environment _ _ _ _ _ _); reflexivity.
Qed.

Lemma launch_and_record_artifacts (w : World) (sc : Scenario) (ss : SkillSet) (run_dir : path)
    (env : dir) (mcp_config_path : option string) (fs fs' : dir) (r : RunResult) :
  launch_and_record w sc ss run_dir env mcp_config_path fs = (inr r, fs') ->
  let od := pjoin (pjoin run_dir (sc_name sc)) (ss_name ss) in
  node_at (od ++ ["output.md"])%list (NDir fs') = Some (NFile (output r) 0)
  /\ (exists raw, node_at (od ++ ["raw.jsonl"])%list (NDir fs') = Some (NFile raw 0))
  /\ (exists md, node_at (od ++ ["metadata.yaml"])%list (NDir fs') = Some (NFile (w_yaml_dump w md) 0)
                 /\ In ("success", JBool (success r)) md
                 /\ (forall e, error r = Some e -> e <> "" -> In ("error", JStr e) md))
  /\ (exists original env_after,
        forall rel, In rel (_find_changed_files original env_after exclude_names) ->
        exists c m, node_at rel (NDir env_after) = Some (NFile c m)
                    /\ node_at (od ++ "changes" :: rel)%list (NDir fs') = Some (NFile c m)).
Proof.
  intros H od. unfold launch_and_record in H. cbv zeta in H.
  destruct (w_claude w _ env) as [proc env_after]. fold od in H.
  unfold fs_bind, fs_update, fs_read, fs_lift, fs_ret in H.
  destruct (mkdir_p od fs) as [e|fs1] eqn:E1; [discriminate|].
  destruct (write_file (od ++ ["output.md"])%list _ 0 fs1) as [e|fs2] eqn:E2; [discriminate|].
  destruct (write_file (od ++ ["raw.jsonl"])%list _ 0 fs2) as [e|fs3] eqn:E3; [discriminate|].
  destruct (write_file (od ++ ["metadata.yaml"])%list _ 0 fs3) as [e|fs4] eqn:E4; [discriminate|].
  cbn [ret] in H.
  destruct (write_file_spec _ _ _ _ _ E2) as [O2 K2].
  destruct (write_file_spec _ _ _ _ _ E3) as [R3 K3].
  destruct (write_file_spec _ _ _ _ _ E4) as [M4 K4].
  assert (O4 : node_at (od ++ ["output.md"])%list (NDir fs4)
               = Some (NFile (output_text (cr_parsed (run_claude (w_json_loads w) 600 60 proc))) 0)).
  { apply K4; [apply snoc_neq; discriminate|]. apply K3; [apply snoc_neq; discriminate|]. exact O2. }
  assert (R4 : node_at (od ++ ["raw.jsonl"])%list (NDir fs4)
               = Some (NFile (cr_raw (run_claude (w_json_loads w) 600 60 proc)) 0)).
  { apply K4; [apply snoc_neq; discriminate|]. exact R3. }
  destruct (fs_lookup fs4 (context_dir sc)) as [[c0 m0|d]|]; cbn [ret raise] in H; [discriminate| |];
  (destruct (fs_iter _ _ fs4) as [[e|[]] fs5] eqn:E5; [discriminate|];
   injection H as <- <-;
   destruct (copy_changes_spec _ _ _ _ _ E5) as [C5 K5];
   assert (Keep : forall a c m, a <> "changes" ->
                    node_at (od ++ [a])%list (NDir fs4) = Some (NFile c m) ->
                    node_at (od ++ [a])%list (NDir fs5) = Some (NFile c m));
   [ intros a c m Ha Hq; destruct (K5 _ _ _ Hq) as [Hp|[rel [_ Heq]]];
     [exact Hp|exfalso; exact (snoc_not_below od rel a "changes" Ha Heq)] |];
   split; [|split; [|split]];
   [ apply Keep; [discriminate|exact O4]
   | eexists; apply Keep; [discriminate|exact R4]
   | eexists; split; [apply Keep; [discriminate|exact M4]|];
     split; [left; reflexivity|];
     intros e He Hne; simpl in He; unfold run_metadata; rewrite He;
     destruct (String.eqb e "") eqn:Ee;
     [apply String.eqb_eq in Ee; contradiction|];
     apply in_or_app; right; left; reflexivity
   | eexists; exists env_after; intros rel Hin;
     destruct (C5 rel Hin) as [c [m [A B]]]; exists c, m; split; [exact A|];
     rewrite <- app_assoc in B; exact B ]).
Qed.


Lemma all_chars_app (p : ascii -> bool) (a b : string) :
  all_chars p (a ++ b) = all_chars p a && all_chars p b.
Proof. induction a as [|c a IH]; simpl; [reflexivity|]. rewrite IH. apply andb_assoc. Qed.

Lemma all_chars_impl (p q : ascii -> bool) (s : string) :
  (forall c, p c = true -> q c = true) -> all_chars p s = true -> all_chars q s = true.
Proof.
  intros Hpq. induction s as [|c s IH]; simpl; [reflexivity|].
  intros H. apply andb_prop in H as [H1 H2]. rewrite (Hpq c H1). simpl. exact (IH H2).
Qed.

Lemma has_char_none (p : ascii -> bool) (c : ascii) (s : string) :
  p c = false -> all_chars p s = true -> has_char c s = false.
Proof.
  intros Hc. induction s as [|d s IH]; simpl; [reflexivity|].
  intros H. apply andb_prop in H as [H1 H2]. rewrite (IH H2), orb_false_r.
  destruct (Ascii.eqb_spec d c); [subst; congruence|reflexivity].
Qed.

Lemma find_char_none (c : ascii) (s : string) : has_char c s = false -> find_char c s = None.
Proof.
  induction s as [|d s IH]; simpl; [reflexivity|].
  intros H. apply orb_false_iff in H as [H1 H2]. rewrite H1, (IH H2). reflexivity.
Qed.

Lemma substring_long (s : string) (m : nat) :
  (String.length s <= m)%nat -> substring 0 m s = s.
Proof.
  revert m. induction s as [|c s IH]; intros [|m] Hm; simpl in *; try reflexivity; [lia|].
  rewrite IH by lia. reflexivity.
Qed.

Lemma remove_unsafe_id (s : string) :
  all_chars (fun c => (32 <? nat_of_ascii c)%nat) s = true -> remove_unsafe s = s.
Proof.
  induction s as [|c s IH]; simpl; [reflexivity|].
  intros H. apply andb_prop in H as [H1 H2]. apply Nat.ltb_lt in H1.
  rewrite (IH H2).
  destruct (Nat.eqb_spec (nat_of_ascii c) 9); [lia|].
  destruct (Nat.eqb_spec (nat_of_ascii c) 10); [lia|].
  destruct (Nat.eqb_spec (nat_of_ascii c) 13); [lia|]. reflexivity.
Qed.

Lemma split_netloc_app (p : ascii -> bool) (a b : string) :
  (forall c, p c = true -> has_char c "/?#" = false) -> all_chars p a = true ->
  split_netloc (a ++ String "/" b) = (a, String "/" b).
Proof.
  intros Hp. induction a as [|c a IH]; [reflexivity|].
  cbn [String.append split_netloc all_chars].
  intros H. apply andb_prop in H as [H1 H2]. rewrite (Hp c H1), (IH H2). reflexivity.
Qed.


Lemma hostname_char_ok (c : ascii) : hostname_char c = true ->
  (32 <? nat_of_ascii c)%nat = true /\ has_char c "/?#" = false
  /\ Ascii.eqb c "["%char = false /\ Ascii.eqb c "]"%char = false.
Proof.
  unfold hostname_char, is_alpha. intros H.
  destruct (Ascii.eqb_spec c "-"%char) as [Hm|Hm]; [rewrite Hm; repeat split|].
  destruct (Ascii.eqb_spec c "."%char) as [Hd|Hd]; [rewrite Hd; repeat split|].
  rewrite !orb_false_r in H.
  assert (Hr : (48 <= nat_of_ascii c <= 57 \/ 65 <= nat_of_ascii c <= 90
               \/ 97 <= nat_of_ascii c <= 122)%nat).
  { repeat (apply orb_prop in H as [H|H]); apply andb_prop in H as [Ha Hb];
      apply Nat.leb_le in Ha; apply Nat.leb_le in Hb; lia. }
  assert (Hne : forall d, (nat_of_ascii d < 48 \/ 57 < nat_of_ascii d /\ nat_of_ascii d < 65
                \/ 90 < nat_of_ascii d /\ nat_of_ascii d < 97)%nat -> Ascii.eqb c d = false).
  { intros d Hd'. destruct (Ascii.eqb_spec c d) as [->|]; [lia|reflexivity]. }
  split; [apply Nat.ltb_lt; lia|].
  split; [|split; apply Hne; vm_compute; lia].
  unfold has_char. rewrite !(Ascii.eqb_sym _ c), !Hne by (vm_compute; lia). reflexivity.
Qed.

Lemma path_char_ok (c : ascii) : path_char c = true ->
  (32 <? nat_of_ascii c)%nat = true /\ Ascii.eqb c "#"%char = false
  /\ Ascii.eqb c "?"%char = false /\ Ascii.eqb c ";"%char = false.
Proof.
  unfold path_char, segment_char. intros H.
  destruct (Ascii.eqb_spec c "/"%char) as [Hs|Hs]; [rewrite Hs; repeat split|].
  rewrite orb_false_r in H. apply andb_prop in H as [H1 H2].
  simpl in H2. rewrite !negb_orb in H2. repeat (apply andb_prop in H2 as [? H2]).
  split; [exact H1|].
  repeat split; rewrite Ascii.eqb_sym; apply negb_true_iff; assumption.
Qed.

(** [urlparse] on [https://host/path] with a clean host and path. *)
Lemma urlparse_https_path (host J : string) :
  all_chars hostname_char host = true -> all_chars path_char J = true ->
  urlparse ("https://" ++ host ++ "/" ++ J) = inr (mk_url "https" host ("/" ++ J) "" "" "").
Proof.
  intros HH HJ.
  assert (Hsafe : all_chars (fun c => (32 <? nat_of_ascii c)%nat) (host ++ "/" ++ J) = true).
  { rewrite all_chars_app. apply andb_true_intro. split.
    - refine (all_chars_impl _ _ _ _ HH). intros c Hc. apply (hostname_char_ok c Hc).
    - simpl. refine (all_chars_impl _ _ _ _ HJ). intros c Hc. apply (path_char_ok c Hc). }
  unfold urlparse.
  change (lstrip_c0 ("https://" ++ host ++ "/" ++ J)) with ("https://" ++ host ++ "/" ++ J).
  rewrite (remove_unsafe_id ("https://" ++ host ++ "/" ++ J)) by (simpl; exact Hsafe).
  remember (host ++ "/" ++ J) as R eqn:HR.
  simpl. rewrite substring_long by lia. simpl.
  rewrite substring_long by (simpl; lia). subst R.
  change ("/" ++ J) with (String "/" J).
  replace (String.prefix "" (host ++ String "/" J)) with true by (destruct host; reflexivity).
  rewrite (split_netloc_app hostname_char) by
    (first [exact HH | intros c Hc; apply (hostname_char_ok c Hc)]).
  cbv beta iota zeta.
  rewrite (has_char_none hostname_char "[" host eq_refl HH),
          (has_char_none hostname_char "]" host eq_refl HH).
  cbn [xorb]. unfold split_once. cbn [find_char].
  rewrite (find_char_none "#" J (has_char_none path_char "#" J eq_refl HJ)).
  simpl.
  rewrite (find_char_none "?" J (has_char_none path_char "?" J eq_refl HJ)).
  simpl. rewrite (has_char_none path_char ";" J eq_refl HJ). reflexivity.
Qed.

Lemma split_on_nonnil (c : ascii) (s : string) : split_on c s <> [].
Proof.
  induction s as [|d s IH]; simpl; [discriminate|].
  destruct (Ascii.eqb d c); [discriminate|]. destruct (split_on c s); discriminate.
Qed.

Lemma split_on_nochar (c : ascii) (x : string) : has_char c x = false -> split_on c x = [x].
Proof.
  induction x as [|d x IH]; simpl; [reflexivity|].
  intros H. apply orb_false_iff in H as [H1 H2]. rewrite H1, (IH H2). reflexivity.
Qed.

Lemma split_on_app (c : ascii) (x s : string) :
  has_char c x = false -> split_on c (x ++ String c s) = x :: split_on c s.
Proof.
  induction x as [|d x IH]; intros H.
  - simpl. rewrite Ascii.eqb_refl. reflexivity.
  - simpl in H. apply orb_false_iff in H as [H1 H2].
    cbn [String.append split_on]. rewrite H1, (IH H2). reflexivity.
Qed.

Lemma segment_ok_chars (s : string) :
  segment_ok s = true -> s <> "" /\ all_chars segment_char s = true.
Proof.
  unfold segment_ok. intros H. apply andb_prop in H as [H1 H2]. split; [|exact H2].
  intros E. subst s. discriminate.
Qed.

Lemma segment_ok_no_slash (s : string) : segment_ok s = true -> has_char "/" s = false.
Proof.
  intros H. apply segment_ok_chars in H as [_ H]. exact (has_char_none segment_char "/" s eq_refl H).
Qed.

Lemma split_on_join (segs : list string) :
  segs <> [] -> forallb segment_ok segs = true -> split_on "/" (join "/" segs) = segs.
Proof.
  induction segs as [|x [|y r] IH]; intros Hne H; [congruence| |].
  - simpl in H. rewrite andb_true_r in H. apply split_on_nochar, segment_ok_no_slash, H.
  - cbn [forallb] in H. apply andb_prop in H as [Hx H].
    change (join "/" (x :: y :: r)) with (x ++ String "/" (join "/" (y :: r))).
    rewrite split_on_app by (apply segment_ok_no_slash, Hx).
    rewrite IH by (try discriminate; exact H). reflexivity.
Qed.

Lemma all_chars_join (p : ascii -> bool) (segs : list string) :
  p "/"%char = true -> forallb (all_chars p) segs = true -> all_chars p (join "/" segs) = true.
Proof.
  intros Hs. induction segs as [|x [|y r] IH]; intros H; [reflexivity| |].
  - simpl in H. rewrite andb_true_r in H. exact H.
  - cbn [forallb] in H. apply andb_prop in H as [Hx H].
    change (join "/" (x :: y :: r)) with (x ++ String "/" (join "/" (y :: r))).
    rewrite all_chars_app, Hx. cbn [all_chars]. rewrite Hs. exact (IH H).
Qed.

Lemma join_nonempty (segs : list string) :
  forallb segment_ok segs = true -> segs <> [] -> join "/" segs <> "".
Proof.
  destruct segs as [|x [|y r]]; intros H Hne; [congruence| |].
  - simpl in H. rewrite andb_true_r in H. apply segment_ok_chars in H as [H _]. exact H.
  - cbn [forallb] in H. apply andb_prop in H as [Hx _]. apply segment_ok_chars in Hx as [Hx _].
    change (join "/" (x :: y :: r)) with (x ++ String "/" (join "/" (y :: r))).
    destruct x; [congruence|discriminate].
Qed.

Lemma rstrip_char_nochar (c : ascii) (s : string) : has_char c s = false -> rstrip_char c s = s.
Proof.
  induction s as [|d s IH]; simpl; [reflexivity|].
  intros H. apply orb_false_iff in H as [H1 H2]. rewrite (IH H2), H1, andb_false_r. reflexivity.
Qed.

Lemma rstrip_char_keep (c : ascii) (a b : string) :
  rstrip_char c b = b -> b <> "" -> rstrip_char c (a ++ b) = a ++ b.
Proof.
  intros Hb Hne. induction a as [|d a IH]; [exact Hb|].
  cbn [String.append rstrip_char]. rewrite IH.
  replace (String.eqb (a ++ b) "") with false; [reflexivity|].
  symmetry. apply String.eqb_neq. destruct a; simpl; [exact Hne|discriminate].
Qed.

Lemma rstrip_slash (J : string) :
  rstrip_char "/" J = J -> J <> "" -> rstrip_char "/" (String "/" J) = String "/" J.
Proof.
  intros H Hne. cbn [rstrip_char]. rewrite H.
  replace (String.eqb J "") with false; [reflexivity|]. symmetry. apply String.eqb_neq, Hne.
Qed.

Lemma rstrip_join (segs : list string) :
  forallb segment_ok segs = true -> rstrip_char "/" (join "/" segs) = join "/" segs.
Proof.
  induction segs as [|x [|y r] IH]; intros H; [reflexivity| |].
  - simpl in H. rewrite andb_true_r in H. apply rstrip_char_nochar, segment_ok_no_slash, H.
  - cbn [forallb] in H. apply andb_prop in H as [Hx H].
    change (join "/" (x :: y :: r)) with (x ++ String "/" (join "/" (y :: r))).
    apply rstrip_char_keep; [|discriminate].
    apply rstrip_slash; [exact (IH H)|]. apply join_nonempty; [exact H|discriminate].
Qed.

Lemma filter_nonempty_segments (segs : list string) :
  forallb segment_ok segs = true -> filter (fun s => negb (String.eqb s "")) segs = segs.
Proof.
  induction segs as [|x r IH]; intros H; [reflexivity|].
  cbn [forallb] in H. apply andb_prop in H as [Hx H].
  apply segment_ok_chars in Hx as [Hx _]. simpl. rewrite IH by exact H.
  replace (String.eqb x "") with false; [reflexivity|]. symmetry. apply String.eqb_neq, Hx.
Qed.

(** [urlparse] on a clean [https_url], and the path segments
    [_download_skill] reads back from it. *)
Lemma urlparse_https (host : string) (segs : list string) :
  hostname_ok host = true -> forallb segment_ok segs = true ->
  urlparse (https_url host segs) = inr (mk_url "https" host ("/" ++ join "/" segs) "" "" "").
Proof.
  intros HH HS. apply andb_prop in HH as [_ HH]. apply urlparse_https_path; [exact HH|].
  apply all_chars_join; [reflexivity|].
  induction segs as [|x r IH]; [reflexivity|].
  cbn [forallb] in *. apply andb_prop in HS as [Hx HS].
  apply segment_ok_chars in Hx as [_ Hx]. rewrite (IH HS), andb_true_r.
  refine (all_chars_impl _ _ _ _ Hx). intros c Hc. unfold path_char. rewrite Hc. reflexivity.
Qed.

Lemma https_path_parts (segs : list string) :
  segs <> [] -> forallb segment_ok segs = true ->
  filter (fun s => negb (String.eqb s "")) (split_on "/" (rstrip_char "/" ("/" ++ join "/" segs)))
  = segs.
Proof.
  intros Hne HS. change ("/" ++ join "/" segs) with (String "/" (join "/" segs)).
  rewrite rstrip_slash by (first [exact (rstrip_join segs HS) | exact (join_nonempty segs HS Hne)]).
  cbn [split_on]. rewrite Ascii.eqb_refl, split_on_join by assumption.
  simpl. apply filter_nonempty_segments, HS.
Qed.

Lemma normalize_clean (host : string) (segs : list string) :
  hostname_ok host = true -> forallb segment_ok segs = true ->
  _normalize_github_url (https_url host segs) =
  if String.eqb host "github.com" && blob_form segs
  then inr (https_url "raw.githubusercontent.com" (firstn 2 segs ++ skipn 3 segs))
  else inr (https_url host segs).
Proof.
  intros HH HS. unfold _normalize_github_url. rewrite urlparse_https by assumption.
  cbn [bind netloc url_path].
  destruct (String.eqb host "github.com") eqn:Eh; [|reflexivity].
  apply String.eqb_eq in Eh. subst host. cbn [negb andb].
  change ("/" ++ join "/" segs) with (String "/" (join "/" segs)).
  cbn [split_on]. rewrite Ascii.eqb_refl.
  destruct segs as [|a r]; [reflexivity|].
  rewrite split_on_join by (first [discriminate | exact HS]).
  destruct r as [|b [|c [|d r]]]; try reflexivity.
Qed.

Lemma normalize_passthrough (url : string) (u : url_parts) :
  urlparse url = inr u -> netloc u <> "github.com" -> _normalize_github_url url = inr url.
Proof.
  intros Hu Hn. unfold _normalize_github_url. rewrite Hu. cbn [bind].
  apply String.eqb_neq in Hn. rewrite Hn. reflexivity.
Qed.

Lemma download_target_normalized (url host : string) (segs : list string) :
  hostname_ok host = true -> forallb segment_ok segs = true -> segs <> [] ->
  _normalize_github_url url = inr (https_url host segs) ->
  download_target url =
  inr (https_url host segs,
       if String.eqb host "raw.githubusercontent.com" then
         if (length segs <=? 4)%nat then
           (if (2 <=? length segs)%nat then nth 1 segs "" else "downloaded-skill")
         else second_last segs
       else if (2 <=? length segs)%nat then second_last segs
       else replace_char "."%char "-"%char host).
Proof.
  intros HH HS Hne Hn. unfold download_target. rewrite Hn. cbn [bind].
  rewrite urlparse_https by assumption. cbn [bind netloc url_path].
  rewrite https_path_parts by assumption. reflexivity.
Qed.

Lemma second_last_skip3 (a b c : string) (parts : list string) :
  (2 <= length parts)%nat -> second_last (a :: b :: c :: parts) = second_last parts.
Proof.
  intros H. unfold second_last. cbn [length].
  replace (S (S (S (length parts))) - 2)%nat with (S (S (S (length parts - 2)))) by lia.
  reflexivity.
Qed.



(** C3 (amended): for a URL [https://host/s1/.../sn] (n >= 1) with a
    clean host name and clean path segments, [_download_skill] names the
    folder: [s(n-1)], the segment before the file name, when the host is not
    [raw.githubusercontent.com], n >= 2, and the URL is not a GitHub blob
    URL (this includes [github.com] URLs in other forms, e.g.
    [org/repo/raw/main/SKILL.md] gives [main]); the host with dots replaced
    by dashes when n = 1 and the host is not [raw.githubusercontent.com]; on
    [raw.githubusercontent.com], [s2] (the repository) when 2 <= n <= 4,
    [s(n-1)] when n > 4 and [downloaded-skill] when n = 1; and for a blob URL
    [github.com/org/repo/blob/ref/p1/.../pk], fetched in raw form, the
    repository when k <= 1 and [p(k-1)] otherwise. *)
Theorem download_target_folder (host : string) (segs : list string) :
  hostname_ok host = true -> forallb segment_ok segs = true ->
  (host <> "raw.githubusercontent.com" -> (2 <= length segs)%nat ->
     (host <> "github.com" \/ blob_form segs = false) ->
     download_target (https_url host segs) = inr (https_url host segs, second_last segs))
  /\ (host <> "raw.githubusercontent.com" -> length segs = 1%nat ->
        download_target (https_url host segs)
        = inr (https_url host segs, replace_char "."%char "-"%char host))
  /\ (host = "raw.githubusercontent.com" -> (2 <= length segs <= 4)%nat ->
        download_target (https_url host segs) = inr (https_url host segs, nth 1 segs ""))
  /\ (host = "raw.githubusercontent.com" -> (4 < length segs)%nat ->
        download_target (https_url host segs) = inr (https_url host segs, second_last segs))
  /\ (host = "raw.githubusercontent.com" -> length segs = 1%nat ->
        download_target (https_url host segs) = inr (https_url host segs, "downloaded-skill"))
  /\ (forall org repo ref parts,
        host = "github.com" -> segs = org :: repo :: "blob" :: ref :: parts ->
        download_target (https_url host segs)
        = inr (https_url "raw.githubusercontent.com" (org :: repo :: ref :: parts),
               if (length parts <=? 1)%nat then repo else second_last parts)).
Proof.
  intros HH HS.
  assert (Hplain : blob_form segs = false \/ host <> "github.com" ->
                   _normalize_github_url (https_url host segs) = inr (https_url host segs)).
  { intros Hb. rewrite normalize_clean by assumption.
    destruct Hb as [Hb|Hb]; [rewrite Hb, andb_false_r; reflexivity|].
    apply String.eqb_neq in Hb. rewrite Hb. reflexivity. }
  assert (Hraw : host = "raw.githubusercontent.com" ->
                 _normalize_github_url (https_url host segs) = inr (https_url host segs)).
  { intros ->. apply Hplain. right. discriminate. }
  assert (Hne : forall n, length segs = S n -> segs <> []).
  { intros n E ->. discriminate. }
  split; [|split; [|split; [|split; [|split]]]].
  - intros Hr Hl Hb.
    rewrite (download_target_normalized _ host segs HH HS)
      by (first [apply Hplain; tauto | intros ->; simpl in Hl; lia]).
    apply String.eqb_neq in Hr. rewrite Hr.
    replace (2 <=? length segs)%nat with true by (symmetry; apply Nat.leb_le; exact Hl).
    reflexivity.
  - intros Hr Hl.
    assert (Hb : blob_form segs = false).
    { destruct segs as [|a [|b r]]; [reflexivity|reflexivity|discriminate]. }
    rewrite (download_target_normalized _ host segs HH HS (Hne _ Hl)) by (apply Hplain; left; exact Hb).
    apply String.eqb_neq in Hr. rewrite Hr, Hl. reflexivity.
  - intros Hr Hl.
    rewrite (download_target_normalized _ host segs HH HS) by
      (first [exact (Hraw Hr) | intros ->; simpl in Hl; lia]).
    subst host. cbn [String.eqb Ascii.eqb Bool.eqb andb].
    replace (length segs <=? 4)%nat with true by (symmetry; apply Nat.leb_le; lia).
    replace (2 <=? length segs)%nat with true by (symmetry; apply Nat.leb_le; lia).
    reflexivity.
  - intros Hr Hl.
    rewrite (download_target_normalized _ host segs HH HS) by
      (first [exact (Hraw Hr) | intros ->; simpl in Hl; lia]).
    subst host. cbn [String.eqb Ascii.eqb Bool.eqb andb].
    replace (length segs <=? 4)%nat with false by (symmetry; apply Nat.leb_gt; lia).
    reflexivity.
  - intros Hr Hl.
    rewrite (download_target_normalized _ host segs HH HS (Hne _ Hl) (Hraw Hr)).
    subst host. cbn [String.eqb Ascii.eqb Bool.eqb andb]. rewrite Hl. reflexivity.
  - intros org repo ref parts Hh Hs. subst host segs.
    assert (HS' : forallb segment_ok (org :: repo :: ref :: parts) = true).
    { cbn [forallb] in *. destruct (segment_ok org), (segment_ok repo); try discriminate.
      cbn [andb] in *. exact HS. }
    rewrite (download_target_normalized _ "raw.githubusercontent.com" (org :: repo :: ref :: parts)
               eq_refl HS' ltac:(discriminate))
      by (rewrite normalize_clean by assumption; reflexivity).
    cbn [String.eqb Ascii.eqb Bool.eqb andb length].
    destruct parts as [|p1 [|p2 parts]]; [reflexivity|reflexivity|].
    cbn [length Nat.leb]. rewrite second_last_skip3 by (simpl; lia). reflexivity.
Qed.

Lemma download_target_folder_witness :
  download_target "https://example.com/skills/my-skill/SKILL.md"
  = inr ("https://example.com/skills/my-skill/SKILL.md", "my-skill")
  /\ download_target "https://example.com/SKILL.md" = inr ("https://example.com/SKILL.md", "example-com")
  /\ download_target "https://github.com/org/repo/blob/main/SKILL.md"
     = inr ("https://raw.githubusercontent.com/org/repo/main/SKILL.md", "repo").
Proof.
  split; [|split].
  - refine (proj1 (download_target_folder "example.com" ["skills"; "my-skill"; "SKILL.md"]
                     eq_refl eq_refl) _ _ _).
    + discriminate.
    + simpl. lia.
    + left. discriminate.
  - exact (proj1 (proj2 (download_target_folder "example.com" ["SKILL.md"] eq_refl eq_refl))
             ltac:(discriminate) eq_refl).
  - exact (proj2 (proj2 (proj2 (proj2 (proj2 (download_target_folder "github.com"
             ["org"; "repo"; "blob"; "main"; "SKILL.md"] eq_refl eq_refl)))))
             "org" "repo" "main" ["SKILL.md"] eq_refl eq_refl).
Defined.

Lemma wf_node_dir (es : dir) :
  wf_node (NDir es) = names_distinct (map fst es) && forallb (fun e => wf_node (snd e)) es.
Proof.
  cbn [wf_node]. f_equal. induction es as [|[k c] t IH]; [reflexivity|].
  cbn [forallb snd]. rewrite IH. reflexivity.
Qed.

Lemma included_dir (da db : dir) :
  included (NDir da) (NDir db)
  = forallb (fun e => match lookup_entry (fst e) da with
                      | Some x => included x (snd e) | None => false end) db.
Proof.
  cbn [included]. induction db as [|[k c] t IH]; [reflexivity|].
  cbn [forallb fst snd]. rewrite IH. reflexivity.
Qed.

Lemma rglob_files_dir (es : dir) :
  rglob_files (NDir es)
  = flat_map (fun e => match snd e with
                       | NFile _ _ => [[fst e]]
                       | NDir _ => map (cons (fst e)) (rglob_files (snd e))
                       end) es.
Proof.
  cbn [rglob_files]. induction es as [|[k c] t IH]; [reflexivity|].
  cbn [flat_map fst snd]. rewrite <- IH. reflexivity.
Qed.

Lemma compare_dirs_dir (excl : list string) (rel : path) (le re : dir) :
  compare_dirs excl rel (NDir le) (NDir re)
  = (let lv := visible excl le in
     let rv := visible excl re in
     map (fun n => rel ++ [n])
       (filter (fun n => negb (excluded excl n))
          (flat_map (fun e =>
             match snd e, lookup_entry (fst e) rv with
             | NFile c1 m1, Some (NFile c2 m2) => if cmp_file c1 m1 c2 m2 then [] else [fst e]
             | _, _ => []
             end) lv))
     ++ flat_map (fun e =>
          if excluded excl (fst e) then []
          else match snd e with
               | NFile _ _ => [rel ++ [fst e]]
               | NDir _ => new_files_under excl (rel ++ [fst e]) (snd e)
               end)
          (filter (fun e => negb (existsb (String.eqb (fst e)) (map fst lv))) rv)
     ++ flat_map (fun e =>
          if excluded excl (fst e) then []
          else match snd e, lookup_entry (fst e) lv with
               | NDir _, Some (NDir _ as l) => compare_dirs excl (rel ++ [fst e]) l (snd e)
               | _, _ => []
               end) re)%list.
Proof.
  cbn [compare_dirs]. cbv zeta. do 2 f_equal.
  induction re as [|[k c] t IH]; [reflexivity|].
  cbn [flat_map fst snd]. rewrite <- IH. reflexivity.
Qed.

Lemma lookup_entry_In (k : string) (es : dir) (x : node) :
  lookup_entry k es = Some x -> In (k, x) es.
Proof.
  induction es as [|[k' c] t IH]; simpl; [discriminate|].
  destruct (String.eqb_spec k' k) as [->|_]; [intros [= ->]; left; reflexivity|].
  intros H. right. exact (IH H).
Qed.

Lemma lookup_entry_None (k : string) (es : dir) :
  lookup_entry k es = None <-> ~ In k (map fst es).
Proof.
  induction es as [|[k' c] t IH]; simpl; [tauto|].
  destruct (String.eqb_spec k' k) as [->|Hne]; [split; [discriminate|tauto]|].
  rewrite IH. intuition.
Qed.

Lemma names_distinct_In (es : dir) (k : string) (x : node) :
  names_distinct (map fst es) = true -> In (k, x) es -> lookup_entry k es = Some x.
Proof.
  induction es as [|[k' c] t IH]; simpl; [contradiction|].
  intros H Hin. apply andb_prop in H as [H1 H2].
  destruct Hin as [[= -> ->]|Hin]; [rewrite String.eqb_refl; reflexivity|].
  destruct (String.eqb_spec k' k) as [->|_]; [|exact (IH H2 Hin)].
  exfalso. apply negb_true_iff in H1. apply (in_map fst) in Hin.
  assert (existsb (String.eqb k) (map fst t) = true) by
    (apply existsb_exists; exists k; split; [exact Hin|apply String.eqb_refl]).
  congruence.
Qed.

Lemma lookup_visible (excl : list string) (k : string) (es : dir) :
  lookup_entry k (visible excl es) = if excluded excl k then None else lookup_entry k es.
Proof.
  unfold visible. induction es as [|[k' c] t IH]; simpl; [destruct (excluded excl k); reflexivity|].
  destruct (String.eqb_spec k' k) as [->|Hne].
  - destruct (excluded excl k); simpl; [exact IH|]. rewrite String.eqb_refl. reflexivity.
  - destruct (excluded excl k'); simpl; [exact IH|].
    apply String.eqb_neq in Hne. rewrite Hne. exact IH.
Qed.

Lemma in_visible (excl : list string) (e : string * node) (es : dir) :
  In e (visible excl es) <-> In e es /\ excluded excl (fst e) = false.
Proof. unfold visible. rewrite filter_In, negb_true_iff. reflexivity. Qed.

Lemma wf_child (es : dir) (k : string) (x : node) :
  wf_node (NDir es) = true -> In (k, x) es -> wf_node x = true.
Proof.
  rewrite wf_node_dir. intros H Hin. apply andb_prop in H as [_ H].
  rewrite forallb_forall in H. exact (H _ Hin).
Qed.

Lemma rglob_files_spec (n : node) :
  wf_node n = true -> forall q, In q (rglob_files n) ->
  q <> [] /\ exists c t, node_at q n = Some (NFile c t).
Proof.
  induction n as [c m|es IH] using node_rect_deep; intros Hwf q Hq; [contradiction|].
  rewrite rglob_files_dir in Hq. apply in_flat_map in Hq as [[k x] [Hin Hq]].
  pose proof (Hwf' := Hwf). rewrite wf_node_dir in Hwf'. apply andb_prop in Hwf' as [Hd _].
  cbn [node_at]. cbn [fst snd] in Hq.
  destruct x as [c t|es'].
  - destruct Hq as [<-|[]]. split; [discriminate|].
    cbn [node_at]. rewrite (names_distinct_In es k _ Hd Hin). eauto.
  - apply in_map_iff in Hq as [q' [<- Hq']]. split; [discriminate|].
    cbn [node_at]. rewrite (names_distinct_In es k _ Hd Hin).
    rewrite Forall_forall in IH.
    exact (proj2 (IH (k, NDir es') Hin (wf_child es k _ Hwf Hin) q' Hq')).
Qed.

Lemma writable_nil (r : path) : r <> [] -> writable r [] = true.
Proof.
  induction r as [|y [|z r'] IH]; intros H; [congruence|reflexivity|].
  change (writable (y :: z :: r') []) with (writable (z :: r') []). apply IH. discriminate.
Qed.

Lemma writable_not_nil (q : path) (d : dir) : writable q d = true -> q <> [].
Proof. intros H ->. discriminate. Qed.

Lemma cmp_file_false (c1 c2 : string) (m1 m2 : Z) : cmp_file c1 m1 c2 m2 = false -> c1 <> c2.
Proof.
  unfold cmp_file. intros H ->. rewrite Nat.eqb_refl, String.eqb_refl in H.
  destruct (Z.eqb m1 m2); discriminate.
Qed.

Lemma existsb_names_false (k : string) (es : dir) :
  existsb (String.eqb k) (map fst es) = false -> lookup_entry k es = None.
Proof.
  intros H. apply lookup_entry_None. intros Hin.
  assert (existsb (String.eqb k) (map fst es) = true) by
    (apply existsb_exists; exists k; split; [exact Hin|apply String.eqb_refl]).
  congruence.
Qed.

(** what [compare_dirs] reports below [rel]: files of the modified
    directory, whose contents differ from the original's where the original
    has a file there, and to which the original can be written *)
Lemma compare_dirs_reported (excl : list string) (rn : node) :
  forall re le rel p, rn = NDir re ->
  wf_node (NDir le) = true -> wf_node (NDir re) = true ->
  In p (compare_dirs excl rel (NDir le) (NDir re)) ->
  exists q, p = (rel ++ q)%list
    /\ (exists c t, node_at q (NDir re) = Some (NFile c t))
    /\ (forall c1 t1 c2 t2, node_at q (NDir le) = Some (NFile c1 t1) ->
          node_at q (NDir re) = Some (NFile c2 t2) -> c1 <> c2)
    /\ writable q le = true.
Proof.
  induction rn as [c m|es IH] using node_rect_deep;
    intros re le rel p Hrn Hwl Hwr Hp; [discriminate|].
  injection Hrn as <-.
  pose proof (Hdl := Hwl). rewrite wf_node_dir in Hdl. apply andb_prop in Hdl as [Hdl _].
  pose proof (Hdr := Hwr). rewrite wf_node_dir in Hdr. apply andb_prop in Hdr as [Hdr _].
  rewrite compare_dirs_dir in Hp. cbv zeta in Hp.
  apply in_app_or in Hp as [Hp|Hp]; [|apply in_app_or in Hp as [Hp|Hp]].
  - (* a file that differs *)
    apply in_map_iff in Hp as [n [<- Hn]]. apply filter_In in Hn as [Hn _].
    apply in_flat_map in Hn as [[k x] [Hin Hn]]. apply in_visible in Hin as [Hin Hex].
    cbn [fst snd] in Hn, Hex.
    destruct x as [c1 m1|]; [|contradiction].
    rewrite lookup_visible, Hex in Hn.
    destruct (lookup_entry k es) as [[c2 m2|]|] eqn:Er; try contradiction.
    destruct (cmp_file c1 m1 c2 m2) eqn:Ec; [contradiction|].
    destruct Hn as [<-|[]].
    exists [k]. split; [reflexivity|].
    cbn [node_at]. rewrite Er, (names_distinct_In le k _ Hdl Hin).
    split; [eauto|]. split; [|cbn [writable]; rewrite (names_distinct_In le k _ Hdl Hin); reflexivity].
    intros c1' t1 c2' t2 [= <- <-] [= <- <-]. exact (cmp_file_false _ _ _ _ Ec).
  - (* a new entry *)
    apply in_flat_map in Hp as [[k x] [Hin Hp]].
    apply filter_In in Hin as [Hin Hnew]. apply in_visible in Hin as [Hin Hex].
    cbn [fst snd] in Hp, Hex, Hnew. rewrite Hex in Hp.
    apply negb_true_iff, existsb_names_false in Hnew.
    rewrite lookup_visible, Hex in Hnew.
    assert (Hx : lookup_entry k es = Some x) by exact (names_distinct_In es k _ Hdr Hin).
    destruct x as [c t|es'].
    + destruct Hp as [<-|[]]. exists [k]. split; [reflexivity|].
      cbn [node_at]. rewrite Hx, Hnew. split; [eauto|]. split; [discriminate|].
      cbn [writable]. rewrite Hnew. reflexivity.
    + unfold new_files_under in Hp. apply in_map_iff in Hp as [r [<- Hr]].
      apply filter_In in Hr as [Hr _].
      destruct (rglob_files_spec (NDir es') (wf_child es k _ Hwr Hin) r Hr) as [Hne Hf].
      exists (k :: r). split; [rewrite <- app_assoc; reflexivity|].
      cbn [node_at]. rewrite Hx, Hnew. split; [exact Hf|]. split; [discriminate|].
      destruct r as [|y r']; [congruence|].
      change (writable (k :: y :: r') le)
        with (match lookup_entry k le with
              | Some (NDir sub) => writable (y :: r') sub
              | Some (NFile _ _) => false
              | None => writable (y :: r') []
              end).
      rewrite Hnew. apply writable_nil. discriminate.
  - (* a common subdirectory *)
    apply in_flat_map in Hp as [[k x] [Hin Hp]]. cbn [fst snd] in Hp.
    destruct (excluded excl k) eqn:Hex; [contradiction|].
    rewrite lookup_visible, Hex in Hp.
    destruct x as [|es']; [contradiction|].
    destruct (lookup_entry k le) as [[|le']|] eqn:El; try contradiction.
    rewrite Forall_forall in IH.
    destruct (IH (k, NDir es') Hin es' le' (rel ++ [k])%list p eq_refl
                (wf_child le k _ Hwl (lookup_entry_In k le _ El))
                (wf_child es k _ Hwr Hin) Hp) as [q [-> [Hf [Hd Hw]]]].
    exists (k :: q). split; [rewrite <- app_assoc; reflexivity|].
    assert (Hx : lookup_entry k es = Some (NDir es')) by exact (names_distinct_In es k _ Hdr Hin).
    cbn [node_at]. rewrite Hx, El. split; [exact Hf|]. split; [exact Hd|].
    destruct q as [|y q']; [discriminate|].
    change (writable (k :: y :: q') le)
      with (match lookup_entry k le with
            | Some (NDir sub) => writable (y :: q') sub
            | Some (NFile _ _) => false
            | None => writable (y :: q') []
            end).
    rewrite El. exact Hw.
Qed.

Lemma find_changed_files_reported (excl : list string) (original : option dir) (m : dir) (p : path) :
  wf_dir m = true -> wf_dir (orig_dir original) = true ->
  In p (_find_changed_files original m excl) ->
  (exists c t, node_at p (NDir m) = Some (NFile c t))
  /\ (forall c1 t1 c2 t2, node_at p (NDir (orig_dir original)) = Some (NFile c1 t1) ->
        node_at p (NDir m) = Some (NFile c2 t2) -> c1 <> c2)
  /\ writable p (orig_dir original) = true.
Proof.
  intros Hm Ho Hp. destruct original as [o|]; cbn [_find_changed_files orig_dir] in *.
  - destruct (compare_dirs_reported excl (NDir m) m o [] p eq_refl Ho Hm Hp)
      as [q [-> H]]. exact H.
  - unfold new_files_under in Hp. apply in_map_iff in Hp as [r [<- Hr]].
    apply filter_In in Hr as [Hr _].
    destruct (rglob_files_spec (NDir m) Hm r Hr) as [Hne Hf].
    split; [exact Hf|]. split; [|apply writable_nil, Hne].
    destruct r; [congruence|]. discriminate.
Qed.

Lemma set_entry_In (n : string) (c : node) (d : dir) (e : string * node) :
  In e (set_entry n c d) -> e = (n, c) \/ In e d.
Proof.
  induction d as [|[k c'] t IH]; simpl; [intros [<-|[]]; left; reflexivity|].
  destruct (String.eqb_spec k n) as [->|_].
  - intros [<-|H]; [left; reflexivity|right; right; exact H].
  - intros [<-|H]; [right; left; reflexivity|]. destruct (IH H); tauto.
Qed.

Lemma names_distinct_NoDup (l : list string) : names_distinct l = true <-> NoDup l.
Proof.
  induction l as [|x r IH]; simpl; [split; [constructor|reflexivity]|].
  rewrite andb_true_iff, negb_true_iff, IH. split.
  - intros [H1 H2]. constructor; [|exact H2]. intros Hin.
    assert (existsb (String.eqb x) r = true) by
      (apply existsb_exists; exists x; split; [exact Hin|apply String.eqb_refl]).
    congruence.
  - intros H. inversion H as [|? ? Hx Hr]; subst. split; [|exact Hr].
    destruct (existsb (String.eqb x) r) eqn:E; [|reflexivity].
    apply existsb_exists in E as [y [Hy E]]. apply String.eqb_eq in E. subst y. contradiction.
Qed.

Lemma wf_set_entry (n : string) (c : node) (d : dir) :
  wf_node (NDir d) = true -> wf_node c = true -> wf_node (NDir (set_entry n c d)) = true.
Proof.
  rewrite !wf_node_dir. intros H Hc. apply andb_prop in H as [Hd Hall].
  apply andb_true_intro. split.
  - apply names_distinct_NoDup. apply names_distinct_NoDup in Hd. clear Hall.
    induction d as [|[k c'] t IH]; simpl; [constructor; [tauto|constructor]|].
    inversion Hd as [|? ? Hk Ht]; subst.
    destruct (String.eqb_spec k n) as [->|Hne]; simpl; [constructor; assumption|].
    constructor; [|exact (IH Ht)].
    intros Hin. apply in_map_iff in Hin as [[k' x] [Hk' Hin]]. cbn [fst] in Hk'. subst k'.
    destruct (set_entry_In n c t _ Hin) as [[= ->]|Hin']; [congruence|].
    apply Hk, (in_map fst _ _ Hin').
  - rewrite forallb_forall in *. intros e He.
    destruct (set_entry_In n c d e He) as [->|He']; [exact Hc|exact (Hall e He')].
Qed.

Lemma write_file_cons2 (x y : string) (r : path) (content : string) (mtime : Z) (d : dir) :
  write_file (x :: y :: r) content mtime d
  = match lookup_entry x d with
    | Some (NDir sub) => sub' <- write_file (y :: r) content mtime sub ;;
                         ret (set_entry x (NDir sub') d)
    | Some (NFile _ _) => raise ("[Errno 20] Not a directory: '" ++ x ++ "'")
    | None => raise ("[Errno 2] No such file or directory: '" ++ render_path (x :: y :: r) ++ "'")
    end.
Proof. reflexivity. Qed.

Lemma mkdir_p_wf (p : path) :
  forall d d', mkdir_p p d = inr d' -> wf_node (NDir d) = true -> wf_node (NDir d') = true.
Proof.
  induction p as [|x r IH]; intros d d' H Hw; cbn [mkdir_p] in H.
  - injection H as <-. exact Hw.
  - destruct (lookup_entry x d) as [[c t|sub]|] eqn:E; [discriminate| |].
    + destruct (mkdir_p r sub) as [e|sub'] eqn:Es; [discriminate|]. injection H as <-.
      apply wf_set_entry; [exact Hw|].
      exact (IH sub sub' Es (wf_child d x _ Hw (lookup_entry_In x d _ E))).
    + destruct (mkdir_p r []) as [e|sub'] eqn:Es; [discriminate|]. injection H as <-.
      apply wf_set_entry; [exact Hw|]. exact (IH [] sub' Es eq_refl).
Qed.

Lemma write_file_wf (p : path) (content : string) (mtime : Z) :
  forall d d', write_file p content mtime d = inr d' ->
  wf_node (NDir d) = true -> wf_node (NDir d') = true.
Proof.
  induction p as [|x [|y r] IH]; intros d d' H Hw; [discriminate| |].
  - cbn [write_file] in H. destruct (lookup_entry x d) as [[|]|]; try discriminate;
      injection H as <-; apply wf_set_entry; first [exact Hw | reflexivity].
  - rewrite write_file_cons2 in H.
    destruct (lookup_entry x d) as [[|sub]|] eqn:E; try discriminate.
    destruct (write_file (y :: r) content mtime sub) as [e|sub'] eqn:Es; [discriminate|].
    injection H as <-. apply wf_set_entry; [exact Hw|].
    exact (IH sub sub' Es (wf_child d x _ Hw (lookup_entry_In x d _ E))).
Qed.

Lemma writable_copy (c : string) (t : Z) (p : path) :
  forall d, writable p d = true ->
  exists d1 d', mkdir_p (removelast p) d = inr d1 /\ write_file p c t d1 = inr d'.
Proof.
  induction p as [|x [|y r] IH]; intros d H; [discriminate| |].
  - cbn [writable] in H. exists d. cbn [removelast mkdir_p write_file].
    destruct (lookup_entry x d) as [[|]|]; try discriminate; eexists; split; reflexivity.
  - change (writable (x :: y :: r) d)
      with (match lookup_entry x d with
            | Some (NDir sub) => writable (y :: r) sub
            | Some (NFile _ _) => false
            | None => writable (y :: r) []
            end) in H.
    change (removelast (x :: y :: r)) with (x :: removelast (y :: r)).
    destruct (lookup_entry x d) as [[|sub]|] eqn:E; [discriminate| |].
    + destruct (IH sub H) as [s1 [s' [H1 H2]]].
      exists (set_entry x (NDir s1) d), (set_entry x (NDir s') (set_entry x (NDir s1) d)).
      cbn [mkdir_p]. rewrite E, H1. split; [reflexivity|].
      rewrite write_file_cons2, lookup_set_entry, String.eqb_refl, H2. reflexivity.
    + destruct (IH [] H) as [s1 [s' [H1 H2]]].
      exists (set_entry x (NDir s1) d), (set_entry x (NDir s') (set_entry x (NDir s1) d)).
      cbn [mkdir_p]. rewrite E, H1. split; [reflexivity|].
      rewrite write_file_cons2, lookup_set_entry, String.eqb_refl, H2. reflexivity.
Qed.

Lemma copy_back_spec (original : option dir) (m : dir) (p : path) (c : string) (t : Z) :
  writable p (orig_dir original) = true -> node_at p (NDir m) = Some (NFile c t) ->
  exists o', copy_back original m p = inr o'
    /\ node_at p (NDir o') = Some (NFile c t)
    /\ (wf_dir (orig_dir original) = true -> wf_dir o' = true).
Proof.
  intros Hw Hm. destruct (writable_copy c t p _ Hw) as [d1 [d' [H1 H2]]].
  exists d'. unfold copy_back. rewrite Hm. change (match original with Some d => d | None => [] end)
    with (orig_dir original). rewrite H1. cbn [bind]. rewrite H2.
  split; [reflexivity|]. split; [exact (proj1 (write_file_spec p c t d1 d' H2))|].
  intros Hwf. exact (write_file_wf p c t d1 d' H2 (mkdir_p_wf _ _ _ H1 Hwf)).
Qed.

Lemma included_node_at (q : path) :
  forall a b c t, included a b = true -> node_at q b = Some (NFile c t) ->
  exists t', node_at q a = Some (NFile c t').
Proof.
  induction q as [|k q IH]; intros a b c t Hab Hq.
  - injection Hq as ->. destruct a as [c' t'|]; [|discriminate].
    cbn [included] in Hab. apply String.eqb_eq in Hab. subst c'. exists t'. reflexivity.
  - destruct b as [|db]; [discriminate|]. destruct a as [|da]; [destruct db; discriminate|].
    cbn [node_at] in Hq |- *. destruct (lookup_entry k db) as [x|] eqn:E; [|discriminate].
    rewrite included_dir, forallb_forall in Hab.
    specialize (Hab (k, x) (lookup_entry_In k db x E)). cbn [fst snd] in Hab.
    destruct (lookup_entry k da) as [y|]; [|discriminate].
    exact (IH y x c t Hab Hq).
Qed.

(** C8: for trees in which no directory lists a name twice, the
    change-set detector reports nothing for structurally identical trees
    (the same files with the same contents at the same paths, in any listing
    order and with any modification times); a path it reports that is a
    file in both trees has different contents in them; and copying a
    reported file's new content into the original tree ([shutil.copy2]
    after creating its parent directory, into an empty tree when there was
    no original) succeeds and makes the path disappear from the next
    comparison. *)
Theorem find_changed_files_equivalence (original : option dir) (m : dir) (excl : list string) :
  wf_dir (orig_dir original) = true -> wf_dir m = true ->
  (forall o, original = Some o -> tree_equiv (NDir o) (NDir m) = true ->
     _find_changed_files original m excl = [])
  /\ (forall p c1 t1 c2 t2, In p (_find_changed_files original m excl) ->
        node_at p (NDir (orig_dir original)) = Some (NFile c1 t1) ->
        node_at p (NDir m) = Some (NFile c2 t2) -> c1 <> c2)
  /\ (forall p, In p (_find_changed_files original m excl) ->
        exists o', copy_back original m p = inr o'
                   /\ ~ In p (_find_changed_files (Some o') m excl)).
Proof.
  intros Ho Hm.
  assert (Hdiff : forall p c1 t1 c2 t2, In p (_find_changed_files original m excl) ->
            node_at p (NDir (orig_dir original)) = Some (NFile c1 t1) ->
            node_at p (NDir m) = Some (NFile c2 t2) -> c1 <> c2)
    by (intros p c1 t1 c2 t2 Hp;
        exact (proj1 (proj2 (find_changed_files_reported excl original m p Hm Ho Hp)) c1 t1 c2 t2)).
  split; [|split; [exact Hdiff|]].
  - intros o -> Heq. destruct (_find_changed_files (Some o) m excl) as [|p r] eqn:E; [reflexivity|].
    exfalso. assert (Hp : In p (_find_changed_files (Some o) m excl)) by (rewrite E; left; reflexivity).
    destruct (find_changed_files_reported excl (Some o) m p Hm Ho Hp) as [[c [t Hf]] _].
    apply andb_prop in Heq as [Hom _].
    destruct (included_node_at p (NDir o) (NDir m) c t Hom Hf) as [t' Ho'].
    exact (Hdiff p c t' c t (or_introl eq_refl) Ho' Hf eq_refl).
  - intros p Hp.
    destruct (find_changed_files_reported excl original m p Hm Ho Hp) as [[c [t Hf]] [_ Hw]].
    destruct (copy_back_spec original m p c t Hw Hf) as [o' [Hc [Ho' Hwf]]].
    exists o'. split; [exact Hc|]. intros Hin.
    exact (proj1 (proj2 (find_changed_files_reported excl (Some o') m p Hm (Hwf Ho) Hin))
             c t c t Ho' Hf eq_refl).
Qed.

Lemma find_changed_files_equivalence_witness :
  _find_changed_files
    (Some [("a.txt", NFile "a" 1); ("d", NDir [("b.txt", NFile "b" 1)])])
    [("d", NDir [("b.txt", NFile "b" 7)]); ("a.txt", NFile "a" 7)] exclude_names = []
  /\ exists o',
       copy_back (Some [("a.txt", NFile "a" 1); ("d", NDir [("b.txt", NFile "b" 1)])])
         [("d", NDir [("b.txt", NFile "B" 2)]); ("a.txt", NFile "a" 5); ("n.txt", NFile "n" 5)]
         ["d"; "b.txt"] = inr o'
       /\ ~ In ["d"; "b.txt"]
              (_find_changed_files (Some o')
                 [("d", NDir [("b.txt", NFile "B" 2)]); ("a.txt", NFile "a" 5);
                  ("n.txt", NFile "n" 5)] exclude_names).
Proof.
  split.
  - exact (proj1 (find_changed_files_equivalence
                    (Some [("a.txt", NFile "a" 1); ("d", NDir [("b.txt", NFile "b" 1)])])
                    [("d", NDir [("b.txt", NFile "b" 7)]); ("a.txt", NFile "a" 7)] exclude_names
                    eq_refl eq_refl)
             _ eq_refl eq_refl).
  - apply (proj2 (proj2 (find_changed_files_equivalence
                    (Some [("a.txt", NFile "a" 1); ("d", NDir [("b.txt", NFile "b" 1)])])
                    [("d", NDir [("b.txt", NFile "B" 2)]); ("a.txt", NFile "a" 5);
                     ("n.txt", NFile "n" 5)] exclude_names eq_refl eq_refl))).
    vm_compute. right. left. reflexivity.
Defined.

Lemma rglob_files_nonnil (n : node) : forall q, In q (rglob_files n) -> q <> [].
Proof.
  induction n as [c m|es IH] using node_rect_deep; intros q Hq; [contradiction|].
  rewrite rglob_files_dir in Hq. apply in_flat_map in Hq as [[k x] [Hin Hq]].
  cbn [fst snd] in Hq. destruct x as [c t|es'].
  - destruct Hq as [<-|[]]. discriminate.
  - apply in_map_iff in Hq as [q' [<- _]]. discriminate.
Qed.

Lemma last_app_nonnil (pre r : path) (d : string) : r <> [] -> last (pre ++ r) d = last r d.
Proof.
  intros Hr. induction pre as [|a pre IH]; [reflexivity|].
  rewrite <- app_comm_cons. simpl. rewrite IH.
  destruct (pre ++ r)%list eqn:E; [|reflexivity].
  apply app_eq_nil in E as [_ ->]. congruence.
Qed.

Lemma new_files_under_leaf (excl : list string) (pre : path) (n : node) (p : path) :
  In p (new_files_under excl pre n) -> p <> [] /\ excluded excl (last p "") = false.
Proof.
  unfold new_files_under. intros Hp. apply in_map_iff in Hp as [r [<- Hr]].
  apply filter_In in Hr as [Hr Hx]. pose proof (rglob_files_nonnil n r Hr) as Hne.
  split; [destruct pre; [exact Hne|discriminate]|].
  rewrite last_app_nonnil by exact Hne. apply negb_true_iff, Hx.
Qed.

Lemma compare_dirs_leaf (excl : list string) (rn : node) :
  forall ln rel p, In p (compare_dirs excl rel ln rn) ->
  p <> [] /\ excluded excl (last p "") = false.
Proof.
  induction rn as [c m|es IH] using node_rect_deep; intros ln rel p Hp;
    [destruct ln; contradiction|].
  destruct ln as [c m|le]; [contradiction|].
  rewrite compare_dirs_dir in Hp. cbv zeta in Hp.
  apply in_app_or in Hp as [Hp|Hp]; [|apply in_app_or in Hp as [Hp|Hp]].
  - apply in_map_iff in Hp as [n [<- Hn]]. apply filter_In in Hn as [_ Hn].
    split; [destruct rel; discriminate|].
    rewrite last_app_nonnil by discriminate. apply negb_true_iff, Hn.
  - apply in_flat_map in Hp as [[k x] [_ Hp]]. cbn [fst snd] in Hp.
    destruct (excluded excl k) eqn:Hex; [contradiction|].
    destruct x as [c t|es'].
    + destruct Hp as [<-|[]]. split; [destruct rel; discriminate|].
      rewrite last_app_nonnil by discriminate. exact Hex.
    + exact (new_files_under_leaf excl _ _ p Hp).
  - apply in_flat_map in Hp as [[k x] [Hin Hp]]. cbn [fst snd] in Hp.
    destruct (excluded excl k); [contradiction|].
    destruct x as [|es']; [contradiction|].
    destruct (lookup_entry k (visible excl le)) as [[|le']|]; try contradiction.
    rewrite Forall_forall in IH. exact (IH (k, NDir es') Hin _ _ p Hp).
Qed.

(** X1: every path [_find_changed_files] reports is nonempty, and its last component is not one of the excluded names. *)
Theorem find_changed_files_leaf_not_excluded (original : option dir) (m : dir)
    (excl : list string) (p : path) :
  In p (_find_changed_files original m excl) -> p <> [] /\ excluded excl (last p "") = false.
Proof.
  destruct original as [o|]; cbn [_find_changed_files].
  - apply compare_dirs_leaf.
  - apply new_files_under_leaf.
Qed.

Lemma rglob_files_complete (q : path) :
  forall es c t, node_at q (NDir es) = Some (NFile c t) -> In q (rglob_files (NDir es)).
Proof.
  induction q as [|k r IH]; intros es c t Hq; [discriminate|].
  cbn [node_at] in Hq. destruct (lookup_entry k es) as [x|] eqn:Ek; [|discriminate].
  apply lookup_entry_In in Ek. rewrite rglob_files_dir. apply in_flat_map.
  exists (k, x). split; [exact Ek|]. cbn [fst snd].
  destruct x as [c1 t1|es'].
  - destruct r; [left; reflexivity|discriminate].
  - destruct r as [|y r']; [discriminate|].
    apply in_map. exact (IH _ _ _ Hq).
Qed.

(** X2: with no original directory, [_find_changed_files] reports exactly the files of the modified tree whose names are not excluded. *)
Theorem find_changed_files_no_original_complete (m : dir) (excl : list string) (p : path) :
  wf_dir m = true ->
  In p (_find_changed_files None m excl)
  <-> (exists c t, node_at p (NDir m) = Some (NFile c t)) /\ excluded excl (last p "") = false.
Proof.
  intros Hm. cbn [_find_changed_files]. unfold new_files_under. split.
  - intros Hp. apply in_map_iff in Hp as [r [<- Hr]].
    apply filter_In in Hr as [Hr Hx]. split.
    + exact (proj2 (rglob_files_spec (NDir m) Hm r Hr)).
    + apply negb_true_iff, Hx.
  - intros [[c [t Hf]] Hx]. apply in_map_iff. exists p. split; [reflexivity|].
    apply filter_In. split; [exact (rglob_files_complete p m c t Hf)|].
    rewrite Hx. reflexivity.
Qed.



Lemma mkdir_p_files_back (p : path) :
  forall d d', mkdir_p p d = inr d' ->
  forall q c m, node_at q (NDir d') = Some (NFile c m) -> node_at q (NDir d) = Some (NFile c m).
Proof.
  induction p as [|x r IH]; intros d d' H q c m Hq; simpl in H.
  - injection H as <-. exact Hq.
  - destruct q as [|y q']; [discriminate|]. simpl in Hq |- *.
    destruct (lookup_entry x d) as [[c0 m0|sub]|] eqn:Ex.
    + discriminate.
    + destruct (mkdir_p r sub) as [e|sub'] eqn:Es; [discriminate|]. injection H as <-.
      rewrite lookup_set_entry in Hq. destruct (String.eqb_spec x y) as [<-|_]; [|exact Hq].
      rewrite Ex. exact (IH _ _ Es q' c m Hq).
    + destruct (mkdir_p r []) as [e|sub] eqn:Es; [discriminate|]. injection H as <-.
      rewrite lookup_set_entry in Hq. destruct (String.eqb_spec x y) as [<-|_]; [|exact Hq].
      pose proof (IH _ _ Es q' c m Hq) as Hb. destruct q'; discriminate.
Qed.

Lemma write_file_files_back (p : path) (content : string) (mtime : Z) :
  forall d d', write_file p content mtime d = inr d' ->
  forall q c m, q <> p -> node_at q (NDir d') = Some (NFile c m) -> node_at q (NDir d) = Some (NFile c m).
Proof.
  induction p as [|x r IH]; intros d d' H q c m Hne Hq; simpl in H; [discriminate|].
  destruct q as [|y q']; [discriminate|]. simpl in Hq |- *.
  destruct r as [|z r'].
  - destruct (lookup_entry x d) as [[c0 m0|sub]|] eqn:Ex; try discriminate;
      injection H as <-; rewrite lookup_set_entry in Hq;
      (destruct (String.eqb_spec x y) as [<-|_]; [|exact Hq]);
      (destruct q'; [exfalso; apply Hne; reflexivity|discriminate]).
  - destruct (lookup_entry x d) as [[c0 m0|sub]|] eqn:Ex; try discriminate.
    destruct (write_file (z :: r') content mtime sub) as [e|sub'] eqn:Ew; [discriminate|].
    injection H as <-.
    change (match lookup_entry y (set_entry x (NDir sub') d) with
            | Some c => node_at q' c | None => None end = Some (NFile c m)) in Hq.
    rewrite lookup_set_entry in Hq. destruct (String.eqb_spec x y) as [<-|_]; [|exact Hq].
    rewrite Ex. apply (IH _ _ Ew q' c m); [|exact Hq].
    intros ->. apply Hne. reflexivity.
Qed.

Lemma path_prefix_app (a r : path) : path_prefix a (a ++ r)%list = true.
Proof. induction a as [|x a IH]; [reflexivity|]. simpl. rewrite String.eqb_refl, IH. reflexivity. Qed.

Lemma path_prefix_neq (a r q : path) : path_prefix a q = false -> q <> (a ++ r)%list.
Proof. intros H ->. rewrite path_prefix_app in H. discriminate. Qed.

Lemma same_files_refl (od : path) (fs : dir) : same_files_outside od fs fs.
Proof. intros q c m _. reflexivity. Qed.

Lemma same_files_trans (od : path) (a b c : dir) :
  same_files_outside od a b -> same_files_outside od b c -> same_files_outside od a c.
Proof. intros H1 H2 q x m Hq. rewrite (H1 q x m Hq). exact (H2 q x m Hq). Qed.

Lemma mkdir_p_same_files (od p : path) (d d' : dir) :
  mkdir_p p d = inr d' -> same_files_outside od d d'.
Proof.
  intros H q c m _. split; [apply (mkdir_p_keeps_files p d d' H)|apply (mkdir_p_files_back p d d' H)].
Qed.

Lemma write_file_same_files (od r : path) (content : string) (mtime : Z) (d d' : dir) :
  write_file (od ++ r)%list content mtime d = inr d' -> same_files_outside od d d'.
Proof.
  intros H q c m Hq. pose proof (path_prefix_neq od r q Hq) as Hne.
  destruct (write_file_spec _ _ _ _ _ H) as [_ Hk].
  split; [apply Hk, Hne|apply (write_file_files_back _ _ _ d d' H q c m Hne)].
Qed.

Lemma frames_ret {A : Type} (od : path) (x : A) : frames od (fs_ret x).
Proof. intros fs. apply same_files_refl. Qed.

Lemma frames_lift {A : Type} (od : path) (r : res A) : frames od (fs_lift r).
Proof. intros fs. apply same_files_refl. Qed.

Lemma frames_read (od : path) : frames od fs_read.
Proof. intros fs. apply same_files_refl. Qed.

Lemma frames_bind {A B : Type} (od : path) (c : fsm A) (k : A -> fsm B) :
  frames od c -> (forall x, frames od (k x)) -> frames od (fs_bind c k).
Proof.
  intros Hc Hk fs. unfold fs_bind. pose proof (Hc fs) as H1.
  destruct (c fs) as [[e|x] fs1]; cbn [snd] in H1 |- *; [exact H1|].
  exact (same_files_trans od _ _ _ H1 (Hk x fs1)).
Qed.

Lemma frames_update (od : path) (f : dir -> res dir) :
  (forall d d', f d = inr d' -> same_files_outside od d d') -> frames od (fs_update f).
Proof.
  intros Hf fs. unfold fs_update. destruct (f fs) as [e|fs'] eqn:E; cbn [snd].
  - apply same_files_refl.
  - exact (Hf _ _ E).
Qed.

Lemma frames_iter {A : Type} (od : path) (f : A -> fsm unit) (xs : list A) :
  (forall x, frames od (f x)) -> frames od (fs_iter f xs).
Proof.
  intros Hf. induction xs as [|x r IH]; cbn [fs_iter].
  - apply frames_ret.
  - apply frames_bind; [apply Hf|intros _; exact IH].
Qed.

Lemma copy_change_frames (od : path) (env : dir) (r rel : path) :
  frames od (copy_change env (od ++ r)%list rel).
Proof.
  unfold copy_change. destruct (node_at rel (NDir env)) as [[c m|]|]; [|apply frames_lift..].
  apply frames_bind; [apply frames_update; intros d d'; apply mkdir_p_same_files|intros _].
  apply frames_update. intros d d' H. rewrite <- app_assoc in H.
  exact (write_file_same_files od _ c m d d' H).
Qed.

Lemma launch_and_record_frames (w : World) (sc : Scenario) (ss : SkillSet) (run_dir : path)
    (env : dir) (mcp : option string) :
  frames (pjoin (pjoin run_dir (sc_name sc)) (ss_name ss))
    (launch_and_record w sc ss run_dir env mcp).
Proof.
  unfold launch_and_record.
  set (od := pjoin (pjoin run_dir (sc_name sc)) (ss_name ss)).
  destruct (w_claude w _ env) as [proc env_after].
  apply frames_bind; [apply frames_update; intros d d'; apply mkdir_p_same_files|intros _].
  apply frames_bind; [apply frames_update; intros d d'; apply write_file_same_files|intros _].
  apply frames_bind; [apply frames_update; intros d d'; apply write_file_same_files|intros _].
  apply frames_bind; [apply frames_update; intros d d'; apply write_file_same_files|intros _].
  apply frames_bind; [apply frames_read|intros fs1].
  apply frames_bind; [apply frames_lift|intros original].
  apply frames_bind; [apply frames_iter; intros rel; apply copy_change_frames|intros _].
  apply frames_ret.
Qed.


Lemma path_prefix_app_false (od r q : path) :
  path_prefix od q = false -> path_prefix (od ++ r)%list q = false.
Proof.
  revert q. induction od as [|x od IH]; intros q H; [discriminate|].
  destruct q as [|y q']; [reflexivity|]. simpl in H |- *.
  destruct (String.eqb x y); [exact (IH q' H)|reflexivity].
Qed.

Lemma same_files_outside_app (od r : path) (d d' : dir) :
  same_files_outside (od ++ r)%list d d' -> same_files_outside od d d'.
Proof. intros H q c m Hq. exact (H q c m (path_prefix_app_false od r q Hq)). Qed.

Lemma pjoin_app (b : path) (c : string) : exists r, pjoin b c = (b ++ r)%list.
Proof. unfold pjoin. destruct (_ || _); [exists []; rewrite app_nil_r|exists [c]]; reflexivity. Qed.

Lemma write_file_same_files0 (p : path) (content : string) (mtime : Z) (d d' : dir) :
  write_file p content mtime d = inr d' -> same_files_outside p d d'.
Proof.
  intros H. apply (write_file_same_files p [] content mtime). rewrite app_nil_r. exact H.
Qed.

Lemma put_tree_same_files (p : path) (t : dir) :
  forall d d', put_tree p t d = inr d' -> same_files_outside p d d'.
Proof.
  induction p as [|x r IH]; intros d d' H q c m Hq; simpl in H; [discriminate|].
  destruct q as [|y q']; [split; discriminate|].
  simpl in Hq. cbn [node_at].
  destruct r as [|z r'].
  - destruct (lookup_entry x d) eqn:Ex; [discriminate|]. injection H as <-.
    rewrite lookup_set_entry. rewrite andb_true_r in Hq. rewrite Hq. reflexivity.
  - destruct (lookup_entry x d) as [[c0 m0|sub]|] eqn:Ex; try discriminate.
    + destruct (put_tree (z :: r') t sub) as [e|sub'] eqn:Ep; [discriminate|].
      injection H as <-. rewrite lookup_set_entry.
      destruct (String.eqb_spec x y) as [<-|_]; [|reflexivity].
      rewrite Ex. exact (IH _ _ Ep q' c m Hq).
    + destruct (put_tree (z :: r') t []) as [e|sub'] eqn:Ep; [discriminate|].
      injection H as <-. rewrite lookup_set_entry.
      destruct (String.eqb_spec x y) as [<-|_]; [|reflexivity].
      rewrite Ex. rewrite <- (IH _ _ Ep q' c m Hq). destruct q'; split; discriminate.
Qed.

Lemma load_skill_same_files (w : World) (fs env env' : dir) (sp : string) :
  load_skill w fs env sp = inr env' -> same_files_outside skills_dir env env'.
Proof.
  unfold load_skill. destruct (_is_url sp).
  - unfold _download_skill. destruct (download_target sp) as [e|[du f]]; [discriminate|]. simpl.
    destruct (mkdir_p (pjoin skills_dir f) env) as [e|env1] eqn:Em; [discriminate|]. simpl.
    destruct (pjoin_app skills_dir f) as [r Er]. rewrite Er in *.
    destruct (w_fetch w du); try discriminate. intros H.
    apply (same_files_trans _ _ env1); [exact (mkdir_p_same_files _ _ _ _ Em)|].
    rewrite <- app_assoc in H. exact (write_file_same_files _ _ _ _ _ _ H).
  - unfold _copy_local_skill. cbv zeta.
    destruct (fs_lookup fs (repo_join (w_repo_dir w) sp)) as [[c t|t]|].
    + destruct (pjoin_app skills_dir (last (removelast (repo_join (w_repo_dir w) sp)) ""))
        as [r Er]. rewrite Er.
      destruct (mkdir_p (skills_dir ++ r)%list env) as [e|env1] eqn:Em; [discriminate|]. cbn [bind].
      intros H. apply (same_files_trans _ _ env1); [exact (mkdir_p_same_files _ _ _ _ Em)|].
      rewrite <- app_assoc in H. exact (write_file_same_files _ _ _ _ _ _ H).
    + destruct (pjoin_app skills_dir (last (repo_join (w_repo_dir w) sp) "")) as [r Er].
      rewrite Er. intros H. exact (same_files_outside_app _ _ _ _ (put_tree_same_files _ _ _ _ H)).
    + intros [= <-]. apply same_files_refl.
Qed.

Lemma load_skills_same_files (w : World) (fs : dir) (skills : list string) :
  forall env env', fold_res (load_skill w fs) env skills = inr env' ->
  same_files_outside skills_dir env env'.
Proof.
  induction skills as [|sp r IH]; intros env env' H; simpl in H.
  - injection H as <-. apply same_files_refl.
  - destruct (load_skill w fs env sp) as [e|env1] eqn:E; [discriminate|]. simpl in H.
    exact (same_files_trans _ _ _ _ (load_skill_same_files _ _ _ _ _ E) (IH _ _ H)).
Qed.

Lemma prepare_environment_inv (w : World) (fs : dir) (sd ctx : path) (skills : list string)
    (mcp : option json) (env : dir) (mp : option string) :
  prepare_environment w fs sd ctx skills mcp = inr (env, mp) ->
  exists env0 env1 env2 env3,
    match fs_lookup fs ctx with None => env0 = [] | Some (NDir d) => env0 = d | _ => False end
    /\ mkdir_p [".claude"] env0 = inr env1
    /\ match w_credentials w with
       | Some c => if String.eqb c "" then env2 = env1
                   else write_file [".claude"; ".credentials.json"] c 0 env1 = inr env2
       | None => env2 = env1
       end
    /\ match skills with
       | [] => env3 = env2
       | _ => exists e, mkdir_p skills_dir env2 = inr e /\ fold_res (load_skill w fs) e skills = inr env3
       end
    /\ match mcp with
       | Some m =>
           if truthy m then
             mp = Some (w_tmp_dir w ++ "/.claude/mcp-servers.json")
             /\ exists env4,
                  write_file [".claude"; "mcp-servers.json"] (w_json_dumps w (JObj [("mcpServers", m)])) 0 env3
                  = inr env4
                  /\ match fs_lookup fs (sd ++ [".env"])%list with
                     | Some (NFile c _) => write_file [".env"] c 0 env4 = inr env
                     | Some (NDir _) => False
                     | None => env = env4
                     end
           else mp = None /\ env = env3
       | None => mp = None /\ env = env3
       end.
Proof.
  unfold prepare_environment. intros H.
  set (env0 := match fs_lookup fs ctx with
               | None => ret [] | Some (NDir d) => ret d
               | Some (NFile _ _) => raise ("[Errno 20] Not a directory: '" ++ render_path ctx ++ "'")
               end) in H.
  destruct env0 as [e|e0] eqn:E0; [discriminate|]. cbn [bind] in H. exists e0.
  destruct (mkdir_p [".claude"] e0) as [e|env1] eqn:E1; [discriminate|]. cbn [bind] in H. exists env1.
  set (c2 := match w_credentials w with
             | Some c => if String.eqb c "" then ret env1
                         else write_file [".claude"; ".credentials.json"] c 0 env1
             | None => ret env1 end) in H.
  destruct c2 as [e|env2] eqn:E2; [discriminate|]. cbn [bind] in H. exists env2.
  set (c3 := match skills with
             | [] => ret env2
             | _ => e <- mkdir_p skills_dir env2 ;; fold_res (load_skill w fs) e skills end) in H.
  destruct c3 as [e|env3] eqn:E3; [discriminate|]. cbn [bind] in H. exists env3.
  split; [|split; [first [exact E1|reflexivity]|split; [|split]]].
  - unfold env0 in E0. destruct (fs_lookup fs ctx) as [[c t|d]|]; cbv [ret raise] in E0;
      [discriminate|injection E0 as ->; reflexivity..].
  - unfold c2 in E2. destruct (w_credentials w) as [c|]; [destruct (String.eqb c "")|]; cbv [ret] in E2;
      try (injection E2 as ->; reflexivity). exact E2.
  - unfold c3 in E3. destruct skills as [|s0 r0]; cbv [ret] in E3; [injection E3 as ->; reflexivity|].
    destruct (mkdir_p skills_dir env2) as [e|e3]; [discriminate|]. exists e3. split; [reflexivity|exact E3].
  - destruct mcp as [m|]; [|injection H as <- <-; split; reflexivity].
    destruct (truthy m); cbn [negb] in H; [|injection H as <- <-; split; reflexivity].
    destruct (write_file [".claude"; "mcp-servers.json"] _ 0 env3) as [e|env4]; [discriminate|].
    cbn [bind] in H.
    destruct (fs_lookup fs (sd ++ [".env"])%list) as [[c t|]|]; cbn [bind] in H;
      [destruct (write_file [".env"] c 0 env4) as [e|env5] eqn:E5; [discriminate|]| discriminate|];
      cbv [ret] in H; injection H as <- <-; (split; [reflexivity|]); exists env4;
      (split; [reflexivity|]); [exact E5|reflexivity].
Qed.

Lemma write_file_iff (p : path) (content : string) (mtime : Z) (d d' : dir) (q : path) (c : string) (m : Z) :
  write_file p content mtime d = inr d' -> q <> p ->
  (node_at q (NDir d) = Some (NFile c m) <-> node_at q (NDir d') = Some (NFile c m)).
Proof.
  intros H Hne. split; [apply (proj2 (write_file_spec _ _ _ _ _ H)), Hne|].
  apply (write_file_files_back _ _ _ _ _ H q c m Hne).
Qed.

Lemma load_skills_step_iff (w : World) (fs : dir) (skills : list string) (env2 env3 : dir)
    (q : path) (c : string) (m : Z) :
  match skills with
  | [] => env3 = env2
  | _ => exists e, mkdir_p skills_dir env2 = inr e /\ fold_res (load_skill w fs) e skills = inr env3
  end ->
  path_prefix skills_dir q = false ->
  (node_at q (NDir env2) = Some (NFile c m) <-> node_at q (NDir env3) = Some (NFile c m)).
Proof.
  intros H Hq. destruct skills as [|s0 r0]; [subst env3; reflexivity|].
  destruct H as [e [He Hf]].
  rewrite (mkdir_p_same_files skills_dir _ _ _ He q c m Hq).
  exact (load_skills_same_files w fs _ e env3 Hf q c m Hq).
Qed.


(** X7: [prepare_environment] returns an MCP config path exactly when a truthy MCP mapping is given; then the manifest wraps it under [mcpServers] and the scenario's [.env] file is copied. *)
Theorem prepare_environment_mcp_manifest (w : World) (fs : dir) (sd ctx : path)
    (skills : list string) (mcp : option json) (env : dir) (mp : option string) :
  prepare_environment w fs sd ctx skills mcp = inr (env, mp) ->
  (mp <> None <-> exists m, mcp = Some m /\ truthy m = true)
  /\ forall m, mcp = Some m -> truthy m = true ->
     mp = Some (w_tmp_dir w ++ "/.claude/mcp-servers.json")
     /\ node_at [".claude"; "mcp-servers.json"] (NDir env)
        = Some (NFile (w_json_dumps w (JObj [("mcpServers", m)])) 0)
     /\ (forall c t, fs_lookup fs (sd ++ [".env"])%list = Some (NFile c t) ->
           node_at [".env"] (NDir env) = Some (NFile c 0)).
Proof.
  intros H.
  destruct (prepare_environment_inv _ _ _ _ _ _ _ _ H) as [env0 [env1 [env2 [env3 [_ [_ [_ [_ H4]]]]]]]].
  destruct mcp as [m|].
  2:{ destruct H4 as [-> _]. split; [split; [intros []; reflexivity|intros [m [[=] _]]]|].
      intros m [=]. }
  destruct (truthy m) eqn:Ht.
  2:{ destruct H4 as [-> _]. split; [split; [intros []; reflexivity|intros [m' [[= <-] Hm]]; congruence]|].
      intros m' [= <-] Hm. congruence. }
  destruct H4 as [-> [env4 [H4 H5]]].
  split; [split; [intros _; exists m; split; [reflexivity|exact Ht]|discriminate]|].
  intros m' [= <-] _. split; [reflexivity|].
  assert (Hm4 := proj1 (write_file_spec _ _ _ _ _ H4)).
  destruct (fs_lookup fs (sd ++ [".env"])%list) as [[c t|]|]; [|contradiction|].
  - split; [exact (proj1 (write_file_iff _ _ _ _ _ [".claude"; "mcp-servers.json"] _ _ H5 ltac:(discriminate)) Hm4)|].
    intros c' t' [= <- <-]. exact (proj1 (write_file_spec _ _ _ _ _ H5)).
  - subst env. split; [exact Hm4|]. intros c t [=].
Qed.


Lemma mkdir_p_present (p : path) :
  forall d d', mkdir_p p d = inr d' ->
  forall q, node_at q (NDir d) <> None -> node_at q (NDir d') <> None.
Proof.
  induction p as [|x r IH]; intros d d' H q Hq; simpl in H; [injection H as <-; exact Hq|].
  destruct q as [|y q']; [discriminate|]. cbn [node_at] in Hq |- *.
  destruct (lookup_entry x d) as [[c0 m0|sub]|] eqn:Ex; [discriminate|..].
  - destruct (mkdir_p r sub) as [e|sub'] eqn:Es; [discriminate|]. injection H as <-.
    rewrite lookup_set_entry. destruct (String.eqb_spec x y) as [<-|_]; [|exact Hq].
    rewrite Ex in Hq. exact (IH _ _ Es q' Hq).
  - destruct (mkdir_p r []) as [e|sub] eqn:Es; [discriminate|]. injection H as <-.
    rewrite lookup_set_entry. destruct (String.eqb_spec x y) as [<-|_]; [|exact Hq].
    rewrite Ex in Hq. contradiction.
Qed.

Lemma write_file_present (p : path) (content : string) (mtime : Z) :
  forall d d', write_file p content mtime d = inr d' ->
  forall q, node_at q (NDir d) <> None -> node_at q (NDir d') <> None.
Proof.
  induction p as [|x r IH]; intros d d' H q Hq; simpl in H; [discriminate|].
  destruct q as [|y q']; [discriminate|]. cbn [node_at] in Hq |- *.
  destruct r as [|z r'].
  - destruct (lookup_entry x d) as [[c0 m0|sub]|] eqn:Ex; try discriminate;
      injection H as <-; rewrite lookup_set_entry;
      (destruct (String.eqb_spec x y) as [<-|_]; [|exact Hq]);
      rewrite Ex in Hq; [|contradiction]; destruct q'; [discriminate|contradiction].
  - destruct (lookup_entry x d) as [[c0 m0|sub]|] eqn:Ex; try discriminate.
    destruct (write_file (z :: r') content mtime sub) as [e|sub'] eqn:Ew; [discriminate|].
    injection H as <-. rewrite lookup_set_entry.
    destruct (String.eqb_spec x y) as [<-|_]; [|exact Hq].
    rewrite Ex in Hq. exact (IH _ _ Ew q' Hq).
Qed.

Lemma put_tree_present (p : path) (t : dir) :
  forall d d', put_tree p t d = inr d' ->
  forall q, node_at q (NDir d) <> None -> node_at q (NDir d') <> None.
Proof.
  induction p as [|x r IH]; intros d d' H q Hq; simpl in H; [discriminate|].
  destruct q as [|y q']; [discriminate|]. cbn [node_at] in Hq |- *.
  destruct r as [|z r'].
  - destruct (lookup_entry x d) eqn:Ex; [discriminate|]. injection H as <-.
    rewrite lookup_set_entry. destruct (String.eqb_spec x y) as [<-|_]; [|exact Hq].
    rewrite Ex in Hq. contradiction.
  - destruct (lookup_entry x d) as [[c0 m0|sub]|] eqn:Ex; try discriminate.
    + destruct (put_tree (z :: r') t sub) as [e|sub'] eqn:Ep; [discriminate|].
      injection H as <-. rewrite lookup_set_entry.
      destruct (String.eqb_spec x y) as [<-|_]; [|exact Hq].
      rewrite Ex in Hq. exact (IH _ _ Ep q' Hq).
    + destruct (put_tree (z :: r') t []) as [e|sub'] eqn:Ep; [discriminate|].
      injection H as <-. rewrite lookup_set_entry.
      destruct (String.eqb_spec x y) as [<-|_]; [|exact Hq].
      rewrite Ex in Hq. contradiction.
Qed.

Lemma put_tree_spec (p : path) (t : dir) :
  forall d d', put_tree p t d = inr d' -> node_at p (NDir d') = Some (NDir t).
Proof.
  induction p as [|x r IH]; intros d d' H; simpl in H; [discriminate|].
  destruct r as [|z r'].
  - destruct (lookup_entry x d) eqn:Ex; [discriminate|]. injection H as <-.
    cbn [node_at]. rewrite lookup_set_entry, String.eqb_refl. reflexivity.
  - destruct (lookup_entry x d) as [[c0 m0|sub]|] eqn:Ex; try discriminate;
      [destruct (put_tree (z :: r') t sub) as [e|sub'] eqn:Ep
      |destruct (put_tree (z :: r') t []) as [e|sub'] eqn:Ep]; try discriminate;
      injection H as <-;
      change (match lookup_entry x (set_entry x (NDir sub') d) with
              | Some c => node_at (z :: r') c | None => None end = Some (NDir t));
      rewrite lookup_set_entry, String.eqb_refl; exact (IH _ _ Ep).
Qed.

Lemma put_tree_raises (p : path) (t : dir) :
  forall d, p <> [] -> node_at p (NDir d) <> None -> exists e, put_tree p t d = inl e.
Proof.
  induction p as [|x r IH]; intros d Hp Hq; [congruence|]. cbn [node_at] in Hq.
  destruct r as [|z r'].
  - simpl. destruct (lookup_entry x d); [eexists; reflexivity|contradiction].
  - change (put_tree (x :: z :: r') t d)
      with (match lookup_entry x d with
            | Some (NDir sub) => sub' <- put_tree (z :: r') t sub ;; ret (set_entry x (NDir sub') d)
            | Some (NFile _ _) => raise ("[Errno 20] Not a directory: '" ++ x ++ "'")
            | None => sub' <- put_tree (z :: r') t [] ;; ret (set_entry x (NDir sub') d)
            end).
    destruct (lookup_entry x d) as [[c0 m0|sub]|]; [eexists; reflexivity| |contradiction].
    destruct (IH sub ltac:(discriminate) Hq) as [e ->]. eexists. reflexivity.
Qed.

Lemma load_skill_present (w : World) (fs env env' : dir) (sp : string) :
  load_skill w fs env sp = inr env' ->
  forall q, node_at q (NDir env) <> None -> node_at q (NDir env') <> None.
Proof.
  unfold load_skill. destruct (_is_url sp).
  - unfold _download_skill. destruct (download_target sp) as [e|[du f]]; [discriminate|]. cbn [bind].
    destruct (mkdir_p (pjoin skills_dir f) env) as [e|env1] eqn:Em; [discriminate|]. cbn [bind].
    destruct (w_fetch w du); try discriminate. intros H q Hq.
    exact (write_file_present _ _ _ _ _ H q (mkdir_p_present _ _ _ Em q Hq)).
  - unfold _copy_local_skill. cbv zeta.
    destruct (fs_lookup fs (repo_join (w_repo_dir w) sp)) as [[c t|t]|].
    + destruct (mkdir_p _ env) as [e|env1] eqn:Em; [discriminate|]. cbn [bind].
      intros H q Hq. exact (write_file_present _ _ _ _ _ H q (mkdir_p_present _ _ _ Em q Hq)).
    + intros H. exact (put_tree_present _ _ _ _ H).
    + intros [= <-]. tauto.
Qed.

Lemma load_skills_present (w : World) (fs : dir) (skills : list string) :
  forall env env', fold_res (load_skill w fs) env skills = inr env' ->
  forall q, node_at q (NDir env) <> None -> node_at q (NDir env') <> None.
Proof.
  induction skills as [|sp r IH]; intros env env' H q Hq; simpl in H.
  - injection H as <-. exact Hq.
  - destruct (load_skill w fs env sp) as [e|env1] eqn:E; [discriminate|]. simpl in H.
    exact (IH _ _ H q (load_skill_present _ _ _ _ _ E q Hq)).
Qed.

Lemma load_skills_duplicate_folder (w : World) (fs : dir) (pre mid post : list string)
    (s : string) (t : dir) :
  _is_url s = false -> fs_lookup fs (repo_join (w_repo_dir w) s) = Some (NDir t) ->
  forall env, exists e, fold_res (load_skill w fs) env (pre ++ s :: mid ++ s :: post)%list = inl e.
Proof.
  intros Hu Hs env.
  set (P := pjoin skills_dir (last (repo_join (w_repo_dir w) s) "")).
  assert (HP : P <> []) by (unfold P, pjoin; destruct (_ || _); discriminate).
  assert (Hl : forall env, load_skill w fs env s = put_tree P t env)
    by (intros e; unfold load_skill, _copy_local_skill; rewrite Hu, Hs; reflexivity).
  rewrite fold_res_app.
  destruct (fold_res (load_skill w fs) env pre) as [e|env1]; [eexists; reflexivity|]. cbn [bind].
  cbn [fold_res]. rewrite Hl.
  destruct (put_tree P t env1) as [e|env2] eqn:E2; [eexists; reflexivity|]. cbn [bind].
  assert (H2 : node_at P (NDir env2) <> None) by (rewrite (put_tree_spec _ _ _ _ E2); discriminate).
  rewrite fold_res_app.
  destruct (fold_res (load_skill w fs) env2 mid) as [e|env3] eqn:E3; [eexists; reflexivity|].
  cbn [bind fold_res]. rewrite Hl.
  destruct (put_tree_raises P t env3 HP (load_skills_present _ _ _ _ _ E3 P H2)) as [e ->].
  eexists. reflexivity.
Qed.



Lemma py_eq_sym (a b : json) : py_eq a b = py_eq b a.
Proof.
  destruct a as [|x|x|x|x|x], b as [|y|y|y|y|y]; cbn; try reflexivity;
    try apply Z.eqb_sym; try apply String.eqb_sym;
    destruct x; try destruct y; reflexivity.
Qed.

Lemma ForallOrdPairs_snoc {A : Type} (R : A -> A -> Prop) (l : list A) (v : A) :
  ForallOrdPairs R l -> (forall a, In a l -> R a v) -> ForallOrdPairs R (l ++ [v])%list.
Proof.
  induction 1 as [|a l Ha Hl IH]; intros Hv; simpl.
  - constructor; [constructor|constructor].
  - constructor.
    + apply Forall_app. split; [exact Ha|]. constructor; [apply Hv; left; reflexivity|constructor].
    + apply IH. intros x Hx. apply Hv. right. exact Hx.
Qed.

Lemma set_add_set_like (s s' : list json) (v : json) :
  set_like s -> set_add s v = inr s' -> set_like s'.
Proof.
  intros [Hp Hh] H. unfold set_add in H.
  assert (Hv : match v with JArr _ | JObj _ => False | _ => True end)
    by (destruct v; try discriminate; exact I).
  assert (Hr : ret (if existsb (py_eq v) s then s else (s ++ [v])%list) = inr s')
    by (destruct v; try discriminate; exact H).
  clear H. injection Hr as <-.
  destruct (existsb (py_eq v) s) eqn:E; [split; assumption|].
  split.
  - apply ForallOrdPairs_snoc; [exact Hp|].
    intros a Ha. rewrite py_eq_sym. destruct (py_eq v a) eqn:Ea; [|reflexivity].
    assert (existsb (py_eq v) s = true) by (apply existsb_exists; exists a; split; assumption).
    congruence.
  - apply Forall_app. split; [exact Hh|]. constructor; [exact Hv|constructor].
Qed.

Lemma decode_segment_set_like (st st' : dstate) (seg : json) :
  set_like (d_tools st) -> decode_segment st seg = inr st' -> set_like (d_tools st').
Proof.
  intros Hs H. unfold decode_segment in H.
  destruct seg as [| | | | |kvs]; try (injection H as <-; exact Hs).
  destruct (is_str (dict_get kvs "type" JNull) "text").
  - destruct (dict_get kvs "text" (JStr "")); try discriminate.
    injection H as <-. destruct (String.eqb _ ""); exact Hs.
  - destruct (is_str (dict_get kvs "type" JNull) "tool_use"); [|injection H as <-; exact Hs].
    destruct (if truthy (dict_get kvs "name" (JStr "")) then set_add (d_tools st) (dict_get kvs "name" (JStr ""))
              else ret (d_tools st)) as [e|tools] eqn:Et; [discriminate|].
    assert (Ht : set_like tools).
    { destruct (truthy _); [exact (set_add_set_like _ _ _ Hs Et)|injection Et as <-; exact Hs]. }
    cbn [bind] in H. destruct (is_str _ "Skill").
    + destruct (py_get _ "skill" (JStr "")) as [e|sk]; [discriminate|]. cbn [bind] in H.
      injection H as <-. destruct (truthy sk); exact Ht.
    + injection H as <-. exact Ht.
Qed.

Lemma fold_segments_set_like (l : list json) :
  forall st st', set_like (d_tools st) -> fold_res decode_segment st l = inr st' -> set_like (d_tools st').
Proof.
  induction l as [|seg r IH]; intros st st' Hs H; simpl in H; [injection H as <-; exact Hs|].
  destruct (decode_segment st seg) as [e|st1] eqn:E; [discriminate|].
  exact (IH st1 st' (decode_segment_set_like _ _ _ Hs E) H).
Qed.

Lemma decode_msg_set_like (st st' : dstate) (kvs : list (string * json)) :
  set_like (d_tools st) -> decode_msg st kvs = inr st' -> set_like (d_tools st').
Proof.
  intros Hs H. unfold decode_msg in H. cbv zeta in H.
  set (st1 := if is_str (dict_get kvs "type" JNull) "system" && _ then _ else st) in H.
  assert (H1 : set_like (d_tools st1)) by (unfold st1; destruct (_ && _); exact Hs).
  destruct (if is_str (dict_get kvs "type" JNull) "assistant" then _ else ret st1) as [e|st2] eqn:E2;
    [discriminate|].
  assert (H2 : set_like (d_tools st2)).
  { destruct (is_str _ "assistant"); [|injection E2 as <-; exact H1].
    cbn [bind ret] in E2. destruct (py_get _ "content" (JArr [])) as [e|cs]; [discriminate|].
    cbn [bind] in E2. destruct (py_iter cs) as [e|items]; [discriminate|].
    exact (fold_segments_set_like items st1 st2 H1 E2). }
  cbn [bind] in H. destruct (is_str _ "result"); [|injection H as <-; exact H2].
  repeat (match type of H with
          | (match ?c with inl _ => _ | inr _ => _ end) = _ => destruct c; [discriminate|]; cbn [bind] in H
          | (bind ?c _) = _ => destruct c; [discriminate|]; cbn [bind] in H
          end).
  injection H as <-. exact H2.
Qed.

Lemma decode_lines_set_like (json_loads : string -> option json) (lines : list string) :
  forall st st', set_like (d_tools st) -> fold_res (decode_line json_loads) st lines = inr st' ->
  set_like (d_tools st').
Proof.
  induction lines as [|l r IH]; intros st st' Hs H; simpl in H; [injection H as <-; exact Hs|].
  destruct (decode_line json_loads st l) as [e|st1] eqn:E; [discriminate|].
  apply (IH st1 st'); [|exact H].
  unfold decode_line in E. destruct (String.eqb (strip l) ""); [injection E as <-; exact Hs|].
  destruct (json_loads l) as [[| | | | |kvs]|]; try (injection E as <-; exact Hs).
  exact (decode_msg_set_like _ _ _ Hs E).
Qed.

(** X11: the tools [_parse_json_output] reports hold each tool once and only hashable values, as the Python set they come from. *)
Theorem parse_json_output_tools_once (json_loads : string -> option json) (json_str : string)
    (r : parse_result) :
  _parse_json_output json_loads json_str = inr r ->
  set_like (tools_used r).
Proof.
  unfold _parse_json_output, decode_lines. intros H.
  destruct (fold_res (decode_line json_loads) initial_dstate _) as [e|st] eqn:E; [discriminate|].
  injection H as <-. cbn [finish_result tools_used].
  refine (decode_lines_set_like json_loads _ initial_dstate st _ E).
  split; constructor.
Qed.

Lemma decode_segment_result (st st' : dstate) (seg : json) :
  decode_segment st seg = inr st' -> d_result st' = d_result st.
Proof.
  intros H. unfold decode_segment in H.
  destruct seg as [| | | | |kvs]; try (injection H as <-; reflexivity).
  destruct (is_str (dict_get kvs "type" JNull) "text").
  - destruct (dict_get kvs "text" (JStr "")); try discriminate.
    injection H as <-. destruct (String.eqb _ ""); reflexivity.
  - destruct (is_str (dict_get kvs "type" JNull) "tool_use"); [|injection H as <-; reflexivity].
    destruct (if truthy _ then _ else _) as [e|tools]; [discriminate|].
    cbn [bind] in H. destruct (is_str _ "Skill").
    + destruct (py_get _ "skill" (JStr "")) as [e|sk]; [discriminate|]. cbn [bind] in H.
      injection H as <-. destruct (truthy sk); reflexivity.
    + injection H as <-. reflexivity.
Qed.

Lemma fold_segments_result (l : list json) :
  forall st st', fold_res decode_segment st l = inr st' -> d_result st' = d_result st.
Proof.
  induction l as [|seg r IH]; intros st st' H; simpl in H; [injection H as <-; reflexivity|].
  destruct (decode_segment st seg) as [e|st1] eqn:E; [discriminate|].
  rewrite (IH st1 st' H). exact (decode_segment_result _ _ _ E).
Qed.

Lemma decode_msg_steps (st st' : dstate) (kvs : list (string * json)) :
  decode_msg st kvs = inr st' ->
  exists st2, run_metrics (d_result st2) = run_metrics (d_result st)
    /\ (if is_str (dict_get kvs "type" JNull) "result" then
          exists usage a b c, dict_get kvs "usage" (JObj []) = JObj usage
          /\ py_add (dict_get usage "input_tokens" (JNum 0))
                    (dict_get usage "cache_read_input_tokens" (JNum 0)) = inr a
          /\ py_add a (dict_get usage "cache_creation_input_tokens" (JNum 0)) = inr b
          /\ dict_get usage "output_tokens" JNull = c
          /\ d_result st' = mk_result (output_text (d_result st2)) (skills_invoked (d_result st2))
                              (tools_used (d_result st2)) (model (d_result st2))
                              (skills_available (d_result st2)) (mcp_servers (d_result st2))
                              (dict_get kvs "duration_ms" JNull) (dict_get kvs "num_turns" JNull)
                              (dict_get kvs "total_cost_usd" JNull) b c
        else st' = st2).
Proof.
  intros H. unfold decode_msg in H. cbv zeta in H.
  set (st1 := if is_str (dict_get kvs "type" JNull) "system" && _ then _ else st) in H.
  assert (H1 : run_metrics (d_result st1) = run_metrics (d_result st))
    by (unfold st1; destruct (_ && _); reflexivity).
  destruct (if is_str (dict_get kvs "type" JNull) "assistant" then _ else ret st1) as [e|st2] eqn:E2;
    [discriminate|].
  exists st2. split.
  - rewrite <- H1. destruct (is_str _ "assistant"); [|injection E2 as <-; reflexivity].
    cbn [bind ret] in E2. destruct (py_get _ "content" (JArr [])) as [e|cs]; [discriminate|].
    cbn [bind] in E2. destruct (py_iter cs) as [e|items]; [discriminate|].
    rewrite (fold_segments_result items st1 st2 E2). reflexivity.
  - cbn [bind] in H. destruct (is_str _ "result"); [|injection H as <-; reflexivity].
    destruct (dict_get kvs "usage" (JObj [])) as [| | | | |usage]; try discriminate.
    cbn [py_get bind ret] in H.
    destruct (py_add _ _) as [e|a] eqn:Ea; [discriminate|]. cbn [bind] in H.
    destruct (py_add a _) as [e|b] eqn:Eb; [discriminate|]. cbn [bind] in H.
    injection H as <-. exists usage, a, b, (dict_get usage "output_tokens" JNull).
    repeat split; assumption.
Qed.

Lemma decode_lines_no_result (json_loads : string -> option json) (lines : list string) :
  forall st st', fold_res (decode_line json_loads) st lines = inr st' ->
  (forall l kvs, In l lines -> String.eqb (strip l) "" = false -> json_loads l = Some (JObj kvs) ->
     is_str (dict_get kvs "type" JNull) "result" = false) ->
  run_metrics (d_result st') = run_metrics (d_result st).
Proof.
  induction lines as [|l r IH]; intros st st' H Hn; simpl in H; [injection H as <-; reflexivity|].
  destruct (decode_line json_loads st l) as [e|st1] eqn:E; [discriminate|].
  rewrite (IH st1 st' H (fun l' kvs Hin => Hn l' kvs (or_intror Hin))).
  unfold decode_line in E. destruct (String.eqb (strip l) "") eqn:Es; [injection E as <-; reflexivity|].
  destruct (json_loads l) as [[| | | | |kvs]|] eqn:Ej; try (injection E as <-; reflexivity).
  destruct (decode_msg_steps _ _ _ E) as [st2 [Hm Hr]].
  rewrite (Hn l kvs (or_introl eq_refl) Es Ej) in Hr. subst st2. exact Hm.
Qed.



Lemma run_claude_body_shape (json_loads : string -> option json) (timeout stall_timeout : Z)
    (start : Q) (ticks : list tick) (rc : Z) (remaining stderr : string) (r : claude_result) :
  run_claude_body json_loads timeout stall_timeout start ticks rc remaining stderr = inr r ->
  exists lines error_msg parsed,
    supervise json_loads timeout stall_timeout start start ticks [] = inr (lines, error_msg)
    /\ cr_parsed r = (if String.eqb stderr "" then parsed
                      else with_output_text parsed
                             (output_text parsed ++ nl ++ nl ++ "[stderr]" ++ nl ++ stderr))
    /\ match error_msg with
       | Some e => cr_success r = false /\ cr_error r = Some e
       | None => cr_success r = Z.eqb rc 0 /\ cr_error r = None
       end.
Proof.
  unfold run_claude_body. intros H.
  destruct (supervise _ _ _ _ _ _ _) as [e|[lines error_msg]]; [discriminate|]. cbn [bind] in H.
  destruct (if String.eqb _ "" then ret initial_result else _) as [e|parsed]; [discriminate|].
  cbn [bind] in H. exists lines, error_msg, parsed. split; [reflexivity|].
  destruct error_msg as [e|]; injection H as <-; (split; [reflexivity|split; reflexivity]).
Qed.


(** X15: nonempty standard error is appended to the output text under a [stderr] header, unless the run ends in the error branch. *)
Theorem run_claude_appends_stderr (json_loads : string -> option json) (timeout stall_timeout : Z)
    (start : Q) (ticks : list tick) (rc : Z) (remaining stderr : string) :
  stderr <> "" ->
  let r := run_claude json_loads timeout stall_timeout (Ran start ticks rc remaining stderr) in
  (exists before, output_text (cr_parsed r) = before ++ nl ++ nl ++ "[stderr]" ++ nl ++ stderr)
  \/ (cr_parsed r = initial_result /\ cr_success r = false /\ cr_raw r = ""
      /\ exists e, cr_error r = Some e).
Proof.
  intros Hne r. unfold r. cbn [run_claude].
  destruct (run_claude_body _ _ _ _ _ _ _ _) as [e|res0] eqn:E.
  - right. repeat split. exists e. reflexivity.
  - left. destruct (run_claude_body_shape _ _ _ _ _ _ _ _ _ E) as [lines [em [parsed [_ [Hp _]]]]].
    apply String.eqb_neq in Hne. rewrite Hne in Hp. rewrite Hp.
    exists (output_text parsed). reflexivity.
Qed.

Lemma urlparse_scheme (url0 : string) (u : url_parts) :
  urlparse url0 = inr u ->
  scheme u = fst (let url1 := remove_unsafe (lstrip_c0 url0) in
                  match find_char ":"%char url1, url1 with
                  | Some (S _ as i), String c0 _ =>
                      if is_alpha c0 && all_chars scheme_char (substring 0 i url1)
                      then (lower (substring 0 i url1), substring (S i) (String.length url1) url1)
                      else (EmptyString, url1)
                  | _, _ => (EmptyString, url1)
                  end).
Proof.
  intros H. unfold urlparse in H. cbv zeta in H |- *.
  match goal with |- _ = fst ?X => destruct X as [sch url2] end. cbn [fst].
  repeat match type of H with
         | context [match ?Y with pair _ _ => _ end] => destruct Y
         | context [if xorb ?a ?b then _ else _] => destruct (xorb a b); [discriminate|]
         end.
  injection H as <-. reflexivity.
Qed.

Lemma find_char_split (c : ascii) (s : string) (i : nat) :
  find_char c s = Some i -> exists rest, s = (substring 0 i s ++ String c rest)%string.
Proof.
  revert i. induction s as [|d t IH]; intros i H; simpl in H; [discriminate|].
  destruct (Ascii.eqb_spec d c) as [->|_].
  - injection H as <-. exists t. reflexivity.
  - destruct (find_char c t) as [j|]; [|discriminate]. injection H as <-.
    destruct (IH j eq_refl) as [rest Hr]. exists rest.
    cbn [substring String.append]. rewrite <- Hr. reflexivity.
Qed.

Lemma has_char_lstrip_c0 (c : ascii) (s : string) :
  has_char c s = false -> has_char c (lstrip_c0 s) = false.
Proof.
  induction s as [|d t IH]; [reflexivity|]. cbn [lstrip_c0].
  intros H. destruct (nat_of_ascii d <=? 32)%nat; [|exact H].
  apply IH. cbn [has_char] in H. destruct (Ascii.eqb d c); [discriminate|exact H].
Qed.

Lemma has_char_remove_unsafe (c : ascii) (s : string) :
  has_char c s = false -> has_char c (remove_unsafe s) = false.
Proof.
  induction s as [|d t IH]; [reflexivity|]. intros H. cbn [has_char] in H.
  destruct (Ascii.eqb d c) eqn:E; [discriminate|]. cbn [orb] in H. cbn [remove_unsafe].
  destruct (_ || _ || _); [exact (IH H)|]. cbn [has_char]. rewrite E. exact (IH H).
Qed.

(** X16: [_is_url] accepts only strings whose scheme, before the first colon, is http or https in any case; a string with no colon is never a URL. *)
Theorem is_url_needs_http_scheme :
  (forall p, _is_url p = true ->
     exists s rest, remove_unsafe (lstrip_c0 p) = (s ++ ":" ++ rest)%string
                    /\ (lower s = "http" \/ lower s = "https"))
  /\ (forall p, has_char ":"%char p = false -> _is_url p = false).
Proof.
  assert (Main : forall p, _is_url p = true ->
     exists s rest, remove_unsafe (lstrip_c0 p) = (s ++ ":" ++ rest)%string
                    /\ (lower s = "http" \/ lower s = "https")).
  { intros p. unfold _is_url. destruct (urlparse p) as [e|u] eqn:Eu; [discriminate|].
    rewrite (urlparse_scheme p u Eu). cbv zeta.
    set (url1 := remove_unsafe (lstrip_c0 p)).
    destruct (find_char ":"%char url1) as [[|i]|] eqn:Ef; [destruct url1; discriminate| |destruct url1; discriminate].
    destruct url1 as [|c0 t] eqn:E1; [discriminate|].
    destruct (is_alpha c0 && _); [|discriminate]. cbn [fst]. intros Hs.
    destruct (find_char_split _ _ _ Ef) as [rest Hr].
    exists (substring 0 (S i) (String c0 t)), rest. split; [exact Hr|].
    apply orb_true_iff in Hs as [Hs|Hs]; apply String.eqb_eq in Hs; [left|right]; exact Hs. }
  split; [exact Main|].
  intros p Hp. destruct (_is_url p) eqn:E; [|reflexivity].
  destruct (Main p E) as [s [rest [Hs _]]].
  pose proof (has_char_remove_unsafe _ _ (has_char_lstrip_c0 _ _ Hp)) as Hn.
  rewrite Hs in Hn. exfalso. clear -Hn. induction s as [|d t IH]; cbn in Hn.
  - discriminate.
  - apply orb_false_iff in Hn as [_ Hn]. exact (IH Hn).
Qed.

Lemma digit_compare (a b : Z) :
  (0 <= a < 10)%Z -> (0 <= b < 10)%Z -> Ascii.compare (digit a) (digit b) = Z.compare a b.
Proof.
  intros Ha Hb.
  assert (a = 0 \/ a = 1 \/ a = 2 \/ a = 3 \/ a = 4 \/ a = 5 \/ a = 6 \/ a = 7 \/ a = 8 \/ a = 9)%Z
    as Ea by lia.
  assert (b = 0 \/ b = 1 \/ b = 2 \/ b = 3 \/ b = 4 \/ b = 5 \/ b = 6 \/ b = 7 \/ b = 8 \/ b = 9)%Z
    as Eb by lia.
  repeat destruct Ea as [->|Ea]; repeat destruct Eb as [->|Eb]; subst; vm_compute; reflexivity.
Qed.

Lemma lex_assoc (a b c : comparison) : lex (lex a b) c = lex a (lex b c).
Proof. destruct a; reflexivity. Qed.

Lemma lex_Eq (a : comparison) : lex a Eq = a.
Proof. destruct a; reflexivity. Qed.

Lemma compare_digits (x y : Z) :
  (0 <= x)%Z -> (0 <= y)%Z ->
  Z.compare x y = lex (Z.compare (x / 10) (y / 10)) (Z.compare (x mod 10) (y mod 10)).
Proof.
  intros Hx Hy.
  pose proof (Z.div_mod x 10 ltac:(lia)). pose proof (Z.div_mod y 10 ltac:(lia)).
  pose proof (Z.mod_pos_bound x 10 ltac:(lia)). pose proof (Z.mod_pos_bound y 10 ltac:(lia)).
  destruct (Z.compare_spec (x / 10) (y / 10)); cbn [lex].
  - destruct (Z.compare_spec (x mod 10) (y mod 10)); apply Z.compare_eq_iff || apply Z.compare_lt_iff || apply Z.compare_gt_iff; lia.
  - apply Z.compare_lt_iff. lia.
  - apply Z.compare_gt_iff. lia.
Qed.

Lemma string_compare_app (a b a' b' : string) :
  String.length a = String.length a' ->
  String.compare (a ++ b) (a' ++ b') = lex (String.compare a a') (String.compare b b').
Proof.
  revert a'. induction a as [|c a IH]; intros [|c' a'] Hl; try discriminate; [reflexivity|].
  cbn [String.append String.compare]. injection Hl as Hl.
  destruct (Ascii.compare c c'); [apply IH; exact Hl|reflexivity|reflexivity].
Qed.

Lemma z_to_string_two (n : Z) :
  (0 <= n < 100)%Z -> pad2 n = String (digit (n / 10)) (String (digit (n mod 10)) EmptyString).
Proof.
  intros Hn. unfold pad2, z_to_string.
  replace (n <? 0)%Z with false by (symmetry; apply Z.ltb_ge; lia).
  destruct (Z.ltb_spec n 10).
  - cbn [digits_of_pos]. replace (n <? 10)%Z with true by (symmetry; apply Z.ltb_lt; lia).
    rewrite Z.div_small by lia. rewrite Z.mod_small by lia. reflexivity.
  - cbn [digits_of_pos]. replace (n <? 10)%Z with false by (symmetry; apply Z.ltb_ge; lia).
    replace (n / 10 <? 10)%Z with true by (symmetry; apply Z.ltb_lt; apply Z.div_lt_upper_bound; lia).
    rewrite (Z.mod_small (n / 10) 10) by (split; [apply Z.div_pos|apply Z.div_lt_upper_bound]; lia).
    reflexivity.
Qed.

Lemma z_to_string_four (n : Z) :
  (1000 <= n <= 9999)%Z ->
  z_to_string n = String (digit (n / 10 / 10 / 10)) (String (digit (n / 10 / 10 mod 10))
                    (String (digit (n / 10 mod 10)) (String (digit (n mod 10)) EmptyString))).
Proof.
  intros Hn. unfold z_to_string.
  replace (n <? 0)%Z with false by (symmetry; apply Z.ltb_ge; lia).
  assert (H1 : (100 <= n / 10 < 1000)%Z) by (split; [apply Z.div_le_lower_bound|apply Z.div_lt_upper_bound]; lia).
  assert (H2 : (10 <= n / 10 / 10 < 100)%Z) by (split; [apply Z.div_le_lower_bound|apply Z.div_lt_upper_bound]; lia).
  assert (H3 : (1 <= n / 10 / 10 / 10 < 10)%Z) by (split; [apply Z.div_le_lower_bound|apply Z.div_lt_upper_bound]; lia).
  cbn [digits_of_pos].
  replace (n <? 10)%Z with false by (symmetry; apply Z.ltb_ge; lia).
  replace (n / 10 <? 10)%Z with false by (symmetry; apply Z.ltb_ge; lia).
  replace (n / 10 / 10 <? 10)%Z with false by (symmetry; apply Z.ltb_ge; lia).
  replace (n / 10 / 10 / 10 <? 10)%Z with true by (symmetry; apply Z.ltb_lt; lia).
  rewrite (Z.mod_small (n / 10 / 10 / 10) 10) by lia. reflexivity.
Qed.

Lemma pad2_compare (x y : Z) :
  (0 <= x < 100)%Z -> (0 <= y < 100)%Z -> String.compare (pad2 x) (pad2 y) = Z.compare x y.
Proof.
  intros Hx Hy. rewrite (z_to_string_two x Hx), (z_to_string_two y Hy).
  assert (Bx : (0 <= x / 10 < 10)%Z) by (split; [apply Z.div_pos|apply Z.div_lt_upper_bound]; lia).
  assert (By : (0 <= y / 10 < 10)%Z) by (split; [apply Z.div_pos|apply Z.div_lt_upper_bound]; lia).
  cbn [String.compare]. rewrite (digit_compare _ _ Bx By).
  rewrite (digit_compare (x mod 10) (y mod 10)) by (apply Z.mod_pos_bound; lia).
  rewrite (compare_digits x y) by lia.
  destruct (Z.compare (x / 10) (y / 10)); [|reflexivity|reflexivity].
  cbn [lex]. destruct (Z.compare (x mod 10) (y mod 10)); reflexivity.
Qed.

Lemma year_compare (x y : Z) :
  (1000 <= x <= 9999)%Z -> (1000 <= y <= 9999)%Z ->
  String.compare (z_to_string x) (z_to_string y) = Z.compare x y.
Proof.
  intros Hx Hy. rewrite (z_to_string_four x Hx), (z_to_string_four y Hy).
  assert (B : forall n, (1000 <= n <= 9999)%Z ->
     (0 <= n / 10 / 10 / 10 < 10)%Z /\ (0 <= n / 10 / 10 mod 10 < 10)%Z
     /\ (0 <= n / 10 mod 10 < 10)%Z /\ (0 <= n mod 10 < 10)%Z /\ (0 <= n / 10)%Z /\ (0 <= n / 10 / 10)%Z).
  { intros n Hn.
    assert ((100 <= n / 10 < 1000)%Z) by (split; [apply Z.div_le_lower_bound|apply Z.div_lt_upper_bound]; lia).
    assert ((10 <= n / 10 / 10 < 100)%Z) by (split; [apply Z.div_le_lower_bound|apply Z.div_lt_upper_bound]; lia).
    assert ((1 <= n / 10 / 10 / 10 < 10)%Z) by (split; [apply Z.div_le_lower_bound|apply Z.div_lt_upper_bound]; lia).
    repeat split; try lia; apply Z.mod_pos_bound; lia. }
  destruct (B x Hx) as (x1 & x2 & x3 & x4 & x5 & x6). destruct (B y Hy) as (y1 & y2 & y3 & y4 & y5 & y6).
  cbn [String.compare].
  rewrite (digit_compare _ _ x1 y1), (digit_compare _ _ x2 y2), (digit_compare _ _ x3 y3),
    (digit_compare _ _ x4 y4).
  rewrite (compare_digits x y), (compare_digits (x / 10) (y / 10)),
    (compare_digits (x / 10 / 10) (y / 10 / 10)) by lia.
  rewrite !lex_assoc.
  destruct (Z.compare (x / 10 / 10 / 10) _); try reflexivity. cbn [lex].
  destruct (Z.compare (x / 10 / 10 mod 10) _); try reflexivity. cbn [lex].
  destruct (Z.compare (x / 10 mod 10) _); try reflexivity. cbn [lex].
  destruct (Z.compare (x mod 10) _); reflexivity.
Qed.

Lemma string_compare_refl (s : string) : String.compare s s = Eq.
Proof.
  induction s as [|c s IH]; [reflexivity|]. cbn [String.compare].
  unfold Ascii.compare. rewrite N.compare_refl. exact IH.
Qed.

Lemma pad2_length (x : Z) : (0 <= x < 100)%Z -> String.length (pad2 x) = 2%nat.
Proof. intros Hx. rewrite (z_to_string_two x Hx). reflexivity. Qed.

Lemma year_length (x : Z) : (1000 <= x <= 9999)%Z -> String.length (z_to_string x) = 4%nat.
Proof. intros Hx. rewrite (z_to_string_four x Hx). reflexivity. Qed.

(** X17: for four-digit years and fields below 100, the run ids [create_run_dir] makes sort as strings in chronological order, and two different seconds give two different ids. *)
Theorem run_ids_sort_chronologically (t1 t2 : datetime) :
  dt_in_range t1 -> dt_in_range t2 ->
  String.compare (strftime_run_id t1) (strftime_run_id t2) = dt_compare t1 t2
  /\ (strftime_run_id t1 = strftime_run_id t2 -> t1 = t2).
Proof.
  intros H1 H2.
  assert (Hc : String.compare (strftime_run_id t1) (strftime_run_id t2) = dt_compare t1 t2).
  { destruct H1 as (Y1 & M1 & D1 & h1 & m1 & s1). destruct H2 as (Y2 & M2 & D2 & h2 & m2 & s2).
    unfold strftime_run_id, dt_compare.
    rewrite (string_compare_app (z_to_string (dt_year t1))) by (rewrite !year_length; auto).
    rewrite (year_compare _ _ Y1 Y2).
    cbn [String.append String.compare Ascii.compare]. cbv [lex] ; fold lex.
    destruct (Z.compare (dt_year t1) (dt_year t2)); try reflexivity.
    rewrite (string_compare_app (pad2 (dt_month t1))) by (rewrite !pad2_length; auto).
    rewrite (pad2_compare _ _ M1 M2).
    destruct (Z.compare (dt_month t1) (dt_month t2)); try reflexivity.
    cbn [String.append String.compare Ascii.compare N.compare].
    rewrite (string_compare_app (pad2 (dt_day t1))) by (rewrite !pad2_length; auto).
    rewrite (pad2_compare _ _ D1 D2).
    destruct (Z.compare (dt_day t1) (dt_day t2)); try reflexivity.
    cbn [String.append String.compare Ascii.compare N.compare].
    rewrite (string_compare_app (pad2 (dt_hour t1))) by (rewrite !pad2_length; auto).
    rewrite (pad2_compare _ _ h1 h2).
    destruct (Z.compare (dt_hour t1) (dt_hour t2)); try reflexivity. cbn [lex].
    rewrite (string_compare_app (pad2 (dt_minute t1))) by (rewrite !pad2_length; auto).
    rewrite (pad2_compare _ _ m1 m2).
    destruct (Z.compare (dt_minute t1) (dt_minute t2)); try reflexivity. cbn [lex].
    apply pad2_compare; assumption. }
  split; [exact Hc|].
  intros He. rewrite He in Hc. replace (String.compare (strftime_run_id t2) (strftime_run_id t2)) with Eq in Hc
    by (symmetry; apply string_compare_refl).
  destruct t1, t2; unfold dt_compare in Hc; cbn [dt_year dt_month dt_day dt_hour dt_minute dt_second] in Hc.
  repeat match type of Hc with
         | Eq = lex (Z.compare ?a ?b) _ => destruct (Z.compare_spec a b); [cbn [lex] in Hc|discriminate|discriminate]
         | Eq = Z.compare ?a ?b => apply eq_sym, Z.compare_eq_iff in Hc
         end.
  subst. reflexivity.
Qed.

Lemma set_entry_same (n : string) (c : node) (d : dir) :
  lookup_entry n d = Some c -> set_entry n c d = d.
Proof.
  induction d as [|[k c'] t IH]; cbn; [discriminate|].
  destruct (String.eqb_spec k n) as [->|_]; intros H.
  - injection H as ->. reflexivity.
  - rewrite (IH H). reflexivity.
Qed.

Lemma mkdir_p_idem (p : path) :
  forall d d', mkdir_p p d = inr d' -> mkdir_p p d' = inr d'.
Proof.
  induction p as [|x r IH]; intros d d' H; cbn [mkdir_p] in H |- *.
  - cbv [ret] in H |- *. injection H as <-. reflexivity.
  - destruct (lookup_entry x d) as [[c m|sub]|] eqn:E.
    + discriminate.
    + destruct (mkdir_p r sub) as [e|sub'] eqn:Es; cbn in H; [discriminate|].
      injection H as <-. rewrite lookup_set_entry, String.eqb_refl.
      rewrite (IH _ _ Es). cbn. rewrite set_entry_same; [reflexivity|].
      rewrite lookup_set_entry, String.eqb_refl. reflexivity.
    + destruct (mkdir_p r []) as [e|sub'] eqn:Es; cbn in H; [discriminate|].
      injection H as <-. rewrite lookup_set_entry, String.eqb_refl.
      rewrite (IH _ _ Es). cbn. rewrite set_entry_same; [reflexivity|].
      rewrite lookup_set_entry, String.eqb_refl. reflexivity.
Qed.

(** X18: [create_run_dir] returns [runs_dir/timestamp]; a second call in the same second returns the same directory and leaves the tree unchanged. *)
Theorem create_run_dir_same_second (runs_dir : path) (now : datetime) (fs fs' : dir) (p : path) :
  create_run_dir runs_dir now fs = (inr p, fs') ->
  p = pjoin runs_dir (strftime_run_id now)
  /\ create_run_dir runs_dir now fs' = (inr p, fs').
Proof.
  unfold create_run_dir, fs_bind, fs_update, fs_ret.
  destruct (mkdir_p (pjoin runs_dir (strftime_run_id now)) fs) as [e|d] eqn:E; intros H;
    [discriminate|].
  injection H as <- <-. split; [reflexivity|].
  rewrite (mkdir_p_idem _ _ _ E). reflexivity.
Qed.

Lemma find_changed_files_no_original_complete_witness :
  wf_dir [("a", NFile "x" 0%Z); ("d", NDir [("b", NFile "y" 1%Z)])] = true
  /\ (In ["d"; "b"] (_find_changed_files None [("a", NFile "x" 0%Z); ("d", NDir [("b", NFile "y" 1%Z)])] [".env"])
      <-> (exists c t, node_at ["d"; "b"] (NDir [("a", NFile "x" 0%Z); ("d", NDir [("b", NFile "y" 1%Z)])])
                       = Some (NFile c t))
          /\ excluded [".env"] (last ["d"; "b"] "") = false).
Proof.
  split; [vm_compute; reflexivity|].
  apply (find_changed_files_no_original_complete _ [".env"] ["d"; "b"]). vm_compute. reflexivity.
Defined.




Lemma prepare_environment_mcp_manifest_witness :
  exists env mp,
    prepare_environment offline_world
      [("scenarios", NDir [("s1", NDir [(".env", NFile "K=1" 5%Z)])])]
      ["scenarios"; "s1"] ["ctx"] [] (Some (JObj [("srv", JObj [])])) = inr (env, mp)
    /\ ((mp <> None <-> exists m, Some (JObj [("srv", JObj [])]) = Some m /\ truthy m = true)
        /\ forall m, Some (JObj [("srv", JObj [])]) = Some m -> truthy m = true ->
           mp = Some (w_tmp_dir offline_world ++ "/.claude/mcp-servers.json")
           /\ node_at [".claude"; "mcp-servers.json"] (NDir env)
              = Some (NFile (w_json_dumps offline_world (JObj [("mcpServers", m)])) 0)
           /\ (forall c t, fs_lookup [("scenarios", NDir [("s1", NDir [(".env", NFile "K=1" 5%Z)])])]
                             (["scenarios"; "s1"] ++ [".env"])%list = Some (NFile c t) ->
                 node_at [".env"] (NDir env) = Some (NFile c 0))).
Proof.
  eexists; eexists. split; [vm_compute; reflexivity|].
  apply (prepare_environment_mcp_manifest offline_world
           [("scenarios", NDir [("s1", NDir [(".env", NFile "K=1" 5%Z)])])]
           ["scenarios"; "s1"] ["ctx"] [] (Some (JObj [("srv", JObj [])]))).
  vm_compute. reflexivity.
Defined.



Lemma parse_json_output_tools_once_witness :
  exists r,
    _parse_json_output py_json_loads
      (assistant_line ("[" ++ obj_line [("type", jq "tool_use"); ("name", jq "Bash")] ++ ","
                       ++ obj_line [("type", jq "tool_use"); ("name", jq "Bash")] ++ "]")) = inr r
    /\ set_like (tools_used r).
Proof.
  eexists. split; [vm_compute; reflexivity|].
  apply (parse_json_output_tools_once py_json_loads
           (assistant_line ("[" ++ obj_line [("type", jq "tool_use"); ("name", jq "Bash")] ++ ","
                            ++ obj_line [("type", jq "tool_use"); ("name", jq "Bash")] ++ "]"))).
  vm_compute. reflexivity.
Defined.



Lemma run_claude_appends_stderr_witness :
  "warning: slow" <> ""
  /\ ((exists before, output_text (cr_parsed (run_claude py_json_loads 600 120
          (Ran (inject_Z 0) [exit_tick] 0%Z "" "warning: slow")))
        = before ++ nl ++ nl ++ "[stderr]" ++ nl ++ "warning: slow")
      \/ (cr_parsed (run_claude py_json_loads 600 120 (Ran (inject_Z 0) [exit_tick] 0%Z "" "warning: slow"))
            = initial_result
          /\ cr_success (run_claude py_json_loads 600 120 (Ran (inject_Z 0) [exit_tick] 0%Z "" "warning: slow"))
             = false
          /\ cr_raw (run_claude py_json_loads 600 120 (Ran (inject_Z 0) [exit_tick] 0%Z "" "warning: slow"))
             = ""
          /\ exists e, cr_error (run_claude py_json_loads 600 120
                          (Ran (inject_Z 0) [exit_tick] 0%Z "" "warning: slow")) = Some e)).
Proof.
  split; [discriminate|].
  exact (run_claude_appends_stderr py_json_loads 600 120 (inject_Z 0) [exit_tick] 0%Z "" "warning: slow"
           ltac:(discriminate)).
Defined.

Lemma run_ids_sort_chronologically_witness :
  dt_in_range (mk_datetime 2026 10 19 9 5 59) /\ dt_in_range (mk_datetime 2026 10 19 10 0 0)
  /\ String.compare (strftime_run_id (mk_datetime 2026 10 19 9 5 59))
                    (strftime_run_id (mk_datetime 2026 10 19 10 0 0))
     = dt_compare (mk_datetime 2026 10 19 9 5 59) (mk_datetime 2026 10 19 10 0 0)
  /\ (strftime_run_id (mk_datetime 2026 10 19 9 5 59) = strftime_run_id (mk_datetime 2026 10 19 10 0 0)
      -> mk_datetime 2026 10 19 9 5 59 = mk_datetime 2026 10 19 10 0 0).
Proof.
  assert (H1 : dt_in_range (mk_datetime 2026 10 19 9 5 59)) by (unfold dt_in_range; cbn; lia).
  assert (H2 : dt_in_range (mk_datetime 2026 10 19 10 0 0)) by (unfold dt_in_range; cbn; lia).
  split; [exact H1|]. split; [exact H2|].
  exact (run_ids_sort_chronologically _ _ H1 H2).
Defined.

Lemma create_run_dir_same_second_witness :
  exists p fs',
    create_run_dir ["evals"; "runs"] (mk_datetime 2026 10 19 9 5 59) [] = (inr p, fs')
    /\ p = pjoin ["evals"; "runs"] (strftime_run_id (mk_datetime 2026 10 19 9 5 59))
    /\ create_run_dir ["evals"; "runs"] (mk_datetime 2026 10 19 9 5 59) fs' = (inr p, fs').
Proof.
  eexists; eexists. split; [vm_compute; reflexivity|].
  apply create_run_dir_same_second with (fs := []). vm_compute. reflexivity.
Defined.

Lemma find_changed_files_leaf_not_excluded_witness :
  In ["d"; "b"] (_find_changed_files None [("a", NFile "x" 0%Z); ("d", NDir [("b", NFile "y" 1%Z)])] [".env"])
  /\ (["d"; "b"] <> [] /\ excluded [".env"] (last ["d"; "b"] "") = false).
Proof.
  assert (H : In ["d"; "b"] (_find_changed_files None
                [("a", NFile "x" 0%Z); ("d", NDir [("b", NFile "y" 1%Z)])] [".env"]))
    by (vm_compute; right; left; reflexivity).
  split; [exact H|]. exact (find_changed_files_leaf_not_excluded _ _ _ _ H).
Defined.
